(** * mcp-python-repl: sessions, executor and server operations

    A shallow embedding of [config.py], [session.py], [executor.py] and the
    variable tools of [server.py], with the properties of the design
    document stated against it.

    Conventions of the embedding.
    - A Python [str] is a [string]; [len] is [String.length] (characters).
    - A Python [dict] is an association list in insertion order
      ([Dict.t]); iteration, [min] and the reported variable lists follow
      that order.
    - A namespace value is an object reference ([Value]); [is] is equality
      of references.  What a reference points to lives in a separate heap
      that only the interpreter touches.
    - [datetime.now] is read from [Clock], the successive readings made
      during one call, in microseconds.
    - [exec] is the interpreter: a parameter of the development. *)

From Stdlib Require Import String Ascii List ZArith Lia Bool Arith.
From Stdlib Require Import DecimalString.
From Stdlib Require DecimalNat DecimalFacts.
Import ListNotations.

Local Open Scope string_scope.
Local Open Scope Z_scope.

Set Implicit Arguments.

(** ** Python strings *)

Module PyStr.

(** [len(s)] as a Python int. *)
Definition len (s : string) : Z := Z.of_nat (String.length s).

(** [str(n)] for a non-negative int. *)
Definition of_nat (n : nat) : string := NilZero.string_of_uint (Nat.to_uint n).

(** [c.isspace()] on the code points below 256: TAB..CR, FS..US, SPACE,
    NEL and NBSP. *)
Definition isspace (c : ascii) : bool :=
  let n := nat_of_ascii c in
  ((9 <=? n) && (n <=? 13) || (28 <=? n) && (n <=? 32)
   || (n =? 133) || (n =? 160))%nat.

Fixpoint lstrip (s : string) : string :=
  match s with
  | EmptyString => EmptyString
  | String c r => if isspace c then lstrip r else s
  end.

Fixpoint rev_onto (s acc : string) : string :=
  match s with
  | EmptyString => acc
  | String c r => rev_onto r (String c acc)
  end.

Definition rev (s : string) : string := rev_onto s EmptyString.

Definition rstrip (s : string) : string := rev (lstrip (rev s)).

(** [s.strip()] *)
Definition strip (s : string) : string := rstrip (lstrip s).

(** Every character of [s] is white space ([s] may be empty). *)
Fixpoint all_space (s : string) : bool :=
  match s with
  | EmptyString => true
  | String c r => isspace c && all_space r
  end.

(** Python truthiness of a str. *)
Definition truthy (s : string) : bool :=
  match s with EmptyString => false | _ => true end.

(** [s.startswith(p)] *)
Definition startswith (p s : string) : bool := String.prefix p s.

(** [s.split(sep)[0]] for a one-character separator: the text before the
    first separator, the whole of [s] when there is none. *)
Fixpoint split_head (sep : ascii) (s : string) : string :=
  match s with
  | EmptyString => EmptyString
  | String c r => if Ascii.eqb c sep then EmptyString else String c (split_head sep r)
  end.

Fixpoint take (n : nat) (s : string) : string :=
  match n, s with
  | O, _ => EmptyString
  | S _, EmptyString => EmptyString
  | S m, String c r => String c (take m r)
  end.

(** [s[:stop]]: a negative [stop] counts from the end. *)
Definition slice_to (s : string) (stop : Z) : string :=
  if 0 <=? stop then take (Z.to_nat stop) s
  else take (Z.to_nat (len s + stop)) s.

(** [s.replace("\n", "\\n")] *)
Fixpoint escape_newlines (s : string) : string :=
  match s with
  | EmptyString => EmptyString
  | String c r =>
      if Ascii.eqb c "010"%char
      then String "\"%char (String "n"%char (escape_newlines r))
      else String c (escape_newlines r)
  end.

(** [sep.join(l)] *)
Fixpoint join (sep : string) (l : list string) : string :=
  match l with
  | [] => EmptyString
  | [x] => x
  | x :: r => x ++ sep ++ join sep r
  end.

(** [x in l] for a tuple, list or frozenset of str. *)
Definition mem (x : string) (l : list string) : bool :=
  existsb (String.eqb x) l.

(** [sorted(l)] on str: insertion sort by code point order. *)
Fixpoint insert_sorted (x : string) (l : list string) : list string :=
  match l with
  | [] => [x]
  | y :: r => if String.leb x y then x :: l else y :: insert_sorted x r
  end.

Definition sorted (l : list string) : list string :=
  fold_right insert_sorted [] l.

(** [int(s)] for a text of decimal digits; [None] stands for the
    [ValueError]. *)
Definition to_nat (s : string) : option nat :=
  option_map Nat.of_uint (NilZero.uint_of_string s).

(** [len(s.encode())]: the size of the UTF-8 encoding, in bytes.  A code
    point below 128 takes one byte, the others below 256 take two. *)
Fixpoint utf8_len (s : string) : Z :=
  match s with
  | EmptyString => 0
  | String c r => (if (nat_of_ascii c <? 128)%nat then 1 else 2) + utf8_len r
  end.

(** [c in s] for a character. *)
Fixpoint has (c : ascii) (s : string) : bool :=
  match s with
  | EmptyString => false
  | String a r => Ascii.eqb a c || has c r
  end.

(** [c.isprintable()] on the code points below 256: neither a control
    character, nor NBSP, nor the soft hyphen. *)
Definition isprintable (c : ascii) : bool :=
  let n := nat_of_ascii c in
  ((32 <=? n) && (n <=? 126) || (161 <=? n) && negb (n =? 173))%nat.

(** The two lower-case hexadecimal digits of a code point below 256. *)
Definition hex_digit (n : nat) : ascii :=
  match String.get n "0123456789abcdef" with
  | Some c => c
  | None => "f"%char
  end.

Definition hex2 (n : nat) : string :=
  String (hex_digit (n / 16)) (String (hex_digit (n mod 16)) EmptyString).

(** The quote [repr] encloses a str in: the double quote when the text
    holds a single quote and no double quote, the single quote
    otherwise. *)
Definition repr_quote (s : string) : ascii :=
  if has "039"%char s && negb (has "034"%char s) then "034"%char else "039"%char.

(** The characters of [repr(s)] between the quotes: the quote and the
    backslash are escaped, TAB, LF and CR are written [\t], [\n], [\r],
    any other character that is not printable is written [\xhh]. *)
Fixpoint repr_body (q : ascii) (s : string) : string :=
  match s with
  | EmptyString => EmptyString
  | String c r =>
      let rest := repr_body q r in
      if Ascii.eqb c q || Ascii.eqb c "092"%char then String "092"%char (String c rest)
      else if Ascii.eqb c "009"%char then String "092"%char (String "t"%char rest)
      else if Ascii.eqb c "010"%char then String "092"%char (String "n"%char rest)
      else if Ascii.eqb c "013"%char then String "092"%char (String "r"%char rest)
      else if isprintable c then String c rest
      else String "092"%char (String "x"%char (hex2 (nat_of_ascii c) ++ rest))
  end.

(** [repr(s)] *)
Definition repr (s : string) : string :=
  let q := repr_quote s in
  String q (repr_body q s ++ String q EmptyString).

End PyStr.

(** ** Python dicts, in insertion order *)

Module Dict.
Section Dict.
Variable V : Type.

Definition t := list (string * V).

Definition empty : t := [].

(** [d.get(k)] *)
Fixpoint get (d : t) (k : string) : option V :=
  match d with
  | [] => None
  | (k', v) :: r => if String.eqb k' k then Some v else get r k
  end.

(** [k in d] *)
Definition contains (d : t) (k : string) : bool :=
  match get d k with Some _ => true | None => false end.

(** [d[k] = v]: the value is replaced where the key stands, a new key
    goes to the end. *)
Fixpoint set (d : t) (k : string) (v : V) : t :=
  match d with
  | [] => [(k, v)]
  | (k', v') :: r =>
      if String.eqb k' k then (k', v) :: r else (k', v') :: set r k v
  end.

(** [d.pop(k, None)], and [del d[k]] where [k] is present. *)
Definition pop (d : t) (k : string) : t :=
  filter (fun kv => negb (String.eqb (fst kv) k)) d.

Definition keys (d : t) : list string := map fst d.

Definition values (d : t) : list V := map snd d.

(** The keys of a dict are pairwise distinct. *)
Fixpoint wf (d : t) : bool :=
  match d with
  | [] => true
  | (k, _) :: r => negb (contains r k) && wf r
  end.

End Dict.
End Dict.

Arguments Dict.empty {V}.

(** ** config.py *)

Definition DEFAULT_TIMEOUT_SECONDS : Z := 30.
Definition DEFAULT_MAX_SESSIONS : Z := 50.
Definition DEFAULT_SESSION_TTL_MINUTES : Z := 120.
Definition DEFAULT_MAX_OUTPUT_BYTES : Z := 1048576.
Definition DEFAULT_LOG_ENTRIES : Z := 200.

Definition SANDBOXED_BLOCKED_MODULES : list string :=
  [ "subprocess"; "shutil"; "ctypes"; "socket"; "http.server"; "xmlrpc";
    "ftplib"; "smtplib"; "telnetlib"; "webbrowser"; "antigravity" ].

Definition SANDBOXED_BLOCKED_BUILTINS : list string :=
  [ "exec"; "eval"; "compile"; "__import__" ].

Record Config := mkConfig {
  timeout_seconds : Z;
  max_sessions : Z;
  session_ttl_minutes : Z;
  max_output_bytes : Z;
  max_log_entries : Z;
  sandbox_enabled : bool
}.

Definition default_config : Config :=
  mkConfig DEFAULT_TIMEOUT_SECONDS DEFAULT_MAX_SESSIONS
           DEFAULT_SESSION_TTL_MINUTES DEFAULT_MAX_OUTPUT_BYTES
           DEFAULT_LOG_ENTRIES false.

(** ** Objects and references *)

(** A reference to a heap object: what [id] returns. *)
Definition Ref := nat.

(** What a name is bound to.  The [builtins] module is one global object;
    everything else is reached through a reference. *)
Inductive Value :=
| VRef (r : Ref)
| VBuiltinsModule.

(** [a is b] *)
Definition Value_is (a b : Value) : bool :=
  match a, b with
  | VRef x, VRef y => Nat.eqb x y
  | VBuiltinsModule, VBuiltinsModule => true
  | _, _ => false
  end.

(** An entry of a builtins table: a function of the interpreter, or the
    checked import installed by the sandbox. *)
Inductive BuiltinEntry :=
| Native (name : string)
| RestrictedImport.

(** Heap objects: a capability table built for one sandboxed call, or a
    piece of user data, of which only a printable content is kept. *)
Inductive Obj :=
| OCapabilities (table : Dict.t BuiltinEntry)
| OData (content : string).

(** The heap: object [r] is the [r]-th cell. *)
Definition Heap := list Obj.

Definition alloc (h : Heap) (o : Obj) : Ref * Heap :=
  (length h, (h ++ [o])%list).

Definition deref (h : Heap) (r : Ref) : option Obj := nth_error h r.

(** ** session.py *)

(** A [datetime], in microseconds. *)
Definition Time := Z.

(** The successive readings of [datetime.now] during one call. *)
Definition Clock := nat -> Time.

Definition advance (n : nat) (clk : Clock) : Clock := fun i => clk (n + i)%nat.

Record ExecutionRecord := mkRecord {
  timestamp : Time;
  code_preview : string;
  rec_status : string;
  rec_new_vars : list string;
  rec_modified_vars : list string;
  rec_error : option string
}.

Record Session := mkSession {
  session_id : string;
  created_at : Time;
  last_used : Time;
  namespace : Dict.t Value;
  history : list ExecutionRecord
}.

Definition with_namespace (s : Session) (ns : Dict.t Value) : Session :=
  mkSession (session_id s) (created_at s) (last_used s) ns (history s).

Definition with_history (s : Session) (h : list ExecutionRecord) : Session :=
  mkSession (session_id s) (created_at s) (last_used s) (namespace s) h.

(** [Session.touch] *)
Definition touch (s : Session) (now : Time) : Session :=
  mkSession (session_id s) (created_at s) now (namespace s) (history s).

(** [timedelta(minutes=m)] *)
Definition minutes (m : Z) : Z := m * 60000000.

(** [Session.is_expired] *)
Definition is_expired (s : Session) (ttl_minutes : Z) (now : Time) : bool :=
  minutes ttl_minutes <? now - last_used s.

(** The keys of [Session.variable_summary]. *)
Definition user_name (k : string) : bool := negb (PyStr.startswith "_" k).

(** [Session.variable_summary]: [type_name] gives [type(v).__name__]. *)
Definition variable_summary (type_name : Value -> string) (s : Session)
  : Dict.t string :=
  map (fun kv => (fst kv, type_name (snd kv)))
      (filter (fun kv => user_name (fst kv)) (namespace s)).

Record SessionManager := mkManager {
  _config : Config;
  _sessions : Dict.t Session
}.

Definition with_sessions (m : SessionManager) (d : Dict.t Session) : SessionManager :=
  mkManager (_config m) d.

(** [SessionManager.__init__] *)
Definition new_manager (cfg : Config) : SessionManager := mkManager cfg Dict.empty.

(** The comprehension of [_evict_expired]: one clock reading per session. *)
Fixpoint expired_ids (items : Dict.t Session) (ttl : Z) (clk : Clock) : list string :=
  match items with
  | [] => []
  | (sid, s) :: r =>
      let rest := expired_ids r ttl (advance 1 clk) in
      if is_expired s ttl (clk 0%nat) then sid :: rest else rest
  end.

(** [SessionManager._evict_expired] *)
Definition _evict_expired (m : SessionManager) (clk : Clock) : SessionManager :=
  let expired := expired_ids (_sessions m) (session_ttl_minutes (_config m)) clk in
  with_sessions m (fold_left (fun d sid => Dict.pop d sid) expired (_sessions m)).

(** [min(iterable, key=...)]: the first element whose key is smallest;
    [None] stands for the [ValueError] on an empty iterable. *)
Definition py_min (A : Type) (key : A -> Z) (l : list A) : option A :=
  match l with
  | [] => None
  | x :: r => Some (fold_left (fun best y => if key y <? key best then y else best) r x)
  end.

(** [self._sessions[sid].last_used] for a [sid] drawn from the dict. *)
Definition last_used_of (d : Dict.t Session) (sid : string) : Time :=
  match Dict.get d sid with
  | Some s => last_used s
  | None => 0
  end.

(** [SessionManager.create_session].  [new_id] is [uuid4().hex[:12]].
    The result is [None] when [min] raises on an empty store. *)
Definition create_session (m : SessionManager) (clk : Clock) (new_id : string)
  : option Session * SessionManager :=
  let m1 := _evict_expired m clk in
  let clk1 := advance (length (_sessions m)) clk in
  let fresh :=
    let now := clk1 0%nat in mkSession new_id now now Dict.empty [] in
  if max_sessions (_config m1) <=? Z.of_nat (length (_sessions m1)) then
    match py_min (last_used_of (_sessions m1)) (Dict.keys (_sessions m1)) with
    | None => (None, m1)
    | Some oldest_id =>
        let d := Dict.pop (_sessions m1) oldest_id in
        (Some fresh, with_sessions m1 (Dict.set d new_id fresh))
    end
  else (Some fresh, with_sessions m1 (Dict.set (_sessions m1) new_id fresh)).

(** [SessionManager.get_session]: the first reading is [is_expired]'s, the
    second is [touch]'s.  The returned session is the stored object. *)
Definition get_session (m : SessionManager) (sid : string) (clk : Clock)
  : option Session * SessionManager :=
  match Dict.get (_sessions m) sid with
  | None => (None, m)
  | Some s =>
      if is_expired s (session_ttl_minutes (_config m)) (clk 0%nat)
      then (None, with_sessions m (Dict.pop (_sessions m) sid))
      else let s' := touch s (clk 1%nat) in
           (Some s', with_sessions m (Dict.set (_sessions m) sid s'))
  end.

(** [SessionManager.get_or_create] *)
Definition get_or_create (m : SessionManager) (sid : option string)
           (clk : Clock) (new_id : string)
  : option Session * SessionManager :=
  match sid with
  | Some id =>
      if PyStr.truthy id then
        match get_session m id clk with
        | (Some s, m') => (Some s, m')
        | (None, m') =>
            let reads := if Dict.contains (_sessions m) id then 1%nat else 0%nat in
            create_session m' (advance reads clk) new_id
        end
      else create_session m clk new_id
  | None => create_session m clk new_id
  end.

(** [SessionManager.delete_session] *)
Definition delete_session (m : SessionManager) (sid : string)
  : bool * SessionManager :=
  (Dict.contains (_sessions m) sid, with_sessions m (Dict.pop (_sessions m) sid)).

Record SessionInfo := mkInfo {
  info_session_id : string;
  info_created_at : Time;
  info_last_used : Time;
  info_variable_count : nat;
  info_history_count : nat
}.

Definition session_info (s : Session) : SessionInfo :=
  mkInfo (session_id s) (created_at s) (last_used s)
         (length (filter (fun kv => user_name (fst kv)) (namespace s)))
         (length (history s)).

(** [SessionManager.list_sessions] *)
Definition list_sessions (m : SessionManager) (clk : Clock)
  : list SessionInfo * SessionManager :=
  let m1 := _evict_expired m clk in
  (map session_info (Dict.values (_sessions m1)), m1).

(** [SessionManager.count] *)
Definition count (m : SessionManager) : nat := length (_sessions m).

(** Every session is stored under its own identifier. *)
Definition ids_match (d : Dict.t Session) : bool :=
  forallb (fun kv => String.eqb (fst kv) (session_id (snd kv))) d.

(** The store lists its sessions from the earliest created to the latest. *)
Fixpoint creation_ordered (d : Dict.t Session) : bool :=
  match d with
  | [] => true
  | (_, s) :: r =>
      forallb (fun kv => created_at s <=? created_at (snd kv)) r && creation_ordered r
  end.

(** ** executor.py *)

Record ExecutionResult := mkResult {
  status : string;
  result : option Value;
  stdout : string;
  stderr : string;
  error_type : option string;
  error_message : option string;
  error_traceback : option string;
  error_line : option Z;
  hint : option string;
  new_vars : option (list string);
  modified_vars : option (list string)
}.

(** What can leave the guarded block of [execute_code], by the handler
    that receives it. *)
Inductive PyException :=
| TimeoutError                                   (* executor.TimeoutError *)
| SyntaxError (msg : string) (lineno : option Z) (text : string)
| NameError (text : string)
| OtherException (type_name text : string)       (* any other Exception *)
| BaseExceptionOnly (type_name : string).        (* SystemExit, KeyboardInterrupt, ... *)

(** What the guarded block leaves behind: the execution namespace as the
    code left it, the heap, both captured streams, and the exception that
    ended it, if any. *)
Record ExecOutcome := mkOutcome {
  out_ns : Dict.t Value;
  out_heap : Heap;
  out_stdout : string;
  out_stderr : string;
  raised : option PyException
}.

(** How a call of [execute_code] ends: it returns, or an exception that no
    handler takes leaves it. *)
Inductive CallResult :=
| Returned (res : ExecutionResult)
| Propagated (exc : PyException).

(** [x or None] for a list. *)
Definition or_None (A : Type) (l : list A) : option (list A) :=
  match l with [] => None | _ => Some l end.

(** The marker of [_truncate]: a newline, then the original length. *)
Definition truncation_marker (n : nat) : string :=
  String "010"%char "... [truncated, " ++ PyStr.of_nat n ++ " total chars]".

(** [_truncate] *)
Definition _truncate (text : string) (max_bytes : Z) : string :=
  if PyStr.len text <=? max_bytes then text
  else PyStr.slice_to text max_bytes ++ truncation_marker (String.length text).

(** [_record]; [now] is the reading of [datetime.now]. *)
Definition _record (session : Session) (code : string) (st : string)
           (new_vars modified_vars : list string) (error : option string)
           (now : Time) : Session :=
  let preview := PyStr.escape_newlines (PyStr.slice_to code 120) in
  let preview := if 120 <? PyStr.len code then preview ++ "..." else preview in
  with_history session
    (history session ++ [mkRecord now preview st new_vars modified_vars error])%list.

(** The guard of [execute_code]: [not code or not code.strip()]. *)
Definition blank (code : string) : bool :=
  negb (PyStr.truthy code) || negb (PyStr.truthy (PyStr.strip code)).

(** The test of the reconciliation loop: names that are never persisted. *)
Definition reserved (key : string) : bool :=
  PyStr.startswith "_" key || PyStr.mem key ["__builtins__"; "result"].

(** One round of the reconciliation loop, on the session namespace and the
    two lists built so far. *)
Definition persist_step (acc : Dict.t Value * list string * list string)
           (kv : string * Value) : Dict.t Value * list string * list string :=
  let '(ns, new_vars, modified_vars) := acc in
  let (key, value) := kv in
  if reserved key then acc
  else match Dict.get ns key with
       | None => (Dict.set ns key value, (new_vars ++ [key])%list, modified_vars)
       | Some old =>
           if Value_is old value then acc
           else (Dict.set ns key value, new_vars, (modified_vars ++ [key])%list)
       end.

Definition persist (ns : Dict.t Value) (exec_ns : Dict.t Value)
  : Dict.t Value * list string * list string :=
  fold_left persist_step exec_ns (ns, [], []).

(** The classification of the design document, read off the namespace
    before the call and the one the code left: a name that is not reserved
    is new when it was not bound before, modified when it was bound to
    another object. *)
Definition classified_new (ns exec_ns : Dict.t Value) : list string :=
  Dict.keys
    (filter (fun kv => negb (reserved (fst kv)) && negb (Dict.contains ns (fst kv)))
            exec_ns).

Definition classified_modified (ns exec_ns : Dict.t Value) : list string :=
  Dict.keys
    (filter (fun kv => negb (reserved (fst kv))
                       && match Dict.get ns (fst kv) with
                          | Some old => negb (Value_is old (snd kv))
                          | None => false
                          end)
            exec_ns).

(** What one round may change, whatever the keys of the iterated dict. *)
Definition frame_ok (before after : Dict.t Value * list string * list string) : Prop :=
  let '(ns, nv, mv) := before in
  let '(ns', nv', mv') := after in
  (forall k, reserved k = true -> Dict.get ns' k = Dict.get ns k)
  /\ (forall k, In k nv' -> In k nv \/ reserved k = false)
  /\ (forall k, In k mv' -> In k mv \/ reserved k = false)
  /\ (forall k, In k (Dict.keys ns') -> In k (Dict.keys ns) \/ reserved k = false)
  /\ (forall k, Dict.get ns' k <> Dict.get ns k -> In k nv' \/ In k mv')
  /\ incl nv nv' /\ incl mv mv'.

(** The text of a list of names, as [str] renders it: the [repr] of each
    name, between brackets. *)
Definition repr_names (l : list string) : string :=
  "[" ++ PyStr.join ", " (map PyStr.repr l) ++ "]".

Section Executor.

(** [vars(builtins)], the interpreter's own table. *)
Variable vars_builtins : Dict.t BuiltinEntry.

(** [builtins.__import__]; [ImportArgs] stands for
    [globals, locals, fromlist, level]. *)
Variable ImportArgs : Type.
Variable _real_import : string -> ImportArgs -> PyException + Value.

(** The guarded block of [execute_code]: arm the alarm with the timeout,
    [exec(code, exec_ns)] with both streams redirected, disarm. *)
Variable py_exec : string -> Dict.t Value -> Heap -> Z -> ExecOutcome.

(** [traceback.format_exc] *)
Variable format_exc : PyException -> string.

Definition blocked_message (name : string) : string :=
  "Module '" ++ name ++ "' is blocked in sandbox mode. "
  ++ "Blocked modules: "
  ++ PyStr.join ", " (PyStr.sorted SANDBOXED_BLOCKED_MODULES).

(** [_restricted_import], the closure of [_make_sandbox_builtins]. *)
Definition _restricted_import (name : string) (args : ImportArgs)
  : PyException + Value :=
  let top_level := PyStr.split_head "."%char name in
  if PyStr.mem top_level SANDBOXED_BLOCKED_MODULES
  then inl (OtherException "ImportError" (blocked_message name))
  else _real_import name args.

(** [_make_sandbox_builtins] *)
Definition _make_sandbox_builtins : Dict.t BuiltinEntry :=
  let safe := fold_left (fun d name => Dict.pop d name)
                        SANDBOXED_BLOCKED_BUILTINS vars_builtins in
  Dict.set safe "__import__" RestrictedImport.

(** What the import statement calls under a given [__builtins__]. *)
Definition import_under (h : Heap) (b : Value) (name : string) (args : ImportArgs)
  : PyException + Value :=
  match b with
  | VBuiltinsModule => _real_import name args
  | VRef r =>
      match deref h r with
      | Some (OCapabilities tbl) =>
          match Dict.get tbl "__import__" with
          | Some RestrictedImport => _restricted_import name args
          | Some (Native _) => _real_import name args
          | None => inl (OtherException "ImportError" "__import__ not found")
          end
      | _ => inl (OtherException "ImportError" "__import__ not found")
      end
  end.

(** The namespace handed to [exec], and the heap once the capability
    table is built. *)
Definition build_exec_ns (session : Session) (config : Config) (heap : Heap)
  : Dict.t Value * Heap :=
  let exec_ns := namespace session in
  let '(b, heap1) :=
    if sandbox_enabled config
    then let (r, h) := alloc heap (OCapabilities _make_sandbox_builtins) in (VRef r, h)
    else (VBuiltinsModule, heap) in
  (Dict.pop (Dict.set exec_ns "__builtins__" b) "result", heap1).

(** The guarded block run on the namespace built for this call. *)
Definition exec_outcome (code : string) (session : Session) (config : Config)
           (heap : Heap) : ExecOutcome :=
  let (exec_ns, heap1) := build_exec_ns session config heap in
  py_exec code exec_ns heap1 (timeout_seconds config).

(** [execute_code].  The session and the heap are returned as the call
    leaves them. *)
Definition execute_code (code : string) (session : Session) (config : Config)
           (heap : Heap) (now : Time) : CallResult * Session * Heap :=
  if blank code then
    (Returned (mkResult "error" None EmptyString EmptyString (Some "ValueError")
                        (Some "No code provided") None None None None None),
     session, heap)
  else
    let out := exec_outcome code session config heap in
    let so := _truncate (out_stdout out) (max_output_bytes config) in
    let se := _truncate (out_stderr out) (max_output_bytes config) in
    match raised out with
    | Some TimeoutError =>
        let session := _record session code "timeout" [] [] None now in
        (Returned (mkResult "timeout" None so se (Some "TimeoutError")
           (Some ("Execution exceeded " ++ NilZero.string_of_int (Z.to_int (timeout_seconds config)) ++ "s limit"))
           None None
           (Some "Break your code into smaller chunks or increase REPL_TIMEOUT.")
           None None),
         session, out_heap out)
    | Some (SyntaxError msg lineno text) =>
        let session := _record session code "error" [] [] (Some text) now in
        (Returned (mkResult "error" None EmptyString EmptyString (Some "SyntaxError")
           (Some msg) None lineno (Some "Check your Python syntax.") None None),
         session, out_heap out)
    | Some (NameError text) =>
        let session := _record session code "error" [] [] (Some text) now in
        let available := filter user_name (Dict.keys (namespace session)) in
        (Returned (mkResult "error" None EmptyString EmptyString (Some "NameError")
           (Some text) None None
           (Some ("Variable not found. Variables persist by their ASSIGNED NAME, "
                  ++ "not through 'result'. Use repl_list_namespace() to see available variables. "
                  ++ "Currently available: " ++ repr_names available))
           None None),
         session, out_heap out)
    | Some (OtherException type_name text) =>
        let session := _record session code "error" [] [] (Some text) now in
        (Returned (mkResult "error" None so se (Some type_name) (Some text)
           (Some (format_exc (OtherException type_name text))) None None None None),
         session, out_heap out)
    | Some (BaseExceptionOnly type_name) =>
        (Propagated (BaseExceptionOnly type_name), session, out_heap out)
    | None =>
        let '(ns, new_vars, modified_vars) := persist (namespace session) (out_ns out) in
        let session := with_namespace session ns in
        let result_val := Dict.get (out_ns out) "result" in
        let session := _record session code "completed" new_vars modified_vars None now in
        (Returned (mkResult "completed" result_val so se None None None None None
           (or_None new_vars) (or_None modified_vars)),
         session, out_heap out)
    end.

(** A sequence of calls on one session, each with the reading its
    [_record] makes. *)
Fixpoint execute_all (calls : list (string * Time)) (session : Session)
         (config : Config) (heap : Heap) : list CallResult * Session * Heap :=
  match calls with
  | [] => ([], session, heap)
  | (code, now) :: rest =>
      let '(r, s1, h1) := execute_code code session config heap now in
      let '(rs, s2, h2) := execute_all rest s1 config h1 in
      (r :: rs, s2, h2)
  end.

End Executor.

(** The list behind [x or None]. *)
Definition names (o : option (list string)) : list string :=
  match o with Some l => l | None => [] end.

Definition is_returned (r : CallResult) : bool :=
  match r with Returned _ => true | Propagated _ => false end.

(** The names a call reports as new, and as modified. *)
Definition reported_new (r : CallResult) : list string :=
  match r with Returned res => names (new_vars res) | Propagated _ => [] end.

Definition reported_modified (r : CallResult) : list string :=
  match r with Returned res => names (modified_vars res) | Propagated _ => [] end.

(** The same configuration with another cap on history entries. *)
Definition with_max_log_entries (c : Config) (n : Z) : Config :=
  mkConfig (timeout_seconds c) (max_sessions c) (session_ttl_minutes c)
           (max_output_bytes c) n (sandbox_enabled c).

(** A call that writes a history record: the code passes the guard and
    the call returns. *)
Definition recorded (call : string * CallResult) : bool :=
  negb (blank (fst call)) && is_returned (snd call).

(** ** server.py: the tools that reach a session *)

(** The process state behind the tools: the global [_sessions] and the
    heap. *)
Record Server := mkServer {
  srv_sessions : SessionManager;
  srv_heap : Heap
}.

(** What a tool answers (the JSON text is not modelled). *)
Inductive ToolResponse :=
| SessionNotFound (sid : string)
| VariableNotFound (name : string) (available : list string)
| VariableValue (name : string) (v : Value)
| VariableSet (name : string) (v : Value)
| VariableDeleted (name : string) (remaining : list string)
| NamespaceCleared (cleared : list string)
| FileError (err_type : string) (message : string)
| RunReport (res : ExecutionResult) (sid : string) (ns_keys : list string)
| ToolRaised.

(** What the file system answers for a path. *)
Inductive FileRead :=
| NotAFile
| Unreadable (err_type message : string)
| Content (code : string).

(** The names [variable_summary] lists. *)
Definition summary_keys (s : Session) : list string :=
  filter user_name (Dict.keys (namespace s)).

(** A session is one shared object: a change made through the reference
    that [get_session] returned shows in the store. *)
Definition store_back (m : SessionManager) (s : Session) : SessionManager :=
  with_sessions m (Dict.set (_sessions m) (session_id s) s).

(** [repl_get_variable] *)
Definition repl_get_variable (srv : Server) (sid var_name : string) (clk : Clock)
  : ToolResponse * Server :=
  match get_session (srv_sessions srv) sid clk with
  | (None, m) => (SessionNotFound sid, mkServer m (srv_heap srv))
  | (Some session, m) =>
      match Dict.get (namespace session) var_name with
      | None => (VariableNotFound var_name (summary_keys session), mkServer m (srv_heap srv))
      | Some v => (VariableValue var_name v, mkServer m (srv_heap srv))
      end
  end.

(** [repl_set_variable]: the parsed payload (or the raw text) is a new
    object. *)
Definition repl_set_variable (srv : Server) (sid var_name json_value : string)
           (clk : Clock) : ToolResponse * Server :=
  match get_session (srv_sessions srv) sid clk with
  | (None, m) => (SessionNotFound sid, mkServer m (srv_heap srv))
  | (Some session, m) =>
      let (r, h) := alloc (srv_heap srv) (OData json_value) in
      let session := with_namespace session (Dict.set (namespace session) var_name (VRef r)) in
      (VariableSet var_name (VRef r), mkServer (store_back m session) h)
  end.

(** [repl_delete_variable] *)
Definition repl_delete_variable (srv : Server) (sid var_name : string) (clk : Clock)
  : ToolResponse * Server :=
  match get_session (srv_sessions srv) sid clk with
  | (None, m) => (SessionNotFound sid, mkServer m (srv_heap srv))
  | (Some session, m) =>
      if Dict.contains (namespace session) var_name then
        let session := with_namespace session (Dict.pop (namespace session) var_name) in
        (VariableDeleted var_name (summary_keys session),
         mkServer (store_back m session) (srv_heap srv))
      else (VariableNotFound var_name (summary_keys session), mkServer m (srv_heap srv))
  end.

(** [repl_clear_namespace] *)
Definition repl_clear_namespace (srv : Server) (sid : string) (clk : Clock)
  : ToolResponse * Server :=
  match get_session (srv_sessions srv) sid clk with
  | (None, m) => (SessionNotFound sid, mkServer m (srv_heap srv))
  | (Some session, m) =>
      let cleared := summary_keys session in
      let session := with_namespace session Dict.empty in
      (NamespaceCleared cleared, mkServer (store_back m session) (srv_heap srv))
  end.

Section Tools.

Variable vars_builtins : Dict.t BuiltinEntry.
Variable py_exec : string -> Dict.t Value -> Heap -> Z -> ExecOutcome.
Variable format_exc : PyException -> string.

(** [expanduser] and [abspath], and the file system. *)
Variable resolve_path : string -> string.
Variable read_file : string -> FileRead.

(** The common tail of [repl_run_code] and [repl_run_file]: execute in
    the session and report.  [now] is the reading made by [_record]. *)
Definition run_in_session (m : SessionManager) (heap : Heap) (session : Session)
           (code : string) (now : Time) : ToolResponse * Server :=
  match execute_code vars_builtins py_exec format_exc code session (_config m) heap now with
  | (Returned res, session, heap) =>
      (RunReport res (session_id session) (summary_keys session),
       mkServer (store_back m session) heap)
  | (Propagated _, session, heap) =>
      (ToolRaised, mkServer (store_back m session) heap)
  end.

(** [repl_run_code] *)
Definition repl_run_code (srv : Server) (code : string) (sid : option string)
           (clk : Clock) (new_id : string) (now : Time) : ToolResponse * Server :=
  match get_or_create (srv_sessions srv) sid clk new_id with
  | (None, m) => (ToolRaised, mkServer m (srv_heap srv))
  | (Some session, m) => run_in_session m (srv_heap srv) session code now
  end.

(** [repl_run_file].  [sys.argv] is set for the call and restored; it is
    no part of the session. *)
Definition repl_run_file (srv : Server) (path : string) (sid : option string)
           (clk : Clock) (new_id : string) (now : Time) : ToolResponse * Server :=
  let file_path := resolve_path path in
  match read_file file_path with
  | NotAFile => (FileError "FileNotFoundError" ("File not found: " ++ file_path), srv)
  | Unreadable ty msg => (FileError ty msg, srv)
  | Content code =>
      match get_or_create (srv_sessions srv) sid clk new_id with
      | (None, m) => (ToolRaised, mkServer m (srv_heap srv))
      | (Some session, m) =>
          let (r, h) := alloc (srv_heap srv) (OData file_path) in
          let session :=
            with_namespace session (Dict.set (namespace session) "__file__" (VRef r)) in
          run_in_session (store_back m session) h session code now
      end
  end.

End Tools.

(** The namespace of session [sid] as the store holds it. *)
Definition namespace_of (srv : Server) (sid : string) : option (Dict.t Value) :=
  option_map namespace (Dict.get (_sessions (srv_sessions srv)) sid).

(** The invariant of the design document on a namespace: no returned-value
    slot and no name with the reserved prefix. *)
Definition clean_name (k : string) : bool :=
  negb (String.eqb k "result") && negb (PyStr.startswith "_" k).

Definition ns_clean (ns : Dict.t Value) : bool :=
  forallb clean_name (Dict.keys ns).

(** The invariant on every session of the store. *)
Definition server_clean (srv : Server) : bool :=
  forallb (fun s => ns_clean (namespace s))
          (Dict.values (_sessions (srv_sessions srv))).

(** All sessions of a store satisfy the invariant. *)
Definition store_clean (m : SessionManager) : Prop :=
  forall s, In s (Dict.values (_sessions m)) -> ns_clean (namespace s) = true.

(** The invariants of the store: distinct keys, and every session under
    its own identifier. *)
Definition store_ok (m : SessionManager) : bool :=
  Dict.wf (_sessions m) && ids_match (_sessions m).

(** ** server.py: listing, history and session administration *)

(** [l[start:]] on a list: a negative [start] counts from the end. *)
Definition list_slice_from (A : Type) (l : list A) (start : Z) : list A :=
  let n := Z.of_nat (length l) in
  let start := if start <? 0 then Z.max 0 (n + start) else start in
  skipn (Z.to_nat start) l.

(** What the listing and administration tools answer. *)
Inductive AdminResponse :=
| AdminSessionNotFound (sid : string)
| NamespaceListing (total : nat) (variables : Dict.t (string * string))
| HistorySlice (total_entries returned : nat) (entries : list ExecutionRecord)
| SessionListing (total : nat) (sessions : list SessionInfo)
| SessionDeleted (ok : bool).

Section Listing.

(** [type(v).__name__] and [_var_preview(v)] of the object a name is bound
    to: both read the object itself. *)
Variable type_name : Value -> string.
Variable _var_preview : Value -> string.

(** [repl_list_namespace] *)
Definition repl_list_namespace (srv : Server) (sid : string) (clk : Clock)
  : AdminResponse * Server :=
  match get_session (srv_sessions srv) sid clk with
  | (None, m) => (AdminSessionNotFound sid, mkServer m (srv_heap srv))
  | (Some session, m) =>
      let variables :=
        map (fun kv => (fst kv, (type_name (snd kv), _var_preview (snd kv))))
            (filter (fun kv => user_name (fst kv)) (namespace session)) in
      (NamespaceListing (length variables) variables, mkServer m (srv_heap srv))
  end.

End Listing.

(** [repl_get_history]; [last_n] is between 1 and 100 once validated. *)
Definition repl_get_history (srv : Server) (sid : string) (last_n : Z) (clk : Clock)
  : AdminResponse * Server :=
  match get_session (srv_sessions srv) sid clk with
  | (None, m) => (AdminSessionNotFound sid, mkServer m (srv_heap srv))
  | (Some session, m) =>
      let entries := list_slice_from (history session) (- last_n) in
      (HistorySlice (length (history session)) (length entries) entries,
       mkServer m (srv_heap srv))
  end.

(** [repl_list_sessions]: the total is read before the listing sweeps the
    expired sessions. *)
Definition repl_list_sessions (srv : Server) (clk : Clock) : AdminResponse * Server :=
  let total := count (srv_sessions srv) in
  let (sessions, m) := list_sessions (srv_sessions srv) clk in
  (SessionListing total sessions, mkServer m (srv_heap srv)).

(** [repl_delete_session] *)
Definition repl_delete_session (srv : Server) (sid : string) : AdminResponse * Server :=
  let (deleted, m) := delete_session (srv_sessions srv) sid in
  (SessionDeleted deleted, mkServer m (srv_heap srv)).

(** [c in s] for a character. *)
Fixpoint has_char (c : ascii) (s : string) : bool :=
  match s with
  | EmptyString => false
  | String a r => Ascii.eqb a c || has_char c r
  end.

(** ** A small interpreter for worked examples *)

Module Sample.

Definition builtins_table : Dict.t BuiltinEntry :=
  [ ("print", Native "print"); ("len", Native "len"); ("exec", Native "exec");
    ("eval", Native "eval"); ("__import__", Native "__import__") ].

Definition completes (ns : Dict.t Value) (h : Heap) : ExecOutcome :=
  mkOutcome ns h EmptyString EmptyString None.

Definition fails (ns : Dict.t Value) (h : Heap) (e : PyException) : ExecOutcome :=
  mkOutcome ns h EmptyString EmptyString (Some e).

(** An assignment of a new object to a name. *)
Definition assign (name content : string) (st : Dict.t Value * Heap)
  : Dict.t Value * Heap :=
  let (ns, h) := st in
  let (r, h') := alloc h (OData content) in
  (Dict.set ns name (VRef r), h').

(** The reading of a handful of programs. *)
Definition py_exec (code : string) (ns : Dict.t Value) (h : Heap) (timeout : Z)
  : ExecOutcome :=
  if String.eqb code "x = 42" then
    let (ns', h') := assign "x" "42" (ns, h) in completes ns' h'
  else if String.eqb code "a = 1; b = 2" then
    let (ns', h') := assign "b" "2" (assign "a" "1" (ns, h)) in completes ns' h'
  else if String.eqb code "_tmp = 1; result = 'hello'" then
    let (ns', h') := assign "result" "'hello'" (assign "_tmp" "1" (ns, h)) in
    completes ns' h'
  else if String.eqb code "print(undefined_var)" then
    fails ns h (NameError "name 'undefined_var' is not defined")
  else if String.eqb code "x = 1; while True: pass" then
    let (ns', h') := assign "x" "1" (ns, h) in fails ns' h' TimeoutError
  else if String.eqb code "raise SystemExit" then
    fails ns h (BaseExceptionOnly "SystemExit")
  else completes ns h.

Definition format_exc (e : PyException) : string :=
  "Traceback (most recent call last):".

Definition session : Session := mkSession "test123" 0 0 Dict.empty [].

(** The session and the heap after [x = 42] ran once. *)
Definition session_x : Session :=
  mkSession "test123" 0 0 [("x", VRef 0%nat)] [].

Definition heap_x : Heap := [OData "42"].

(** A store of two sessions, the first idle since time 0, and clocks
    that stand still. *)
Definition store2 (cfg : Config) : SessionManager :=
  mkManager cfg
    [ ("aaa", mkSession "aaa" 0 0 Dict.empty []);
      ("bbb", mkSession "bbb" 1000 5000000000 Dict.empty []) ].

Definition at_time (t : Time) : Clock := fun _ => t.

(** At most two sessions, the other settings as by default. *)
Definition two_sessions_config : Config :=
  mkConfig DEFAULT_TIMEOUT_SECONDS 2 DEFAULT_SESSION_TTL_MINUTES
           DEFAULT_MAX_OUTPUT_BYTES DEFAULT_LOG_ENTRIES false.

(** A file system with one script. *)
Definition read_file (path : string) : FileRead :=
  if String.eqb path "/tmp/job.py" then Content "x = 42" else NotAFile.

Definition resolve_path (path : string) : string := path.

Definition run (code : string) (s : Session) (cfg : Config) (h : Heap) (now : Time)
  : CallResult * Session * Heap :=
  execute_code builtins_table py_exec format_exc code s cfg h now.

End Sample.

(** An interpreter that also reads [del x]. *)
Module Scripts.

Definition py_exec (code : string) (ns : Dict.t Value) (h : Heap) (timeout : Z)
  : ExecOutcome :=
  if String.eqb code "del x" then Sample.completes (Dict.pop ns "x") h
  else Sample.py_exec code ns h timeout.

Definition run (code : string) (s : Session) (cfg : Config) (h : Heap) (now : Time)
  : CallResult * Session * Heap :=
  execute_code Sample.builtins_table py_exec Sample.format_exc code s cfg h now.

(** A server with one session that binds a user name and an underscore
    name and has run three submissions. *)
Definition session_b : Session :=
  mkSession "bbb" 1000 5000000000
    [("x", VRef 0%nat); ("_y", VRef 1%nat)]
    [ mkRecord 2000 "x = 42" "completed" ["x"] [] None;
      mkRecord 3000 "_y = 1" "completed" [] [] None;
      mkRecord 4000 "1 / 0" "error" [] [] (Some "division by zero") ].

Definition server : Server :=
  mkServer (mkManager default_config
              [("aaa", mkSession "aaa" 0 0 Dict.empty []); ("bbb", session_b)])
           [OData "42"; OData "1"].

Definition type_name (v : Value) : string := "int".
Definition _var_preview (v : Value) : string := "int: 42".

End Scripts.

(** An interpreter that also reads three programs that print. *)
Module Printing.

Definition line (text : string) : string := text ++ String "010"%char EmptyString.

Definition py_exec (code : string) (ns : Dict.t Value) (h : Heap) (timeout : Z)
  : ExecOutcome :=
  if String.eqb code "print('hello world')" then
    mkOutcome ns h (line "hello world") EmptyString None
  else if String.eqb code "print('hi'); print(undefined_var)" then
    mkOutcome ns h (line "hi") EmptyString
              (Some (NameError "name 'undefined_var' is not defined"))
  else if String.eqb code "print('hi'); 1 / 0" then
    mkOutcome ns h (line "hi") EmptyString
              (Some (OtherException "ZeroDivisionError" "division by zero"))
  else Sample.py_exec code ns h timeout.

Definition run (code : string) (s : Session) (cfg : Config) (h : Heap) (now : Time)
  : CallResult * Session * Heap :=
  execute_code Sample.builtins_table py_exec Sample.format_exc code s cfg h now.

(** A budget of five for captured output, the other settings as by
    default. *)
Definition small_output_config : Config :=
  mkConfig DEFAULT_TIMEOUT_SECONDS DEFAULT_MAX_SESSIONS DEFAULT_SESSION_TTL_MINUTES
           5 DEFAULT_LOG_ENTRIES false.

(** Three times the character of code point 233, which UTF-8 writes on
    two bytes. *)
Definition accented : string :=
  let e := ascii_of_nat 233 in String e (String e (String e EmptyString)).

End Printing.

(** * Properties *)

(** ** Dicts *)

Module DictFacts.
Section DictFacts.
Variable V : Type.
Implicit Types (d : Dict.t V) (k : string) (v : V).

Lemma get_set_same d k v : Dict.get (Dict.set d k v) k = Some v.
Proof.
  induction d as [|[k' v'] r IH]; simpl.
  - now rewrite String.eqb_refl.
  - destruct (String.eqb k' k) eqn:E; simpl; rewrite E; auto.
Qed.

Lemma get_set_other d k k' v : k <> k' -> Dict.get (Dict.set d k v) k' = Dict.get d k'.
Proof.
  intros Hne. induction d as [|[k0 v0] r IH]; simpl.
  - destruct (String.eqb k k') eqn:E; auto.
    apply String.eqb_eq in E. contradiction.
  - destruct (String.eqb k0 k) eqn:E; simpl.
    + apply String.eqb_eq in E. subst k0.
      destruct (String.eqb k k') eqn:E'; auto.
      apply String.eqb_eq in E'. contradiction.
    + now rewrite IH.
Qed.

Lemma get_pop_same d k : Dict.get (Dict.pop d k) k = None.
Proof.
  induction d as [|[k' v'] r IH]; simpl; auto.
  destruct (String.eqb k' k) eqn:E; simpl; auto.
  now rewrite E.
Qed.

Lemma get_pop_other d k k' : k <> k' -> Dict.get (Dict.pop d k) k' = Dict.get d k'.
Proof.
  intros Hne. induction d as [|[k0 v0] r IH]; simpl; auto.
  destruct (String.eqb k0 k) eqn:E; simpl.
  - apply String.eqb_eq in E. subst k0.
    destruct (String.eqb k k') eqn:E'; auto.
    apply String.eqb_eq in E'. contradiction.
  - now rewrite IH.
Qed.

Lemma get_Some_In d k v : Dict.get d k = Some v -> In (k, v) d.
Proof.
  induction d as [|[k' v'] r IH]; simpl; [discriminate|].
  destruct (String.eqb k' k) eqn:E.
  - apply String.eqb_eq in E. intros [= ->]. subst. now left.
  - intros H. right. auto.
Qed.

Lemma get_None_not_key d k : Dict.get d k = None <-> ~ In k (Dict.keys d).
Proof.
  induction d as [|[k' v'] r IH]; simpl.
  - split; auto.
  - destruct (String.eqb k' k) eqn:E.
    + apply String.eqb_eq in E. split; [discriminate|]. intros H. exfalso. apply H. now left.
    + apply String.eqb_neq in E. rewrite IH. split.
      * intros H [H1|H1]; auto.
      * intros H H1. apply H. now right.
Qed.

Lemma contains_In d k : Dict.contains d k = true <-> In k (Dict.keys d).
Proof.
  unfold Dict.contains. destruct (Dict.get d k) eqn:E.
  - split; auto. intros _. apply get_Some_In in E.
    apply in_map_iff. now exists (k, v).
  - split; [discriminate|]. intros H. apply get_None_not_key in E. contradiction.
Qed.

(** In a well-formed dict every entry is the one its key finds. *)
Lemma In_get d k v : Dict.wf d = true -> In (k, v) d -> Dict.get d k = Some v.
Proof.
  induction d as [|[k' v'] r IH]; simpl; [contradiction|].
  intros Hwf. apply andb_true_iff in Hwf as [Hk Hr].
  intros [[= -> ->]|Hin].
  - now rewrite String.eqb_refl.
  - destruct (String.eqb k' k) eqn:E; auto.
    apply String.eqb_eq in E. subst k'.
    apply negb_true_iff in Hk.
    assert (Dict.contains r k = true) as C.
    { apply contains_In. apply in_map_iff. now exists (k, v). }
    congruence.
Qed.

Lemma keys_set d k v :
  Dict.keys (Dict.set d k v) = Dict.keys d
  \/ Dict.keys (Dict.set d k v) = (Dict.keys d ++ [k])%list.
Proof.
  induction d as [|[k' v'] r IH]; simpl.
  - now right.
  - destruct (String.eqb k' k); simpl; [now left|].
    destruct IH as [-> | ->]; [now left | now right].
Qed.

Lemma In_keys_set d k v k' :
  In k' (Dict.keys (Dict.set d k v)) -> k' = k \/ In k' (Dict.keys d).
Proof.
  destruct (keys_set d k v) as [-> | ->]; auto.
  intros H. apply in_app_or in H as [H|[H|[]]]; auto.
Qed.

Lemma In_pop d k kv : In kv (Dict.pop d k) -> In kv d /\ fst kv <> k.
Proof.
  unfold Dict.pop. rewrite filter_In. intros [H1 H2]. split; auto.
  apply negb_true_iff in H2. now apply String.eqb_neq.
Qed.

Lemma wf_pop d k : Dict.wf d = true -> Dict.wf (Dict.pop d k) = true.
Proof.
  induction d as [|[k' v'] r IH]; simpl; auto.
  intros Hwf. apply andb_true_iff in Hwf as [Hk Hr].
  destruct (String.eqb k' k) eqn:E; simpl; auto.
  rewrite IH by assumption. rewrite andb_true_r.
  apply negb_true_iff. apply negb_true_iff in Hk.
  destruct (Dict.contains (Dict.pop r k) k') eqn:C; auto.
  apply contains_In in C. apply in_map_iff in C as [[k0 v0] [E0 Hin]].
  simpl in E0. subst k0. apply In_pop in Hin as [Hin _].
  assert (Dict.contains r k' = true) as C'.
  { apply contains_In. apply in_map_iff. now exists (k', v0). }
  congruence.
Qed.

End DictFacts.
End DictFacts.

(** ** Strings *)

Lemma take_length n s : String.length (PyStr.take n s) = Nat.min n (String.length s).
Proof.
  revert s. induction n as [|n IH]; intros [|c r]; simpl; auto.
Qed.

Lemma take_prefix n s : String.prefix (PyStr.take n s) s = true.
Proof.
  revert s. induction n as [|n IH]; intros [|c r]; simpl; auto.
  destruct (ascii_dec c c); [apply IH | congruence].
Qed.

Lemma take_all n s : (String.length s <= n)%nat -> PyStr.take n s = s.
Proof.
  revert s. induction n as [|n IH]; intros [|c r]; simpl; auto.
  - lia.
  - intros H. f_equal. apply IH. lia.
Qed.

Lemma lstrip_empty_iff s : PyStr.truthy (PyStr.lstrip s) = false <-> PyStr.all_space s = true.
Proof.
  induction s as [|c r IH]; simpl.
  - tauto.
  - destruct (PyStr.isspace c); simpl; auto.
    split; discriminate.
Qed.

Lemma all_space_rev_onto s acc :
  PyStr.all_space (PyStr.rev_onto s acc) = PyStr.all_space s && PyStr.all_space acc.
Proof.
  revert acc. induction s as [|c r IH]; intros acc; simpl; auto.
  rewrite IH. simpl. destruct (PyStr.isspace c), (PyStr.all_space r); auto.
Qed.

Lemma truthy_rev_onto s acc :
  PyStr.truthy (PyStr.rev_onto s acc) = PyStr.truthy s || PyStr.truthy acc.
Proof.
  revert acc. induction s as [|c r IH]; intros acc; simpl; auto.
  rewrite IH. simpl. apply orb_true_r.
Qed.

Lemma lstrip_not_all_space s :
  PyStr.truthy (PyStr.lstrip s) = true -> PyStr.all_space (PyStr.lstrip s) = false.
Proof.
  induction s as [|c r IH]; simpl; [discriminate|].
  destruct (PyStr.isspace c) eqn:E; auto.
  intros _. simpl. now rewrite E.
Qed.

(** The guard rejects exactly the empty and the white-space-only texts. *)
Lemma blank_all_space code : blank code = PyStr.all_space code.
Proof.
  unfold blank. destruct code as [|c r]; [reflexivity|].
  cbn [PyStr.truthy negb orb].
  unfold PyStr.strip, PyStr.rstrip, PyStr.rev.
  rewrite truthy_rev_onto. cbn [PyStr.truthy orb]. rewrite orb_false_r.
  destruct (PyStr.truthy (PyStr.lstrip (String c r))) eqn:T.
  - pose proof (lstrip_not_all_space _ T) as NS.
    assert (PyStr.all_space (String c r) = false) as ->.
    { destruct (PyStr.all_space (String c r)) eqn:A; auto.
      apply lstrip_empty_iff in A. congruence. }
    apply negb_false_iff.
    destruct (PyStr.truthy (PyStr.lstrip (PyStr.rev_onto (PyStr.lstrip (String c r)) EmptyString))) eqn:T2; auto.
    apply lstrip_empty_iff in T2. rewrite all_space_rev_onto in T2.
    rewrite NS in T2. discriminate.
  - assert (PyStr.all_space (String c r) = true) as -> by now apply lstrip_empty_iff.
    destruct (PyStr.lstrip (String c r)); [reflexivity|discriminate].
Qed.

(** ** The reconciliation loop *)

Lemma Value_is_eq a b : Value_is a b = true <-> a = b.
Proof.
  destruct a as [x|], b as [y|]; simpl; split; try discriminate; auto.
  - intros H. apply Nat.eqb_eq in H. now subst.
  - intros [= ->]. apply Nat.eqb_refl.
Qed.

Lemma Value_is_neq a b : Value_is a b = false <-> a <> b.
Proof.
  destruct (Value_is a b) eqn:E.
  - apply Value_is_eq in E. split; [discriminate | contradiction].
  - split; auto. intros _ H. apply Value_is_eq in H. congruence.
Qed.

Lemma classified_new_ext ns1 ns2 l :
  (forall k, In k (Dict.keys l) -> Dict.get ns1 k = Dict.get ns2 k) ->
  classified_new ns1 l = classified_new ns2 l.
Proof.
  unfold classified_new. intros H. f_equal. apply filter_ext_in.
  intros [k v] Hin. simpl. unfold Dict.contains.
  rewrite (H k); auto. apply in_map_iff. now exists (k, v).
Qed.

Lemma classified_modified_ext ns1 ns2 l :
  (forall k, In k (Dict.keys l) -> Dict.get ns1 k = Dict.get ns2 k) ->
  classified_modified ns1 l = classified_modified ns2 l.
Proof.
  unfold classified_modified. intros H. f_equal. apply filter_ext_in.
  intros [k v] Hin. simpl.
  rewrite (H k); auto. apply in_map_iff. now exists (k, v).
Qed.

(** On a namespace with distinct keys the loop computes the two
    classifications, and leaves every name that is not reserved bound to
    the object the code left it bound to. *)
Lemma persist_fold_closed l : forall ns nv mv,
  Dict.wf l = true ->
  exists ns',
    fold_left persist_step l (ns, nv, mv)
    = (ns', (nv ++ classified_new ns l)%list, (mv ++ classified_modified ns l)%list)
    /\ (forall k v, In (k, v) l -> reserved k = false -> Dict.get ns' k = Some v)
    /\ (forall k, ~ In k (Dict.keys l) -> Dict.get ns' k = Dict.get ns k).
Proof.
  induction l as [|[k v] r IH]; intros ns nv mv Hwf.
  - exists ns. simpl. unfold classified_new, classified_modified. simpl.
    rewrite !app_nil_r. repeat split; auto. intros ? ? [].
  - simpl in Hwf. apply andb_true_iff in Hwf as [Hk Hr].
    apply negb_true_iff in Hk.
    assert (~ In k (Dict.keys r)) as Hnk.
    { intros H. apply DictFacts.contains_In in H. congruence. }
    assert (forall x (ns1 : Dict.t Value), In x (Dict.keys r) ->
              Dict.get (Dict.set ns1 k v) x = Dict.get ns1 x) as Hother.
    { intros x ns1 Hx. apply DictFacts.get_set_other. intros ->. contradiction. }
    cbn [fold_left]. unfold persist_step at 2.
    unfold classified_new, classified_modified. cbn [filter fst snd].
    fold (classified_new ns r). fold (classified_modified ns r).
    destruct (reserved k) eqn:R; cbn [negb andb].
    + destruct (IH ns nv mv Hr) as (ns' & E & H1 & H2).
      exists ns'. split; [exact E|]. split.
      * intros k0 v0 [[= <- <-]|Hin] R0; [congruence|]. now apply H1.
      * intros k0 Hk0. apply H2. intros H. apply Hk0. now right.
    + unfold Dict.contains. destruct (Dict.get ns k) as [old|] eqn:G.
      * destruct (Value_is old v) eqn:I; cbn [negb].
        -- destruct (IH ns nv mv Hr) as (ns' & E & H1 & H2).
           exists ns'. split; [exact E|]. split.
           ++ intros k0 v0 [[= <- <-]|Hin] R0; [|now apply H1].
              rewrite H2 by assumption. rewrite G. f_equal. now apply Value_is_eq.
           ++ intros k0 Hk0. apply H2. intros H. apply Hk0. now right.
        -- destruct (IH (Dict.set ns k v) nv (mv ++ [k])%list Hr) as (ns' & E & H1 & H2).
           exists ns'. split; [|split].
           ++ rewrite E. f_equal; [f_equal|].
              ** f_equal. apply classified_new_ext. intros; now apply Hother.
              ** cbn [Dict.keys map fst]. rewrite <- app_assoc. cbn [app]. do 2 f_equal.
                 apply classified_modified_ext. intros; now apply Hother.
           ++ intros k0 v0 [[= <- <-]|Hin] R0; [|now apply H1].
              rewrite H2 by assumption. apply DictFacts.get_set_same.
           ++ intros k0 Hk0. rewrite H2.
              ** apply DictFacts.get_set_other. intros ->. apply Hk0. now left.
              ** intros H. apply Hk0. now right.
      * cbn [negb].
        destruct (IH (Dict.set ns k v) (nv ++ [k])%list mv Hr) as (ns' & E & H1 & H2).
        exists ns'. split; [|split].
        -- rewrite E. f_equal; [f_equal|].
           ++ cbn [Dict.keys map fst]. rewrite <- app_assoc. cbn [app]. do 2 f_equal.
              apply classified_new_ext. intros; now apply Hother.
           ++ f_equal. apply classified_modified_ext. intros; now apply Hother.
        -- intros k0 v0 [[= <- <-]|Hin] R0; [|now apply H1].
           rewrite H2 by assumption. apply DictFacts.get_set_same.
        -- intros k0 Hk0. rewrite H2.
           ++ apply DictFacts.get_set_other. intros ->. apply Hk0. now left.
           ++ intros H. apply Hk0. now right.
Qed.

Lemma option_Value_eq_dec (a b : option Value) : {a = b} + {a <> b}.
Proof. repeat decide equality. Qed.

Lemma frame_ok_refl acc : frame_ok acc acc.
Proof.
  destruct acc as [[ns nv] mv]. unfold frame_ok.
  repeat split; auto using incl_refl. intros k H. now contradiction H.
Qed.

Lemma frame_ok_trans a b c : frame_ok a b -> frame_ok b c -> frame_ok a c.
Proof.
  destruct a as [[ns nv] mv], b as [[ns1 nv1] mv1], c as [[ns2 nv2] mv2].
  unfold frame_ok. intros (A1 & A2 & A3 & A4 & A5 & A6 & A7) (B1 & B2 & B3 & B4 & B5 & B6 & B7).
  repeat split.
  - intros k R. rewrite B1, A1; auto.
  - intros k H. destruct (B2 k H); auto.
  - intros k H. destruct (B3 k H); auto.
  - intros k H. destruct (B4 k H); auto.
  - intros k H. destruct (option_Value_eq_dec (Dict.get ns2 k) (Dict.get ns1 k)) as [E|E].
    + rewrite E in H. destruct (A5 k H); [left | right]; auto.
    + auto.
  - eauto using incl_tran.
  - eauto using incl_tran.
Qed.

Lemma persist_step_frame acc kv : frame_ok acc (persist_step acc kv).
Proof.
  destruct acc as [[ns nv] mv], kv as [k v]. unfold persist_step.
  destruct (reserved k) eqn:R; [apply frame_ok_refl|].
  assert (forall k0, reserved k0 = true -> k <> k0) as Hne by (intros k0 R0 ->; congruence).
  assert (forall k0, Dict.get (Dict.set ns k v) k0 <> Dict.get ns k0 -> k0 = k) as Hch.
  { intros k0 H. destruct (string_dec k k0) as [->|N]; auto.
    exfalso. apply H. now apply DictFacts.get_set_other. }
  assert (forall k0, In k0 (Dict.keys (Dict.set ns k v)) ->
                     In k0 (Dict.keys ns) \/ reserved k0 = false) as Hkeys.
  { intros k0 H. apply DictFacts.In_keys_set in H as [->|H]; auto. }
  destruct (Dict.get ns k) as [old|] eqn:G.
  - destruct (Value_is old v); [apply frame_ok_refl|].
    unfold frame_ok. repeat split; auto using incl_refl.
    + intros k0 R0. apply DictFacts.get_set_other. auto.
    + intros k0 H. apply in_app_or in H as [H|[<-|[]]]; auto.
    + intros k0 H. apply Hch in H. subst. right. apply in_or_app. right. now left.
    + apply incl_appl, incl_refl.
  - unfold frame_ok. repeat split; auto using incl_refl.
    + intros k0 R0. apply DictFacts.get_set_other. auto.
    + intros k0 H. apply in_app_or in H as [H|[<-|[]]]; auto.
    + intros k0 H. apply Hch in H. subst. left. apply in_or_app. right. now left.
    + apply incl_appl, incl_refl.
Qed.

Lemma persist_fold_frame l : forall acc, frame_ok acc (fold_left persist_step l acc).
Proof.
  induction l as [|kv r IH]; intros acc; simpl.
  - apply frame_ok_refl.
  - eapply frame_ok_trans; [apply persist_step_frame | apply IH].
Qed.

(** ** execute_code *)

Lemma names_or_None l : names (or_None l) = l.
Proof. now destruct l. Qed.

Section ExecutorProperties.

Variable vars_builtins : Dict.t BuiltinEntry.
Variable py_exec : string -> Dict.t Value -> Heap -> Z -> ExecOutcome.
Variable format_exc : PyException -> string.

Abbreviation execute := (execute_code vars_builtins py_exec format_exc).
Abbreviation outcome := (exec_outcome vars_builtins py_exec).

(** A call that completes: what it returns and what it leaves. *)
Lemma execute_completed code session config heap now :
  blank code = false ->
  raised (outcome code session config heap) = None ->
  let out := outcome code session config heap in
  let p := persist (namespace session) (out_ns out) in
  execute code session config heap now
  = (Returned (mkResult "completed" (Dict.get (out_ns out) "result")
                 (_truncate (out_stdout out) (max_output_bytes config))
                 (_truncate (out_stderr out) (max_output_bytes config))
                 None None None None None
                 (or_None (snd (fst p))) (or_None (snd p))),
     _record (with_namespace session (fst (fst p))) code "completed"
             (snd (fst p)) (snd p) None now,
     out_heap out).
Proof.
  intros B R. cbv zeta. unfold execute_code. rewrite B, R.
  now destruct (persist _ _) as [[ns nv] mv].
Qed.

(** A call that does not complete leaves the namespace as it was. *)
Lemma execute_not_completed code session config heap now r s' h' :
  execute code session config heap now = (r, s', h') ->
  (blank code = true \/ raised (outcome code session config heap) <> None) ->
  namespace s' = namespace session.
Proof.
  unfold execute_code. destruct (blank code).
  - now intros [= _ <- _].
  - intros E [H|H]; [discriminate|].
    destruct (raised (outcome code session config heap)) as [[]|];
      solve [now inversion E | now contradiction H].
Qed.

(** A call that returns says "completed" exactly when the code passed the
    guard and the block raised nothing. *)
Lemma execute_status code session config heap now res s' h' :
  execute code session config heap now = (Returned res, s', h') ->
  status res = "completed" ->
  blank code = false /\ raised (outcome code session config heap) = None.
Proof.
  unfold execute_code. destruct (blank code).
  - intros [= <- _ _]. discriminate.
  - destruct (raised (outcome code session config heap)) as [[]|]; auto;
      intros [= <- _ _]; discriminate.
Qed.

(** C3.  A call of [execute_code] whose outcome is not "completed" (the
    guard's error, a syntax error, a name error, a sandbox denial or any
    other exception, a timeout) leaves the bindings of the session's
    namespace exactly as they were: nothing the code did to its own
    namespace, timed out or not, reaches the session. *)
Theorem failed_execution_keeps_namespace code session config heap now r s' h' :
  execute code session config heap now = (r, s', h') ->
  (forall res, r = Returned res -> status res <> "completed") ->
  namespace s' = namespace session.
Proof.
  intros E H. apply (execute_not_completed _ _ _ _ _ E).
  destruct (blank code) eqn:B; [now left | right].
  intros R. pose proof (execute_completed code session config heap now B R) as E'.
  cbv zeta in E'. rewrite E in E'. injection E' as -> _ _.
  now apply (H _ eq_refl).
Qed.

End ExecutorProperties.

Lemma failed_execution_keeps_namespace_witness :
  namespace (snd (fst (Sample.run "x = 1; while True: pass" Sample.session default_config [] 7)))
  = namespace Sample.session.
Proof.
  eapply (@failed_execution_keeps_namespace Sample.builtins_table Sample.py_exec
            Sample.format_exc "x = 1; while True: pass" Sample.session default_config [] 7).
  - reflexivity.
  - intros res [= <-]. discriminate.
Defined.

Lemma reserved_false_clean k : reserved k = false -> clean_name k = true.
Proof.
  unfold reserved, clean_name. intros H. apply orb_false_iff in H as [H1 H2].
  rewrite H1. simpl in H2. apply orb_false_iff in H2 as [_ H2].
  apply orb_false_iff in H2 as [H2 _]. rewrite H2. reflexivity.
Qed.

Lemma clean_reserved_false k : clean_name k = true -> PyStr.startswith "_" k = false /\ k <> "result".
Proof.
  unfold clean_name. intros H. apply andb_true_iff in H as [H1 H2].
  apply negb_true_iff in H1, H2. split; auto. now apply String.eqb_neq.
Qed.

Lemma history_record s code st nv mv e now :
  history (_record s code st nv mv e now)
  = (history s ++ [mkRecord now
       (if 120 <? PyStr.len code
        then PyStr.escape_newlines (PyStr.slice_to code 120) ++ "..."
        else PyStr.escape_newlines (PyStr.slice_to code 120))
       st nv mv e])%list.
Proof. reflexivity. Qed.

Lemma namespace_record s code st nv mv e now :
  namespace (_record s code st nv mv e now) = namespace s.
Proof. reflexivity. Qed.

Section ExecutorClaims.

Variable vars_builtins : Dict.t BuiltinEntry.
Variable py_exec : string -> Dict.t Value -> Heap -> Z -> ExecOutcome.
Variable format_exc : PyException -> string.

Abbreviation execute := (execute_code vars_builtins py_exec format_exc).
Abbreviation outcome := (exec_outcome vars_builtins py_exec).
Abbreviation execute_seq := (execute_all vars_builtins py_exec format_exc).

(** What any call may change in the namespace, and what it may report. *)
Lemma execute_frame code session config heap now r s' h' :
  execute code session config heap now = (r, s', h') ->
  frame_ok (namespace session, [], [])
           (namespace s', reported_new r, reported_modified r).
Proof.
  destruct (blank code) eqn:B.
  - unfold execute_code. rewrite B. intros [= <- <- _]. apply frame_ok_refl.
  - destruct (raised (outcome code session config heap)) as [e|] eqn:R.
    + unfold execute_code. rewrite B, R.
      destruct e; intros [= <- <- _]; apply frame_ok_refl.
    + rewrite (execute_completed _ _ _ code session config heap now B R).
      intros [= <- <- _]. cbn [reported_new reported_modified new_vars modified_vars namespace _record with_history with_namespace].
      rewrite !names_or_None.
      pose proof (persist_fold_frame (out_ns (outcome code session config heap))
                    (namespace session, [], [])) as F.
      unfold persist.
      now destruct (fold_left _ _ _) as [[ns nv] mv].
Qed.

(** The history after one call. *)
Lemma execute_history code session config heap now r s' h' :
  execute code session config heap now = (r, s', h') ->
  if recorded (code, r)
  then exists rcd, history s' = (history session ++ [rcd])%list
                   /\ timestamp rcd = now
                   /\ (forall res, r = Returned res -> rec_status rcd = status res)
  else history s' = history session.
Proof.
  unfold recorded. cbn [fst snd].
  destruct (blank code) eqn:B.
  - unfold execute_code. rewrite B. now intros [= <- <- _].
  - destruct (raised (outcome code session config heap)) as [e|] eqn:R.
    + unfold execute_code. rewrite B, R.
      destruct e; intros [= <- <- _]; cbn [negb andb is_returned]; auto;
        rewrite history_record; eexists; (split; [reflexivity|]);
        (split; [reflexivity|]); now intros res [= <-].
    + rewrite (execute_completed _ _ _ code session config heap now B R).
      intros [= <- <- _]. cbn [negb andb is_returned].
      rewrite history_record. eexists. split; [reflexivity|].
      split; [reflexivity|]. now intros res [= <-].
Qed.

(** C5, as the code has it.  Empty or white-space-only code is refused at
    once with the ValueError result; the session (so its history) and
    the heap come back untouched and the interpreter is not consulted.
    For any other code, a call that returns a result, whatever its status,
    appends exactly one record, carrying that status; a call that an
    exception outside [Exception] leaves appends none. *)
Theorem execute_history_spec code session config heap now :
  (PyStr.all_space code = true ->
   execute code session config heap now
   = (Returned (mkResult "error" None EmptyString EmptyString (Some "ValueError")
                         (Some "No code provided") None None None None None),
      session, heap))
  /\ (PyStr.all_space code = false ->
      forall r s' h', execute code session config heap now = (r, s', h') ->
        (forall res, r = Returned res ->
           exists rcd, history s' = (history session ++ [rcd])%list
                       /\ rec_status rcd = status res)
        /\ (forall e, r = Propagated e -> history s' = history session)).
Proof.
  rewrite <- blank_all_space. split.
  - intros B. unfold execute_code. now rewrite B.
  - intros B r s' h' E. pose proof (execute_history _ _ _ _ _ E) as H.
    unfold recorded in H. cbn [fst snd] in H. rewrite B in H. cbn [negb andb] in H.
    split.
    + intros res ->. cbn [is_returned] in H. destruct H as (rcd & H1 & _ & H3).
      exists rcd. split; auto.
    + intros e ->. exact H.
Qed.

(** The history over a sequence of calls on one session: it grows by
    exactly one record per call that passes the guard and returns, and
    nothing is ever dropped, whatever the configuration. *)
Lemma history_grows_by_recorded_calls calls : forall session config heap,
  let '(rs, s', _) := execute_seq calls session config heap in
  length (history s')
  = (length (history session)
     + length (filter recorded (combine (map fst calls) rs)))%nat.
Proof.
  induction calls as [|[code now] rest IH]; intros session config heap.
  - simpl; lia.
  - cbn [execute_all map fst combine].
    destruct (execute code session config heap now) as [[r s1] h1] eqn:E.
    specialize (IH s1 config h1).
    destruct (execute_seq rest s1 config h1) as [[rs s2] h2].
    cbn [combine filter]. rewrite IH.
    pose proof (execute_history _ _ _ _ _ E) as H.
    destruct (recorded (code, r)).
    + destruct H as (rcd & -> & _). rewrite length_app. simpl. lia.
    + rewrite H. lia.
Qed.

End ExecutorClaims.

(** C5, counterexample to the claim as stated.  The code [raise
    SystemExit] is not blank, yet the call appends no record: the
    exception is no [Exception] and leaves [execute_code]. *)
Lemma systemexit_leaves_no_record :
  PyStr.all_space "raise SystemExit" = false
  /\ ~ (exists rcd,
          history (snd (fst (Sample.run "raise SystemExit" Sample.session default_config [] 7)))
          = (history Sample.session ++ [rcd])%list).
Proof.
  split; [reflexivity|]. intros [rcd H]. vm_compute in H. discriminate.
Qed.

Lemma execute_history_spec_witness :
  Sample.run "  " Sample.session default_config [] 7
  = (Returned (mkResult "error" None EmptyString EmptyString (Some "ValueError")
                        (Some "No code provided") None None None None None),
     Sample.session, [])
  /\ exists rcd,
       history (snd (fst (Sample.run "print(undefined_var)" Sample.session default_config [] 7)))
       = (history Sample.session ++ [rcd])%list
       /\ rec_status rcd = "error".
Proof.
  split.
  - apply (proj1 (@execute_history_spec Sample.builtins_table Sample.py_exec
                    Sample.format_exc "  " Sample.session default_config [] 7)).
    reflexivity.
  - destruct (@execute_history_spec Sample.builtins_table Sample.py_exec Sample.format_exc
                "print(undefined_var)" Sample.session default_config [] 7) as [_ H].
    destruct (H eq_refl _ _ _ eq_refl) as [H1 _].
    exact (H1 _ eq_refl).
Defined.

(** C6, the code at the failing input.  The configuration caps the
    history at one entry ([max_log_entries], read from
    [REPL_MAX_LOG_ENTRIES]); two calls of [execute_code] with [x = 42] on
    one session, which had no history, both complete and leave two
    records, the first one still there: [_record] appends without reading
    the cap. *)
Theorem history_exceeds_max_log_entries :
  let cfg := with_max_log_entries default_config 1 in
  let '(rs, s', _) :=
    execute_all Sample.builtins_table Sample.py_exec Sample.format_exc
                [("x = 42", 1); ("x = 42", 2)] Sample.session cfg [] in
  history Sample.session = []
  /\ max_log_entries cfg = 1
  /\ map is_returned rs = [true; true]
  /\ map timestamp (history s') = [1; 2]
  /\ map rec_status (history s') = ["completed"; "completed"]
  /\ max_log_entries cfg < Z.of_nat (length (history s')).
Proof. vm_compute. repeat split. Qed.

Lemma In_classified_new ns l k :
  In k (classified_new ns l)
  <-> exists v, In (k, v) l /\ reserved k = false /\ Dict.get ns k = None.
Proof.
  unfold classified_new, Dict.keys. rewrite in_map_iff. split.
  - intros [[k0 v] [E H]]. simpl in E. subst k0. apply filter_In in H as [H1 H2].
    cbn [fst] in H2. apply andb_true_iff in H2 as [R C].
    apply negb_true_iff in R, C. exists v. repeat split; auto.
    unfold Dict.contains in C. now destruct (Dict.get ns k).
  - intros (v & H1 & R & G). exists (k, v). split; auto.
    apply filter_In. split; auto. cbn [fst]. unfold Dict.contains.
    now rewrite R, G.
Qed.

Lemma In_classified_modified ns l k :
  In k (classified_modified ns l)
  <-> exists v old, In (k, v) l /\ reserved k = false
                    /\ Dict.get ns k = Some old /\ old <> v.
Proof.
  unfold classified_modified, Dict.keys. rewrite in_map_iff. split.
  - intros [[k0 v] [E H]]. simpl in E. subst k0. apply filter_In in H as [H1 H2].
    cbn [fst snd] in H2. apply andb_true_iff in H2 as [R C].
    apply negb_true_iff in R. destruct (Dict.get ns k) as [old|] eqn:G; [|discriminate].
    apply negb_true_iff in C. apply Value_is_neq in C.
    exists v, old. repeat split; auto.
  - intros (v & old & H1 & R & G & N). exists (k, v). split; auto.
    apply filter_In. split; auto. cbn [fst snd]. rewrite R, G.
    apply Value_is_neq in N. now rewrite N.
Qed.

Section ReconciliationClaims.

Variable vars_builtins : Dict.t BuiltinEntry.
Variable py_exec : string -> Dict.t Value -> Heap -> Z -> ExecOutcome.
Variable format_exc : PyException -> string.

Abbreviation execute := (execute_code vars_builtins py_exec format_exc).
Abbreviation outcome := (exec_outcome vars_builtins py_exec).

(** C2.  When the code passes the guard and the block raises nothing, the
    call returns "completed" and, for every binding the code left under a
    name that is not reserved: the session now holds that binding; if the
    name was not bound before it is reported new (and not modified); if it
    was bound to another object it is reported modified (and not new),
    also when both objects have the same content; if it is still bound to
    the same object it is reported neither way, also when the content of
    that object changed in place. *)
Theorem classification_by_reference code session config heap now :
  blank code = false ->
  raised (outcome code session config heap) = None ->
  Dict.wf (out_ns (outcome code session config heap)) = true ->
  let out := outcome code session config heap in
  exists res s',
    execute code session config heap now = (Returned res, s', out_heap out)
    /\ status res = "completed"
    /\ forall key value, In (key, value) (out_ns out) -> reserved key = false ->
         Dict.get (namespace s') key = Some value
         /\ (Dict.get (namespace session) key = None ->
               In key (names (new_vars res)) /\ ~ In key (names (modified_vars res)))
         /\ (forall old, Dict.get (namespace session) key = Some old -> old <> value ->
               In key (names (modified_vars res)) /\ ~ In key (names (new_vars res)))
         /\ (forall r1 r2, Dict.get (namespace session) key = Some (VRef r1) ->
               value = VRef r2 -> r1 <> r2 ->
               deref (out_heap out) r1 = deref (out_heap out) r2 ->
               In key (names (modified_vars res)))
         /\ (Dict.get (namespace session) key = Some value ->
               ~ In key (names (modified_vars res)) /\ ~ In key (names (new_vars res)))
         /\ (forall r, Dict.get (namespace session) key = Some (VRef r) ->
               value = VRef r -> deref heap r <> deref (out_heap out) r ->
               ~ In key (names (modified_vars res))).
Proof.
  intros B R W out.
  rewrite (execute_completed _ _ _ code session config heap now B R).
  fold out. do 2 eexists. split; [reflexivity|]. split; [reflexivity|].
  cbn [new_vars modified_vars namespace _record with_history with_namespace].
  rewrite !names_or_None. unfold persist.
  destruct (persist_fold_closed (out_ns out) (namespace session) [] [] W)
    as (ns' & E & H1 & H2).
  rewrite E. cbn [fst snd app].
  intros key value Hin Hres.
  assert (forall v, In (key, v) (out_ns out) -> v = value) as Huniq.
  { intros v Hv. pose proof (DictFacts.In_get _ _ _ W Hv) as G1.
    pose proof (DictFacts.In_get _ _ _ W Hin) as G2. congruence. }
  assert (forall old, Dict.get (namespace session) key = Some old ->
                      ~ In key (classified_new (namespace session) (out_ns out))) as Hnn.
  { intros old G H. apply In_classified_new in H as (v & _ & _ & G'). congruence. }
  assert (forall old, Dict.get (namespace session) key = Some old -> old <> value ->
                      In key (classified_modified (namespace session) (out_ns out))) as Hm.
  { intros old G N. apply In_classified_modified. exists value, old. auto. }
  assert (Dict.get (namespace session) key = Some value ->
          ~ In key (classified_modified (namespace session) (out_ns out))) as Hs.
  { intros G H. apply In_classified_modified in H as (v & old & Hv & _ & G' & N).
    apply Huniq in Hv. congruence. }
  split; [now apply H1|]. split; [|split; [|split; [|split]]].
  - intros G. split.
    + apply In_classified_new. now exists value.
    + intros H. apply In_classified_modified in H as (v & old & _ & _ & G' & _). congruence.
  - intros old G N. split; eauto.
  - intros r1 r2 G -> N _. apply (Hm _ G). congruence.
  - intros G. split; eauto.
  - intros r G -> _. now apply Hs.
Qed.

(** C10.  Whatever the outcome of a call, a name that begins with an
    underscore, or is [__builtins__] or [result], keeps in the session the
    binding it had (or stays unbound) and appears in neither reported list;
    so every binding of the session that the call changed is that of a name
    not reserved, reported as new or as modified. *)
Theorem reserved_names_never_persisted code session config heap now r s' h' :
  execute code session config heap now = (r, s', h') ->
  (forall key, reserved key = true ->
     Dict.get (namespace s') key = Dict.get (namespace session) key
     /\ ~ In key (reported_new r) /\ ~ In key (reported_modified r))
  /\ (forall key, Dict.get (namespace s') key <> Dict.get (namespace session) key ->
        reserved key = false
        /\ (In key (reported_new r) \/ In key (reported_modified r))).
Proof.
  intros E. pose proof (execute_frame _ _ _ _ _ _ _ _ E) as F.
  unfold frame_ok in F. destruct F as (F1 & F2 & F3 & _ & F5 & _).
  split.
  - intros key Rk. split; [now apply F1|]. split; intros H.
    + destruct (F2 _ H) as [[]|]; congruence.
    + destruct (F3 _ H) as [[]|]; congruence.
  - intros key H. split; [|now apply F5].
    destruct (reserved key) eqn:Rk; auto. exfalso. apply H. now apply F1.
Qed.

(** The invariant of the design document is kept by [execute_code]: a
    namespace free of [result] and of underscore names stays so. *)
Lemma execute_keeps_clean code session config heap now r s' h' :
  execute code session config heap now = (r, s', h') ->
  ns_clean (namespace session) = true -> ns_clean (namespace s') = true.
Proof.
  intros E C. pose proof (execute_frame _ _ _ _ _ _ _ _ E) as F.
  unfold frame_ok in F. destruct F as (_ & _ & _ & F4 & _).
  unfold ns_clean in *. rewrite forallb_forall in *.
  intros k Hk. destruct (F4 _ Hk) as [H|H]; auto using reserved_false_clean.
Qed.

End ReconciliationClaims.

Lemma classification_by_reference_witness :
  exists res s',
    Sample.run "x = 42" Sample.session_x default_config Sample.heap_x 7
    = (Returned res, s', [OData "42"; OData "42"])
    /\ Dict.get (namespace s') "x" = Some (VRef 1%nat)
    /\ In "x" (names (modified_vars res))
    /\ ~ In "x" (names (new_vars res)).
Proof.
  destruct (@classification_by_reference Sample.builtins_table Sample.py_exec
              Sample.format_exc "x = 42" Sample.session_x default_config
              Sample.heap_x 7 eq_refl eq_refl eq_refl)
    as (res & s' & E & _ & H).
  exists res, s'. split; [exact E|].
  destruct (H "x" (VRef 1%nat)) as (H1 & _ & H3 & _).
  - vm_compute. now left.
  - reflexivity.
  - split; [exact H1|]. apply (H3 (VRef 0%nat)); [reflexivity | discriminate].
Defined.

Lemma reserved_names_never_persisted_witness :
  let s' := snd (fst (Sample.run "_tmp = 1; result = 'hello'" Sample.session_x
                        default_config Sample.heap_x 7)) in
  Dict.get (namespace s') "_tmp" = None
  /\ Dict.get (namespace s') "result" = None
  /\ (forall key, Dict.get (namespace s') key <> Dict.get (namespace Sample.session_x) key ->
        reserved key = false).
Proof.
  intros s'.
  destruct (@reserved_names_never_persisted Sample.builtins_table Sample.py_exec
              Sample.format_exc "_tmp = 1; result = 'hello'" Sample.session_x
              default_config Sample.heap_x 7 _ _ _ eq_refl) as [H1 H2].
  split; [|split].
  - exact (proj1 (H1 "_tmp" eq_refl)).
  - exact (proj1 (H1 "result" eq_refl)).
  - intros key H. exact (proj1 (H2 key H)).
Defined.

(** ** Output truncation *)

Lemma of_nat_to_nat n : PyStr.to_nat (PyStr.of_nat n) = Some n.
Proof.
  unfold PyStr.to_nat, PyStr.of_nat.
  assert (Nat.to_uint n <> Decimal.Nil) as H.
  { rewrite <- (DecimalNat.Unsigned.of_to n) at 1. rewrite DecimalNat.Unsigned.to_of.
    apply DecimalFacts.unorm_nonnil. }
  rewrite (NilZero.usu _ H). cbn [option_map].
  now rewrite DecimalNat.Unsigned.of_to.
Qed.

(** What [_truncate] returns, for a budget that is not negative. *)
Lemma truncate_cases text budget :
  (PyStr.len text <= budget -> _truncate text budget = text)
  /\ (0 <= budget < PyStr.len text ->
      exists kept digits,
        _truncate text budget
        = kept ++ String "010"%char "... [truncated, " ++ digits ++ " total chars]"
        /\ PyStr.len kept = budget
        /\ String.prefix kept text = true
        /\ PyStr.to_nat digits = Some (String.length text)).
Proof.
  split.
  - intros H. unfold _truncate. apply Z.leb_le in H. now rewrite H.
  - intros [H0 H1]. unfold _truncate.
    assert ((PyStr.len text <=? budget) = false) as -> by (apply Z.leb_gt; lia).
    exists (PyStr.slice_to text budget), (PyStr.of_nat (String.length text)).
    split; [reflexivity|].
    unfold PyStr.slice_to. assert ((0 <=? budget) = true) as -> by (apply Z.leb_le; lia).
    repeat split.
    + unfold PyStr.len in *. rewrite take_length. lia.
    + apply take_prefix.
    + apply of_nat_to_nat.
Qed.

(** C7, as the code has it.  The budget counts characters.  In the result
    of a call that completes, of one that times out and of one ended by an
    exception other than a syntax or a name error (the results with a
    traceback), [stdout] and [stderr] are the captured texts passed through
    [_truncate].  A text of at most [budget] characters comes back as it
    is.  A longer one is cut to its first [budget] characters, and one
    marker follows, whole: a newline, [... [truncated, ], the decimal
    digits of the original number of characters, [ total chars]].  The
    returned value of a completed call is the object the code bound to
    [result], whatever the budget; any other call returns none. *)
Theorem captured_output_truncation vars_builtins py_exec format_exc
        code session config heap now res s' h' :
  execute_code vars_builtins py_exec format_exc code session config heap now
  = (Returned res, s', h') ->
  let out := exec_outcome vars_builtins py_exec code session config heap in
  let budget := max_output_bytes config in
  ((status res = "completed" \/ status res = "timeout" \/ error_traceback res <> None) ->
     stdout res = _truncate (out_stdout out) budget
     /\ stderr res = _truncate (out_stderr out) budget)
  /\ (forall text,
        (PyStr.len text <= budget -> _truncate text budget = text)
        /\ (0 <= budget < PyStr.len text ->
            exists kept digits,
              _truncate text budget
              = kept ++ String "010"%char "... [truncated, " ++ digits ++ " total chars]"
              /\ PyStr.len kept = budget
              /\ String.prefix kept text = true
              /\ PyStr.to_nat digits = Some (String.length text)))
  /\ (status res = "completed" -> result res = Dict.get (out_ns out) "result")
  /\ (status res <> "completed" -> result res = None).
Proof.
  intros E out budget. subst out budget.
  split; [|split; [intros text; apply truncate_cases|]].
  - unfold execute_code in E. destruct (blank code).
    + injection E as <- _ _. cbn. intros [H|[H|H]]; try discriminate. now contradiction H.
    + destruct (raised (exec_outcome vars_builtins py_exec code session config heap))
        as [[]|]; try discriminate.
      * injection E as <- _ _. cbn. auto.
      * injection E as <- _ _. cbn. intros [H|[H|H]]; try discriminate. now contradiction H.
      * injection E as <- _ _. cbn. intros [H|[H|H]]; try discriminate. now contradiction H.
      * injection E as <- _ _. cbn. auto.
      * destruct (persist _ _) as [[ns nv] mv]. injection E as <- _ _. cbn. auto.
  - unfold execute_code in E. destruct (blank code).
    + injection E as <- _ _. cbn. split; [discriminate | reflexivity].
    + destruct (raised (exec_outcome vars_builtins py_exec code session config heap))
        as [[]|]; try discriminate.
      1-4: injection E as <- _ _; cbn; split; [discriminate | reflexivity].
      destruct (persist _ _) as [[ns nv] mv]. injection E as <- _ _. cbn.
      split; [reflexivity|]. intros H. now contradiction H.
Qed.

Lemma captured_output_truncation_witness :
  exists res s' h',
    Printing.run "print('hello world')" Sample.session Printing.small_output_config [] 7
    = (Returned res, s', h')
    /\ stdout res = _truncate (Printing.line "hello world") 5
    /\ stderr res = EmptyString
    /\ result res = None
    /\ exists kept digits,
         _truncate (Printing.line "hello world") 5
         = kept ++ String "010"%char "... [truncated, " ++ digits ++ " total chars]"
         /\ PyStr.len kept = 5
         /\ String.prefix kept (Printing.line "hello world") = true
         /\ PyStr.to_nat digits = Some 12%nat.
Proof.
  destruct (@captured_output_truncation Sample.builtins_table Printing.py_exec
              Sample.format_exc "print('hello world')" Sample.session
              Printing.small_output_config [] 7 _ _ _ eq_refl) as (H1 & H2 & H3 & _).
  destruct (H1 (or_introl eq_refl)) as [Ho He].
  destruct (H2 (Printing.line "hello world")) as [_ Ht].
  eexists _, _, _. split; [reflexivity|].
  split; [exact Ho|]. split; [exact He|]. split; [exact (H3 eq_refl)|].
  apply Ht. vm_compute. split; [discriminate | reflexivity].
Defined.

(** C7, counterexample to the claim as stated.  A text of three characters
    that UTF-8 writes on six bytes exceeds a budget of four bytes, and
    [_truncate] returns it whole: the budget counts characters.  And a
    program that prints [hi] and then reads an unbound name leaves three
    characters of captured output, well within the default budget, of
    which the result carries none. *)
Lemma output_budget_counts_characters :
  PyStr.utf8_len Printing.accented = 6
  /\ 4 < PyStr.utf8_len Printing.accented
  /\ _truncate Printing.accented 4 = Printing.accented
  /\ (let code := "print('hi'); print(undefined_var)" in
      let out := exec_outcome Sample.builtins_table Printing.py_exec code
                              Sample.session default_config [] in
      out_stdout out = Printing.line "hi"
      /\ PyStr.utf8_len (out_stdout out) <= max_output_bytes default_config
      /\ exists res s' h',
           Printing.run code Sample.session default_config [] 7 = (Returned res, s', h')
           /\ stdout res = EmptyString
           /\ stdout res <> out_stdout out).
Proof.
  split; [reflexivity|]. split; [reflexivity|]. split; [reflexivity|].
  cbv zeta. split; [reflexivity|]. split; [vm_compute; discriminate|].
  eexists _, _, _. split; [reflexivity|]. split; [reflexivity|].
  vm_compute. discriminate.
Qed.


(** ** The sandbox *)

Section Sandbox.

Variable vars_builtins : Dict.t BuiltinEntry.
Variable ImportArgs : Type.
Variable _real_import : string -> ImportArgs -> PyException + Value.

Abbreviation restricted := (_restricted_import _real_import).

(** Under sandbox mode the import statement of the executed code reaches
    [_restricted_import]. *)
Lemma sandbox_import_is_restricted session config heap name args :
  sandbox_enabled config = true ->
  exists b,
    Dict.get (fst (build_exec_ns vars_builtins session config heap)) "__builtins__"
    = Some b
    /\ import_under _real_import
         (snd (build_exec_ns vars_builtins session config heap)) b name args
       = restricted name args.
Proof.
  intros S. unfold build_exec_ns, alloc. rewrite S. cbn [fst snd].
  exists (VRef (length heap)). split.
  - rewrite DictFacts.get_pop_other by discriminate. apply DictFacts.get_set_same.
  - unfold import_under, deref. rewrite nth_error_app2 by lia.
    rewrite Nat.sub_diag. cbn [nth_error].
    unfold _make_sandbox_builtins. now rewrite DictFacts.get_set_same.
Qed.

(** Without sandbox mode the import statement reaches the interpreter's
    own import: the denylist plays no part. *)
Lemma plain_import_is_real session config heap name args :
  sandbox_enabled config = false ->
  Dict.get (fst (build_exec_ns vars_builtins session config heap)) "__builtins__"
  = Some VBuiltinsModule
  /\ import_under _real_import
       (snd (build_exec_ns vars_builtins session config heap)) VBuiltinsModule name args
     = _real_import name args.
Proof.
  intros S. unfold build_exec_ns. rewrite S. cbn [fst snd]. split; [|reflexivity].
  rewrite DictFacts.get_pop_other by discriminate. apply DictFacts.get_set_same.
Qed.

(** A denylisted name without a dot is refused, in a message that names it
    and lists the whole denylist, sorted. *)
Lemma restricted_import_blocks name args :
  In name SANDBOXED_BLOCKED_MODULES -> name <> "http.server" ->
  restricted name args
  = inl (OtherException "ImportError"
           ("Module '" ++ name ++ "' is blocked in sandbox mode. Blocked modules: "
            ++ "antigravity, ctypes, ftplib, http.server, shutil, smtplib, socket, "
            ++ "subprocess, telnetlib, webbrowser, xmlrpc")).
Proof.
  intros H N. unfold SANDBOXED_BLOCKED_MODULES in H. simpl in H.
  repeat (destruct H as [<-|H]; [try reflexivity; now contradiction N|]).
  contradiction.
Qed.

(** C4, where the code departs from the claim.  [http.server] is on the
    denylist, but the check looks up the text before the first dot,
    [http], which is not: the import goes through to the interpreter. *)
Theorem restricted_import_passes_http_server :
  In "http.server" SANDBOXED_BLOCKED_MODULES
  /\ PyStr.split_head "."%char "http.server" = "http"
  /\ PyStr.mem "http" SANDBOXED_BLOCKED_MODULES = false
  /\ forall args, restricted "http.server" args = _real_import "http.server" args.
Proof.
  split; [simpl; tauto|]. split; [reflexivity|]. split; reflexivity.
Qed.

End Sandbox.

(** ** The session store *)

Lemma with_sessions_same m : with_sessions m (_sessions m) = m.
Proof. now destruct m. Qed.

Lemma fold_pop_subset (V : Type) (ids : list string) : forall (d : Dict.t V) kv,
  In kv (fold_left (fun d sid => Dict.pop d sid) ids d) -> In kv d.
Proof.
  induction ids as [|i r IH]; intros d kv; simpl; auto.
  intros H. apply IH in H. now apply DictFacts.In_pop in H.
Qed.

Lemma evict_subset m clk kv :
  In kv (_sessions (_evict_expired m clk)) -> In kv (_sessions m).
Proof. unfold _evict_expired. cbn [_sessions with_sessions]. apply fold_pop_subset. Qed.

Lemma evict_none m clk :
  expired_ids (_sessions m) (session_ttl_minutes (_config m)) clk = [] ->
  _evict_expired m clk = m.
Proof.
  intros H. unfold _evict_expired. rewrite H. simpl. apply with_sessions_same.
Qed.

Lemma ids_match_In d k s : ids_match d = true -> In (k, s) d -> session_id s = k.
Proof.
  unfold ids_match. rewrite forallb_forall. intros H Hin.
  specialize (H _ Hin). cbn [fst snd] in H. apply String.eqb_eq in H. auto.
Qed.

(** C9.  [get_session] on an unknown id returns nothing and leaves the
    store as it is.  On a session idle for longer than the time to live it
    returns nothing and deletes that session, and no other; the id is
    then unknown and no later [list_sessions] shows it.  On a live session
    it sets the last-used time to the clock and returns the session, which
    is the one the store now holds. *)
Theorem get_session_spec m sid clk :
  (Dict.get (_sessions m) sid = None -> get_session m sid clk = (None, m))
  /\ (forall s, Dict.get (_sessions m) sid = Some s ->
        minutes (session_ttl_minutes (_config m)) < clk 0%nat - last_used s ->
        exists m',
          get_session m sid clk = (None, m')
          /\ Dict.get (_sessions m') sid = None
          /\ (forall sid', sid' <> sid ->
                Dict.get (_sessions m') sid' = Dict.get (_sessions m) sid')
          /\ (ids_match (_sessions m) = true ->
              forall clk', ~ In sid (map info_session_id (fst (list_sessions m' clk')))))
  /\ (forall s, Dict.get (_sessions m) sid = Some s ->
        clk 0%nat - last_used s <= minutes (session_ttl_minutes (_config m)) ->
        exists m',
          get_session m sid clk = (Some (touch s (clk 1%nat)), m')
          /\ last_used (touch s (clk 1%nat)) = clk 1%nat
          /\ Dict.get (_sessions m') sid = Some (touch s (clk 1%nat))
          /\ (forall sid', sid' <> sid ->
                Dict.get (_sessions m') sid' = Dict.get (_sessions m) sid')).
Proof.
  unfold get_session. split; [|split].
  - now intros ->.
  - intros s -> Hexp. unfold is_expired.
    assert ((minutes (session_ttl_minutes (_config m)) <? clk 0%nat - last_used s) = true)
      as -> by (apply Z.ltb_lt; lia).
    eexists. split; [reflexivity|]. cbn [_sessions with_sessions].
    split; [apply DictFacts.get_pop_same|].
    split; [intros sid' N; apply DictFacts.get_pop_other; congruence|].
    intros Hids clk' Hin. unfold list_sessions in Hin. cbn [fst] in Hin.
    rewrite map_map in Hin. apply in_map_iff in Hin as [s0 [E Hin]].
    cbn [session_info info_session_id] in E.
    unfold Dict.values in Hin. apply in_map_iff in Hin as [[k s1] [E1 Hin]].
    cbn [snd] in E1. subst s1. apply evict_subset in Hin.
    cbn [_sessions with_sessions] in Hin. apply DictFacts.In_pop in Hin as [Hin N].
    cbn [fst] in N. apply (ids_match_In _ _ _ Hids) in Hin. congruence.
  - intros s -> Hlive. unfold is_expired.
    assert ((minutes (session_ttl_minutes (_config m)) <? clk 0%nat - last_used s) = false)
      as -> by (apply Z.ltb_ge; lia).
    eexists. split; [reflexivity|]. cbn [_sessions with_sessions].
    split; [reflexivity|].
    split; [apply DictFacts.get_set_same|].
    intros sid' N. apply DictFacts.get_set_other. congruence.
Qed.

Lemma get_session_spec_witness :
  get_session (Sample.store2 default_config) "zzz" (Sample.at_time 8000000000)
  = (None, Sample.store2 default_config)
  /\ (exists m',
        get_session (Sample.store2 default_config) "aaa" (Sample.at_time 8000000000)
        = (None, m')
        /\ forall clk', ~ In "aaa" (map info_session_id (fst (list_sessions m' clk'))))
  /\ (exists m',
        get_session (Sample.store2 default_config) "bbb" (Sample.at_time 8000000000)
        = (Some (mkSession "bbb" 1000 8000000000 Dict.empty []), m')
        /\ Dict.get (_sessions m') "bbb"
           = Some (mkSession "bbb" 1000 8000000000 Dict.empty [])).
Proof.
  split; [|split].
  - apply (proj1 (get_session_spec (Sample.store2 default_config) "zzz"
                    (Sample.at_time 8000000000))). reflexivity.
  - destruct (proj1 (proj2 (get_session_spec (Sample.store2 default_config) "aaa"
                              (Sample.at_time 8000000000)))
                    (mkSession "aaa" 0 0 Dict.empty []) eq_refl)
      as (m' & E & _ & _ & L).
    + vm_compute. reflexivity.
    + exists m'. split; [exact E|]. apply L. reflexivity.
  - destruct (proj2 (proj2 (get_session_spec (Sample.store2 default_config) "bbb"
                              (Sample.at_time 8000000000)))
                    (mkSession "bbb" 1000 5000000000 Dict.empty []) eq_refl)
      as (m' & E & _ & G & _).
    + vm_compute. discriminate.
    + exists m'. split; [exact E | exact G].
Defined.

(** [min] returns the first of the elements whose key is smallest. *)
Lemma py_min_first_minimal (A : Type) (key : A -> Z) (r : list A) : forall done best,
  (exists pre post, done = (pre ++ best :: post)%list
     /\ (forall y, In y pre -> key best < key y)
     /\ (forall y, In y post -> key best <= key y)) ->
  let b := fold_left (fun best y => if key y <? key best then y else best) r best in
  exists pre post, (done ++ r)%list = (pre ++ b :: post)%list
     /\ (forall y, In y pre -> key b < key y)
     /\ (forall y, In y post -> key b <= key y).
Proof.
  induction r as [|y r IH]; intros done best (pre & post & E & Hpre & Hpost); cbn [fold_left].
  - exists pre, post. rewrite app_nil_r. auto.
  - replace (done ++ y :: r)%list with ((done ++ [y]) ++ r)%list
      by (rewrite <- app_assoc; reflexivity).
    apply IH. destruct (key y <? key best) eqn:C.
    + apply Z.ltb_lt in C. exists done, []. split; [reflexivity|]. split.
      * intros z Hz. subst done. apply in_app_or in Hz as [Hz|[<-|Hz]].
        -- specialize (Hpre _ Hz). lia.
        -- lia.
        -- specialize (Hpost _ Hz). lia.
      * intros z [].
    + apply Z.ltb_ge in C. exists pre, (post ++ [y])%list. split.
      * subst done. rewrite <- app_assoc. reflexivity.
      * split; auto. intros z Hz. apply in_app_or in Hz as [Hz|[<-|[]]]; auto.
Qed.

Lemma py_min_spec (A : Type) (key : A -> Z) (l : list A) :
  l <> [] ->
  exists pre b post, py_min key l = Some b /\ l = (pre ++ b :: post)%list
     /\ (forall y, In y pre -> key b < key y)
     /\ (forall y, In y post -> key b <= key y).
Proof.
  destruct l as [|x r]; [congruence|]. intros _.
  destruct (@py_min_first_minimal A key r [x] x) as (pre & post & E & H1 & H2).
  { exists [], []. split; [reflexivity|]. split; intros y []. }
  exists pre, (fold_left (fun best y => if key y <? key best then y else best) r x), post.
  split; [reflexivity|]. auto.
Qed.

Lemma wf_NoDup (V : Type) (d : Dict.t V) : Dict.wf d = true -> NoDup (Dict.keys d).
Proof.
  induction d as [|[k v] r IH]; simpl; [constructor|].
  intros H. apply andb_true_iff in H as [Hk Hr]. constructor; auto.
  intros Hin. apply DictFacts.contains_In in Hin. apply negb_true_iff in Hk. congruence.
Qed.

Lemma pop_absent (V : Type) (d : Dict.t V) k :
  ~ In k (Dict.keys d) -> Dict.pop d k = d.
Proof.
  induction d as [|[k' v] r IH]; simpl; auto.
  intros H. destruct (String.eqb k' k) eqn:E.
  - apply String.eqb_eq in E. exfalso. apply H. now left.
  - simpl. f_equal. apply IH. intros Hin. apply H. now right.
Qed.

(** Deleting the key of one entry of a dict removes that entry alone. *)
Lemma pop_entry (V : Type) (pre post : Dict.t V) k v :
  Dict.wf (pre ++ (k, v) :: post)%list = true ->
  Dict.pop (pre ++ (k, v) :: post)%list k = (pre ++ post)%list.
Proof.
  intros W. apply wf_NoDup in W. unfold Dict.keys in W.
  rewrite map_app in W. cbn [map fst] in W. apply NoDup_remove_2 in W.
  unfold Dict.pop. rewrite filter_app. cbn [filter fst]. rewrite String.eqb_refl.
  cbn [negb]. fold (Dict.pop pre k). fold (Dict.pop post k).
  rewrite !pop_absent; auto.
  - intros H. apply W. apply in_or_app. now right.
  - intros H. apply W. apply in_or_app. now left.
Qed.

Lemma creation_ordered_after pre k s post kv :
  creation_ordered (pre ++ (k, s) :: post)%list = true ->
  In kv post -> created_at s <= created_at (snd kv).
Proof.
  induction pre as [|[k0 s0] r IH]; cbn [app creation_ordered].
  - intros H Hin. apply andb_true_iff in H as [H _].
    rewrite forallb_forall in H. apply Z.leb_le. now apply H.
  - intros H. apply andb_true_iff in H as [_ H]. auto.
Qed.

(** The session [min] picks in [create_session]: the first, in store
    order, of those used least recently. *)
Lemma oldest_session (d : Dict.t Session) :
  Dict.wf d = true -> d <> [] ->
  exists pre oldest_id oldest post,
    py_min (last_used_of d) (Dict.keys d) = Some oldest_id
    /\ d = (pre ++ (oldest_id, oldest) :: post)%list
    /\ (forall kv, In kv pre -> last_used oldest < last_used (snd kv))
    /\ (forall kv, In kv post -> last_used oldest <= last_used (snd kv)).
Proof.
  intros W Hne.
  assert (forall k s, In (k, s) d -> last_used_of d k = last_used s) as Hkey.
  { intros k s Hin. unfold last_used_of. now rewrite (DictFacts.In_get _ _ _ W Hin). }
  destruct (@py_min_spec string (last_used_of d) (Dict.keys d))
    as (pk & b & qk & E & Hk & H1 & H2).
  { destruct d; [congruence | discriminate]. }
  unfold Dict.keys in Hk. apply map_eq_app in Hk as (pre & rest & -> & <- & Hrest).
  apply map_eq_cons in Hrest as ([k s] & post & -> & Hb & <-). cbn [fst] in Hb. subst k.
  exists pre, b, s, post. split; [exact E|]. split; [reflexivity|].
  assert (last_used_of (pre ++ (b, s) :: post)%list b = last_used s) as Hbs.
  { apply Hkey. apply in_or_app. right. now left. }
  split.
  - intros [k0 s0] Hin. cbn [snd].
    rewrite <- Hbs, <- (Hkey k0 s0) by (apply in_or_app; now left).
    apply H1. apply in_map_iff. now exists (k0, s0).
  - intros [k0 s0] Hin. cbn [snd].
    rewrite <- Hbs, <- (Hkey k0 s0) by (apply in_or_app; right; now right).
    apply H2. apply in_map_iff. now exists (k0, s0).
Qed.

Lemma wf_fold_pop (V : Type) (ids : list string) : forall d : Dict.t V,
  Dict.wf d = true -> Dict.wf (fold_left (fun d sid => Dict.pop d sid) ids d) = true.
Proof.
  induction ids as [|i r IH]; intros d H; simpl; auto using DictFacts.wf_pop.
Qed.

Lemma filter_filter (A : Type) (f g : A -> bool) (l : list A) :
  filter f (filter g l) = filter (fun x => g x && f x) l.
Proof.
  induction l as [|x r IH]; simpl; auto.
  destruct (g x); simpl; [destruct (f x)|]; now rewrite IH.
Qed.

(** A run of deletions keeps, in order, the entries whose key is not
    among those deleted. *)
Lemma fold_pop_filter (V : Type) (ids : list string) : forall d : Dict.t V,
  fold_left (fun d sid => Dict.pop d sid) ids d
  = filter (fun kv => negb (PyStr.mem (fst kv) ids)) d.
Proof.
  induction ids as [|i r IH]; intros d; simpl.
  - symmetry. apply forallb_filter_id. now apply forallb_forall.
  - rewrite IH. unfold Dict.pop. rewrite filter_filter. apply filter_ext.
    intros kv. unfold PyStr.mem. simpl. now rewrite negb_orb.
Qed.

Lemma mem_In x l : PyStr.mem x l = true <-> In x l.
Proof.
  unfold PyStr.mem. rewrite existsb_exists. split.
  - intros [y [H E]]. apply String.eqb_eq in E. now subst.
  - intros H. exists x. split; auto. apply String.eqb_refl.
Qed.

Lemma expired_ids_always d ttl : forall clk k s,
  In (k, s) d -> (forall i, is_expired s ttl (clk i) = true) ->
  In k (expired_ids d ttl clk).
Proof.
  induction d as [|[k0 s0] r IH]; intros clk k s Hin Hall; [contradiction|].
  cbn [expired_ids]. destruct Hin as [[= -> ->]|Hin].
  - rewrite Hall. now left.
  - assert (In k (expired_ids r ttl (advance 1 clk))) as H.
    { apply (IH _ _ s); auto. intros i. apply Hall. }
    destruct (is_expired s0 ttl (clk 0%nat)); [now right | exact H].
Qed.

Lemma expired_ids_some d ttl : forall clk k,
  In k (expired_ids d ttl clk) ->
  exists s i, In (k, s) d /\ is_expired s ttl (clk i) = true.
Proof.
  induction d as [|[k0 s0] r IH]; intros clk k Hin; [contradiction|].
  cbn [expired_ids] in Hin.
  assert (In k (expired_ids r ttl (advance 1 clk)) ->
          exists s i, In (k, s) ((k0, s0) :: r) /\ is_expired s ttl (clk i) = true) as Hrest.
  { intros H. destruct (IH _ _ H) as (s & i & H1 & H2).
    exists s, (1 + i)%nat. split; [now right | exact H2]. }
  destruct (is_expired s0 ttl (clk 0%nat)) eqn:E; auto.
  destruct Hin as [<-|Hin]; auto.
  exists s0, 0%nat. split; [now left | exact E].
Qed.

Lemma evict_filter m clk :
  _sessions (_evict_expired m clk)
  = filter (fun kv => negb (PyStr.mem (fst kv)
                              (expired_ids (_sessions m) (session_ttl_minutes (_config m)) clk)))
           (_sessions m).
Proof. unfold _evict_expired. cbn [_sessions with_sessions]. apply fold_pop_filter. Qed.

Lemma creation_ordered_filter d f :
  creation_ordered d = true -> creation_ordered (filter f d) = true.
Proof.
  induction d as [|[k s] r IH]; cbn [creation_ordered filter]; auto.
  intros H. apply andb_true_iff in H as [H1 H2].
  destruct (f (k, s)); auto. cbn [creation_ordered]. rewrite IH by assumption.
  rewrite andb_true_r. rewrite forallb_forall in *. intros x Hx.
  apply filter_In in Hx as [Hx _]. auto.
Qed.

(** C8, as the code has it.  [create_session] first sweeps the store.
    What the sweep leaves, [swept], is the sessions, in their order, that
    it did not find expired: a session expired at every reading of the
    clock during the sweep is not among them, a session expired at none
    of them is.  When [swept] holds fewer sessions than the maximum,
    nothing more is evicted and the new session is added.  When [swept],
    not empty, holds the maximum or more, exactly one more session is
    evicted: the first, in store order, of those of [swept] with the
    smallest last-used time, which in a store kept in creation order is,
    among those tied on last-used time, one created earliest.  Every
    other session of [swept] stays, in order, and the new one is added.
    Unless the new identifier repeats it, the evicted identifier is
    unknown afterwards. *)
Theorem create_session_evicts_lru m clk new_id :
  Dict.wf (_sessions m) = true ->
  let ttl := session_ttl_minutes (_config m) in
  let swept := _sessions (_evict_expired m clk) in
  let now := clk (length (_sessions m)) in
  let fresh := mkSession new_id now now Dict.empty [] in
  swept = filter (fun kv => negb (PyStr.mem (fst kv) (expired_ids (_sessions m) ttl clk)))
                 (_sessions m)
  /\ (forall k s, In (k, s) (_sessions m) ->
        (forall i, is_expired s ttl (clk i) = true) -> ~ In k (Dict.keys swept))
  /\ (forall k s, In (k, s) (_sessions m) ->
        (forall i, is_expired s ttl (clk i) = false) -> In (k, s) swept)
  /\ (Z.of_nat (length swept) < max_sessions (_config m) ->
      create_session m clk new_id
      = (Some fresh, with_sessions m (Dict.set swept new_id fresh)))
  /\ (max_sessions (_config m) <= Z.of_nat (length swept) -> swept <> [] ->
      exists pre oldest_id oldest post,
        swept = (pre ++ (oldest_id, oldest) :: post)%list
        /\ (forall kv, In kv pre -> last_used oldest < last_used (snd kv))
        /\ (forall kv, In kv post -> last_used oldest <= last_used (snd kv))
        /\ (creation_ordered (_sessions m) = true ->
            forall kv, In kv swept -> last_used (snd kv) = last_used oldest ->
                       created_at oldest <= created_at (snd kv))
        /\ create_session m clk new_id
           = (Some fresh, with_sessions m (Dict.set (pre ++ post)%list new_id fresh))
        /\ (forall sid, sid <> oldest_id -> sid <> new_id ->
              Dict.get (_sessions (snd (create_session m clk new_id))) sid
              = Dict.get swept sid)
        /\ (new_id <> oldest_id ->
            forall clk', get_session (snd (create_session m clk new_id)) oldest_id clk'
                         = (None, snd (create_session m clk new_id)))).
Proof.
  intros W ttl swept now fresh.
  assert (swept = filter (fun kv => negb (PyStr.mem (fst kv)
                                            (expired_ids (_sessions m) ttl clk)))
                         (_sessions m)) as Esw by apply evict_filter.
  assert (Dict.wf swept = true) as Wsw.
  { unfold swept, _evict_expired. cbn [_sessions with_sessions]. now apply wf_fold_pop. }
  split; [exact Esw|]. split; [|split; [|split]].
  - intros k s Hin Hall H. unfold Dict.keys in H.
    apply in_map_iff in H as [[k0 s0] [Ek H]]. cbn [fst] in Ek. subst k0.
    rewrite Esw in H. apply filter_In in H as [_ H]. cbn [fst] in H.
    apply negb_true_iff in H.
    assert (PyStr.mem k (expired_ids (_sessions m) ttl clk) = true) as H'.
    { apply mem_In. eapply expired_ids_always; eauto. }
    congruence.
  - intros k s Hin Hnone. rewrite Esw. apply filter_In. split; auto. cbn [fst].
    apply negb_true_iff.
    destruct (PyStr.mem k (expired_ids (_sessions m) ttl clk)) eqn:M; auto.
    apply mem_In in M. apply expired_ids_some in M as (s' & i & Hin' & Hexp).
    pose proof (DictFacts.In_get _ _ _ W Hin) as G1.
    pose proof (DictFacts.In_get _ _ _ W Hin') as G2.
    assert (s' = s) by congruence. subst. rewrite Hnone in Hexp. discriminate.
  - intros Hroom. unfold create_session. fold swept.
    change (_config (_evict_expired m clk)) with (_config m).
    assert ((max_sessions (_config m) <=? Z.of_nat (length swept)) = false) as ->
        by (apply Z.leb_gt; lia).
    unfold advance. rewrite Nat.add_0_r. reflexivity.
  - intros Hmax Hne.
    destruct (oldest_session Wsw Hne) as (pre & oid & o & post & Emin & Ed & Hpre & Hpost).
    exists pre, oid, o, post.
    assert (Dict.pop swept oid = (pre ++ post)%list) as Hpop.
    { rewrite Ed. apply pop_entry. now rewrite <- Ed. }
    assert (create_session m clk new_id
            = (Some fresh, with_sessions m (Dict.set (pre ++ post)%list new_id fresh)))
      as Ecreate.
    { unfold create_session. fold swept.
      change (_config (_evict_expired m clk)) with (_config m).
      assert ((max_sessions (_config m) <=? Z.of_nat (length swept)) = true) as ->
          by (apply Z.leb_le; lia).
      rewrite Emin, Hpop. unfold advance. rewrite Nat.add_0_r. reflexivity. }
    assert (forall sid, sid <> oid -> Dict.get (pre ++ post)%list sid = Dict.get swept sid)
      as Hrest.
    { intros sid N. rewrite <- Hpop. apply DictFacts.get_pop_other. congruence. }
    split; [exact Ed|]. split; [exact Hpre|]. split; [exact Hpost|].
    split; [|split; [exact Ecreate|split]].
    + intros Hord kv Hin Htie.
      assert (creation_ordered swept = true) as Hord'
          by (rewrite Esw; now apply creation_ordered_filter).
      rewrite Ed in Hin, Hord'.
      apply in_app_or in Hin as [Hin|[<-|Hin]].
      * specialize (Hpre _ Hin). lia.
      * cbn [snd]. lia.
      * eapply creation_ordered_after; eauto.
    + intros sid N1 N2. rewrite Ecreate. cbn [snd _sessions with_sessions].
      rewrite DictFacts.get_set_other by congruence. now apply Hrest.
    + intros N clk'. rewrite Ecreate. cbn [snd]. unfold get_session.
      cbn [_sessions with_sessions].
      rewrite DictFacts.get_set_other by congruence.
      assert (Dict.get (pre ++ post)%list oid = None) as ->; [|reflexivity].
      apply DictFacts.get_None_not_key. apply wf_NoDup in Wsw. rewrite Ed in Wsw.
      unfold Dict.keys in *. rewrite map_app in *. cbn [map fst] in Wsw.
      now apply NoDup_remove_2 in Wsw.
Qed.

Lemma create_session_evicts_lru_witness :
  let m := Sample.store2 Sample.two_sessions_config in
  (exists pre oldest_id oldest post,
     _sessions m = (pre ++ (oldest_id, oldest) :: post)%list
     /\ (forall kv, In kv pre -> last_used oldest < last_used (snd kv))
     /\ (forall kv, In kv post -> last_used oldest <= last_used (snd kv))
     /\ create_session m (Sample.at_time 6000000000) "ccc"
        = (Some (mkSession "ccc" 6000000000 6000000000 Dict.empty []),
           with_sessions m
             (Dict.set (pre ++ post)%list "ccc"
                (mkSession "ccc" 6000000000 6000000000 Dict.empty []))))
  /\ create_session m (Sample.at_time 20000000000) "ccc"
     = (Some (mkSession "ccc" 20000000000 20000000000 Dict.empty []),
        with_sessions m [("ccc", mkSession "ccc" 20000000000 20000000000 Dict.empty [])])
  /\ ~ In "aaa" (Dict.keys (_sessions (_evict_expired m (Sample.at_time 8000000000))))
  /\ In ("bbb", mkSession "bbb" 1000 5000000000 Dict.empty [])
        (_sessions (_evict_expired m (Sample.at_time 8000000000))).
Proof.
  intros m. split; [|split; [|split]].
  - destruct (@create_session_evicts_lru m (Sample.at_time 6000000000) "ccc" eq_refl)
      as (_ & _ & _ & _ & H).
    destruct H as (pre & oid & o & post & H1 & H2 & H3 & _ & H5 & _).
    + vm_compute. discriminate.
    + vm_compute. discriminate.
    + exists pre, oid, o, post. auto.
  - destruct (@create_session_evicts_lru m (Sample.at_time 20000000000) "ccc" eq_refl)
      as (_ & _ & _ & H & _).
    apply H. vm_compute. reflexivity.
  - destruct (@create_session_evicts_lru m (Sample.at_time 8000000000) "ccc" eq_refl)
      as (_ & H & _).
    apply (H "aaa" (mkSession "aaa" 0 0 Dict.empty [])).
    + now left.
    + intros i. reflexivity.
  - destruct (@create_session_evicts_lru m (Sample.at_time 8000000000) "ccc" eq_refl)
      as (_ & _ & H & _).
    apply (H "bbb" (mkSession "bbb" 1000 5000000000 Dict.empty [])).
    + right. now left.
    + intros i. reflexivity.
Defined.

(** C8, counterexample to the claim as stated.  The store holds the
    maximum of two sessions and both have expired: [create_session] evicts
    the two of them, not one. *)
Lemma create_session_evicts_two :
  let m := Sample.store2 Sample.two_sessions_config in
  Z.of_nat (count m) = max_sessions (_config m)
  /\ Dict.keys (_sessions (snd (create_session m (Sample.at_time 20000000000) "ccc")))
     = ["ccc"].
Proof. split; reflexivity. Qed.

(** ** The namespace invariant across the tools *)

Lemma values_set (V : Type) (d : Dict.t V) k v x :
  In x (Dict.values (Dict.set d k v)) -> x = v \/ In x (Dict.values d).
Proof.
  induction d as [|[k' v'] r IH]; simpl.
  - intros [<-|[]]. now left.
  - destruct (String.eqb k' k); simpl.
    + intros [<-|H]; auto.
    + intros [<-|H]; auto. destruct (IH H); auto.
Qed.

Lemma values_pop (V : Type) (d : Dict.t V) k x :
  In x (Dict.values (Dict.pop d k)) -> In x (Dict.values d).
Proof.
  unfold Dict.values. rewrite !in_map_iff. intros [kv [E H]].
  apply DictFacts.In_pop in H as [H _]. now exists kv.
Qed.

Lemma values_get (V : Type) (d : Dict.t V) k v :
  Dict.get d k = Some v -> In v (Dict.values d).
Proof.
  intros H. apply DictFacts.get_Some_In in H. unfold Dict.values.
  apply in_map_iff. now exists (k, v).
Qed.

Lemma server_clean_iff srv : server_clean srv = true <-> store_clean (srv_sessions srv).
Proof. unfold server_clean, store_clean. apply forallb_forall. Qed.

Lemma store_back_clean m s :
  store_clean m -> ns_clean (namespace s) = true -> store_clean (store_back m s).
Proof.
  intros Hm Hs x Hx. unfold store_back in Hx. cbn [_sessions with_sessions] in Hx.
  apply values_set in Hx as [->|Hx]; auto.
Qed.

Lemma evict_clean m clk : store_clean m -> store_clean (_evict_expired m clk).
Proof.
  intros Hm x Hx. apply Hm. unfold Dict.values in *.
  apply in_map_iff in Hx as [kv [E H]]. apply evict_subset in H.
  apply in_map_iff. now exists kv.
Qed.

Lemma get_session_clean m sid clk :
  store_clean m ->
  store_clean (snd (get_session m sid clk))
  /\ forall s, fst (get_session m sid clk) = Some s -> ns_clean (namespace s) = true.
Proof.
  intros Hm. unfold get_session.
  destruct (Dict.get (_sessions m) sid) as [s|] eqn:G; [|split; [auto|discriminate]].
  apply values_get in G. pose proof (Hm _ G) as Hs.
  destruct (is_expired s _ _); cbn [fst snd].
  - split; [|discriminate]. intros x Hx. cbn [_sessions with_sessions] in Hx.
    apply values_pop in Hx. auto.
  - split.
    + intros x Hx. cbn [_sessions with_sessions] in Hx.
      apply values_set in Hx as [->|Hx]; auto.
    + now intros s0 [= <-].
Qed.

Lemma create_session_clean m clk new_id :
  store_clean m ->
  store_clean (snd (create_session m clk new_id))
  /\ forall s, fst (create_session m clk new_id) = Some s -> ns_clean (namespace s) = true.
Proof.
  intros Hm. pose proof (evict_clean clk Hm) as H1. unfold create_session.
  set (m1 := _evict_expired m clk) in *.
  assert (forall d : Dict.t Session, (forall x, In x (Dict.values d) -> In x (Dict.values (_sessions m1))) ->
            forall f, ns_clean (namespace f) = true ->
            store_clean (with_sessions m1 (Dict.set d new_id f))) as Hset.
  { intros d Hd f Hf x Hx. cbn [_sessions with_sessions] in Hx.
    apply values_set in Hx as [->|Hx]; auto. }
  destruct (max_sessions (_config m1) <=? Z.of_nat (length (_sessions m1))).
  - destruct (py_min _ _) as [oid|]; cbn [fst snd].
    + split; [|now intros s [= <-]]. apply Hset; auto. intros x. apply values_pop.
    + split; [auto|discriminate].
  - cbn [fst snd]. split; [|now intros s [= <-]]. apply Hset; auto.
Qed.

Lemma get_or_create_clean m sid clk new_id :
  store_clean m ->
  store_clean (snd (get_or_create m sid clk new_id))
  /\ forall s, fst (get_or_create m sid clk new_id) = Some s -> ns_clean (namespace s) = true.
Proof.
  intros Hm. unfold get_or_create.
  destruct sid as [id|]; [|now apply create_session_clean].
  destruct (PyStr.truthy id); [|now apply create_session_clean].
  destruct (get_session_clean id clk Hm) as [H1 H2].
  destruct (get_session m id clk) as [[s|] m'] eqn:E; cbn [fst snd] in *.
  - split; auto.
  - now apply create_session_clean.
Qed.

Lemma ns_clean_set ns k (v : Value) :
  ns_clean ns = true -> clean_name k = true -> ns_clean (Dict.set ns k v) = true.
Proof.
  unfold ns_clean. rewrite !forallb_forall. intros H Hk x Hx.
  apply DictFacts.In_keys_set in Hx as [->|Hx]; auto.
Qed.

Lemma ns_clean_pop ns k : ns_clean ns = true -> ns_clean (Dict.pop ns k) = true.
Proof.
  unfold ns_clean. rewrite !forallb_forall. intros H x Hx. apply H.
  unfold Dict.keys in *. apply in_map_iff in Hx as [kv [E Hin]].
  apply DictFacts.In_pop in Hin as [Hin _]. apply in_map_iff. now exists kv.
Qed.

Section ToolClaims.

Variable vars_builtins : Dict.t BuiltinEntry.
Variable py_exec : string -> Dict.t Value -> Heap -> Z -> ExecOutcome.
Variable format_exc : PyException -> string.

Lemma run_in_session_clean m heap session code now :
  store_clean m -> ns_clean (namespace session) = true ->
  store_clean (srv_sessions
                 (snd (run_in_session vars_builtins py_exec format_exc m heap session code now))).
Proof.
  intros Hm Hs. unfold run_in_session.
  destruct (execute_code _ _ _ code session (_config m) heap now) as [[r s'] h'] eqn:E.
  pose proof (execute_keeps_clean _ _ _ _ _ _ _ _ E Hs) as Hs'.
  destruct r; cbn [snd srv_sessions]; now apply store_back_clean.
Qed.

(** C1, as the code has it.  If no session of the store binds [result] or
    a name that begins with an underscore, then none does after run-code,
    get-variable, delete-variable or clear-namespace, nor after
    set-variable when the name it is given is itself neither [result] nor
    an underscore name.  (Set-variable stores any other name as given, and
    run-file binds [__file__]: these two break the invariant.) *)
Theorem tools_keep_namespaces_clean srv :
  server_clean srv = true ->
  (forall code sid clk new_id now,
     server_clean (snd (repl_run_code vars_builtins py_exec format_exc
                          srv code sid clk new_id now)) = true)
  /\ (forall sid var_name clk,
        server_clean (snd (repl_get_variable srv sid var_name clk)) = true)
  /\ (forall sid var_name clk,
        server_clean (snd (repl_delete_variable srv sid var_name clk)) = true)
  /\ (forall sid clk,
        server_clean (snd (repl_clear_namespace srv sid clk)) = true)
  /\ (forall sid var_name json_value clk,
        clean_name var_name = true ->
        server_clean (snd (repl_set_variable srv sid var_name json_value clk)) = true).
Proof.
  intros C. apply server_clean_iff in C.
  split; [|split; [|split; [|split]]].
  - intros code sid clk new_id now. apply server_clean_iff. unfold repl_run_code.
    destruct (get_or_create_clean sid clk new_id C) as [H1 H2].
    destruct (get_or_create (srv_sessions srv) sid clk new_id) as [[s|] m];
      cbn [fst snd] in *; auto.
    apply run_in_session_clean; auto.
  - intros sid var_name clk. apply server_clean_iff. unfold repl_get_variable.
    destruct (get_session_clean sid clk C) as [H1 H2].
    destruct (get_session (srv_sessions srv) sid clk) as [[s|] m];
      cbn [fst snd] in *; auto.
    destruct (Dict.get (namespace s) var_name); auto.
  - intros sid var_name clk. apply server_clean_iff. unfold repl_delete_variable.
    destruct (get_session_clean sid clk C) as [H1 H2].
    destruct (get_session (srv_sessions srv) sid clk) as [[s|] m];
      cbn [fst snd] in *; auto.
    destruct (Dict.contains (namespace s) var_name); cbn [snd srv_sessions]; auto.
    apply store_back_clean; auto. cbn [namespace with_namespace].
    apply ns_clean_pop; auto.
  - intros sid clk. apply server_clean_iff. unfold repl_clear_namespace.
    destruct (get_session_clean sid clk C) as [H1 H2].
    destruct (get_session (srv_sessions srv) sid clk) as [[s|] m];
      cbn [fst snd] in *; auto.
    apply store_back_clean; auto.
  - intros sid var_name json_value clk Hn. apply server_clean_iff.
    unfold repl_set_variable, alloc.
    destruct (get_session_clean sid clk C) as [H1 H2].
    destruct (get_session (srv_sessions srv) sid clk) as [[s|] m];
      cbn [fst snd] in *; auto.
    apply store_back_clean; auto. cbn [namespace with_namespace].
    apply ns_clean_set; auto.
Qed.

End ToolClaims.

Lemma tools_keep_namespaces_clean_witness :
  let srv := mkServer (Sample.store2 default_config) [] in
  server_clean (snd (repl_run_code Sample.builtins_table Sample.py_exec Sample.format_exc
                       srv "_tmp = 1; result = 'hello'" (Some "bbb")
                       (Sample.at_time 6000000000) "ccc" 7)) = true
  /\ server_clean (snd (repl_set_variable srv "bbb" "data" "[1, 2]"
                          (Sample.at_time 6000000000))) = true.
Proof.
  intros srv.
  destruct (@tools_keep_namespaces_clean Sample.builtins_table Sample.py_exec
              Sample.format_exc srv eq_refl) as (H1 & _ & _ & _ & H5).
  split; [apply H1 | apply H5; reflexivity].
Defined.

(** C1, counterexample to the claim as stated.  On a store whose
    namespaces satisfy the invariant, set-variable with the name [result]
    leaves [result] bound in the session, and run-file leaves [__file__]
    bound. *)
Lemma set_variable_and_run_file_break_invariant :
  let srv := mkServer (Sample.store2 default_config) [] in
  let after_set :=
    snd (repl_set_variable srv "bbb" "result" "1" (Sample.at_time 6000000000)) in
  let after_file :=
    snd (repl_run_file Sample.builtins_table Sample.py_exec Sample.format_exc
           Sample.resolve_path Sample.read_file
           srv "/tmp/job.py" (Some "bbb") (Sample.at_time 6000000000) "ccc" 7) in
  server_clean srv = true
  /\ namespace_of after_set "bbb" = Some [("result", VRef 0%nat)]
  /\ server_clean after_set = false
  /\ option_map (@Dict.keys Value) (namespace_of after_file "bbb")
     = Some ["__file__"; "x"]
  /\ server_clean after_file = false.
Proof. repeat split. Qed.

(** * Further properties *)

(** ** Dicts, continued *)

Lemma contains_set_other (V : Type) (d : Dict.t V) k k' v :
  k <> k' -> Dict.contains (Dict.set d k v) k' = Dict.contains d k'.
Proof. intros N. unfold Dict.contains. now rewrite DictFacts.get_set_other. Qed.

Lemma wf_set (V : Type) (d : Dict.t V) k v :
  Dict.wf d = true -> Dict.wf (Dict.set d k v) = true.
Proof.
  induction d as [|[k' v'] r IH]; simpl; auto.
  intros H. apply andb_true_iff in H as [Hk Hr].
  destruct (String.eqb k' k) eqn:E; simpl.
  - now rewrite Hk, Hr.
  - rewrite IH by assumption. rewrite andb_true_r.
    apply String.eqb_neq in E. rewrite contains_set_other by congruence. exact Hk.
Qed.


Lemma length_set (V : Type) (d : Dict.t V) k v :
  (length (Dict.set d k v) <= S (length d))%nat
  /\ (Dict.contains d k = true -> length (Dict.set d k v) = length d)
  /\ (Dict.contains d k = false -> length (Dict.set d k v) = S (length d)).
Proof.
  unfold Dict.contains. induction d as [|[k' v'] r IH]; simpl.
  - repeat split; auto. discriminate.
  - destruct (String.eqb k' k); simpl.
    + repeat split; auto. discriminate.
    + destruct IH as (I1 & I2 & I3). repeat split; try lia.
      * intros H. now rewrite I2.
      * intros H. now rewrite I3.
Qed.

Lemma length_pop (V : Type) (d : Dict.t V) k :
  (length (Dict.pop d k) <= length d)%nat
  /\ (In k (Dict.keys d) -> length (Dict.pop d k) < length d)%nat.
Proof.
  induction d as [|[k' v'] r IH]; simpl.
  - split; [lia | contradiction].
  - destruct IH as [I1 I2]. destruct (String.eqb k' k) eqn:E; simpl.
    + split; [lia | intros _; lia].
    + split; [lia|]. intros [H|H].
      * apply String.eqb_neq in E. contradiction.
      * specialize (I2 H). lia.
Qed.

Lemma length_fold_pop (V : Type) (ids : list string) : forall d : Dict.t V,
  (length (fold_left (fun d sid => Dict.pop d sid) ids d) <= length d)%nat.
Proof.
  induction ids as [|i r IH]; intros d; simpl; auto.
  specialize (IH (Dict.pop d i)). pose proof (proj1 (length_pop d i)). lia.
Qed.




(** ** The session store, continued *)

Lemma ids_match_set d k s :
  ids_match d = true -> session_id s = k -> ids_match (Dict.set d k s) = true.
Proof.
  unfold ids_match. induction d as [|[k' s'] r IH]; simpl; intros H E.
  - subst. now rewrite String.eqb_refl.
  - apply andb_true_iff in H as [H1 H2]. destruct (String.eqb k' k) eqn:Ek; simpl.
    + apply String.eqb_eq in Ek. subst. now rewrite String.eqb_refl, H2.
    + now rewrite H1, IH.
Qed.

Lemma ids_match_filter d f : ids_match d = true -> ids_match (filter f d) = true.
Proof.
  unfold ids_match. rewrite !forallb_forall. intros H x Hx.
  apply filter_In in Hx as [Hx _]. auto.
Qed.

Lemma store_ok_iff m :
  store_ok m = true <-> Dict.wf (_sessions m) = true /\ ids_match (_sessions m) = true.
Proof. unfold store_ok. apply andb_true_iff. Qed.

Lemma evict_ok m clk : store_ok m = true -> store_ok (_evict_expired m clk) = true.
Proof.
  rewrite !store_ok_iff. intros [W I]. unfold _evict_expired. cbn [_sessions with_sessions].
  split; [now apply wf_fold_pop|]. rewrite fold_pop_filter. now apply ids_match_filter.
Qed.

Lemma create_session_ok m clk new_id :
  store_ok m = true -> store_ok (snd (create_session m clk new_id)) = true.
Proof.
  intros H. pose proof (@evict_ok m clk H) as H1. unfold create_session.
  set (m1 := _evict_expired m clk) in *. apply store_ok_iff in H1 as [W I].
  destruct (max_sessions (_config m1) <=? Z.of_nat (length (_sessions m1))).
  - destruct (py_min _ _) as [oid|]; cbn [snd]; apply store_ok_iff; auto.
    cbn [_sessions with_sessions]. split.
    + apply wf_set. now apply DictFacts.wf_pop.
    + apply ids_match_set; auto. now apply ids_match_filter.
  - cbn [snd]. apply store_ok_iff. cbn [_sessions with_sessions]. split.
    + now apply wf_set.
    + now apply ids_match_set.
Qed.

Lemma get_session_ok m sid clk :
  store_ok m = true ->
  store_ok (snd (get_session m sid clk)) = true
  /\ forall s, fst (get_session m sid clk) = Some s -> session_id s = sid.
Proof.
  intros H. pose proof H as H0. apply store_ok_iff in H as [W I]. unfold get_session.
  destruct (Dict.get (_sessions m) sid) as [s|] eqn:G; [|split; [auto|discriminate]].
  pose proof (ids_match_In _ _ _ I (DictFacts.get_Some_In _ _ G)) as Hid.
  destruct (is_expired s _ _); cbn [fst snd].
  - split; [|discriminate]. apply store_ok_iff. cbn [_sessions with_sessions].
    split; [now apply DictFacts.wf_pop | now apply ids_match_filter].
  - split; [|now intros s0 [= <-]]. apply store_ok_iff. cbn [_sessions with_sessions].
    split; [now apply wf_set | now apply ids_match_set].
Qed.

(** X1.  The store keeps its invariants: starting from an empty manager,
    and through [create_session], [get_session], [get_or_create],
    [delete_session] and [list_sessions], the keys stay distinct and every
    session stays stored under its own identifier; the session that
    [get_session] returns carries the identifier asked for. *)
Theorem store_invariants_preserved m :
  store_ok m = true ->
  (forall cfg, store_ok (new_manager cfg) = true)
  /\ (forall clk new_id, store_ok (snd (create_session m clk new_id)) = true)
  /\ (forall sid clk, store_ok (snd (get_session m sid clk)) = true
                      /\ forall s, fst (get_session m sid clk) = Some s ->
                                   session_id s = sid)
  /\ (forall sid clk new_id, store_ok (snd (get_or_create m sid clk new_id)) = true)
  /\ (forall sid, store_ok (snd (delete_session m sid)) = true)
  /\ (forall clk, store_ok (snd (list_sessions m clk)) = true).
Proof.
  intros H. split; [reflexivity|]. split; [intros; now apply create_session_ok|].
  split; [intros; now apply get_session_ok|]. split; [|split].
  - intros sid clk new_id. unfold get_or_create.
    destruct sid as [id|]; [|now apply create_session_ok].
    destruct (PyStr.truthy id); [|now apply create_session_ok].
    destruct (@get_session_ok m id clk H) as [H1 _].
    destruct (get_session m id clk) as [[s|] m']; cbn [snd] in *; auto.
    now apply create_session_ok.
  - intros sid. unfold delete_session. cbn [snd]. apply store_ok_iff in H as [W I].
    apply store_ok_iff. cbn [_sessions with_sessions].
    split; [now apply DictFacts.wf_pop | now apply ids_match_filter].
  - intros clk. unfold list_sessions. cbn [snd]. now apply evict_ok.
Qed.

Lemma store_invariants_preserved_witness :
  store_ok (snd (create_session (Sample.store2 Sample.two_sessions_config)
                   (Sample.at_time 6000000000) "ccc")) = true
  /\ store_ok (snd (get_session (Sample.store2 default_config) "bbb"
                      (Sample.at_time 6000000000))) = true.
Proof.
  split.
  - apply (proj1 (proj2 (@store_invariants_preserved
                           (Sample.store2 Sample.two_sessions_config) eq_refl))).
  - apply (proj1 (proj2 (proj2 (@store_invariants_preserved
                                  (Sample.store2 default_config) eq_refl)))).
Defined.

Lemma py_min_In (A : Type) (key : A -> Z) (l : list A) b :
  py_min key l = Some b -> In b l.
Proof.
  intros H. destruct l as [|x r]; [discriminate|].
  destruct (@py_min_spec A key (x :: r)) as (pre & b' & post & E & -> & _);
    [discriminate|].
  rewrite H in E. injection E as ->. apply in_or_app. right. now left.
Qed.

Lemma py_min_None (A : Type) (key : A -> Z) (l : list A) :
  py_min key l = None <-> l = [].
Proof. destruct l; simpl; split; congruence. Qed.

(** X2.  The store never outgrows its capacity: with a maximum of at
    least one session, a store within the maximum is still within it
    after [create_session]. *)
Theorem create_session_within_capacity m clk new_id :
  1 <= max_sessions (_config m) ->
  Z.of_nat (count m) <= max_sessions (_config m) ->
  Z.of_nat (count (snd (create_session m clk new_id))) <= max_sessions (_config m).
Proof.
  intros H1 Hc. unfold count in *. unfold create_session.
  assert (length (_sessions (_evict_expired m clk)) <= length (_sessions m))%nat as He.
  { unfold _evict_expired. cbn [_sessions with_sessions]. apply length_fold_pop. }
  set (m1 := _evict_expired m clk) in *.
  assert (_config m1 = _config m) as Ec by reflexivity. rewrite Ec.
  destruct (max_sessions (_config m) <=? Z.of_nat (length (_sessions m1))) eqn:C.
  - destruct (py_min _ _) as [oid|] eqn:Emin; cbn [snd _sessions with_sessions].
    + apply py_min_In in Emin.
      pose proof (proj2 (length_pop (_sessions m1) oid) Emin) as Hp.
      pose proof (proj1 (length_set (Dict.pop (_sessions m1) oid) new_id
                           (mkSession new_id (advance (length (_sessions m)) clk 0%nat)
                              (advance (length (_sessions m)) clk 0%nat) Dict.empty []))) as Hs.
      lia.
    + lia.
  - apply Z.leb_gt in C. cbn [snd _sessions with_sessions].
    pose proof (proj1 (length_set (_sessions m1) new_id
                         (mkSession new_id (advance (length (_sessions m)) clk 0%nat)
                            (advance (length (_sessions m)) clk 0%nat) Dict.empty []))) as Hs.
    lia.
Qed.

Lemma create_session_within_capacity_witness :
  Z.of_nat (count (snd (create_session (Sample.store2 Sample.two_sessions_config)
                          (Sample.at_time 6000000000) "ccc"))) <= 2.
Proof.
  apply (@create_session_within_capacity (Sample.store2 Sample.two_sessions_config)
           (Sample.at_time 6000000000) "ccc"); vm_compute; discriminate.
Defined.

(** With room for at least one session, [create_session] returns the
    new session and stores it under its identifier. *)
Lemma create_session_stores_fresh m clk new_id :
  1 <= max_sessions (_config m) ->
  let now := clk (length (_sessions m)) in
  let fresh := mkSession new_id now now Dict.empty [] in
  exists d,
    create_session m clk new_id
    = (Some fresh, with_sessions (_evict_expired m clk) (Dict.set d new_id fresh)).
Proof.
  intros H1 now fresh.
  unfold create_session. unfold advance. rewrite Nat.add_0_r. fold now. fold fresh.
  destruct (max_sessions (_config (_evict_expired m clk))
            <=? Z.of_nat (length (_sessions (_evict_expired m clk)))) eqn:C.
  - destruct (py_min _ _) as [oid|] eqn:Emin; [eexists; reflexivity|].
    exfalso. apply py_min_None in Emin. apply Z.leb_le in C.
    unfold Dict.keys in Emin. apply map_eq_nil in Emin. rewrite Emin in C.
    cbn [length] in C. change (_config (_evict_expired m clk)) with (_config m) in C. lia.
  - eexists; reflexivity.
Qed.

(** X3.  With a maximum of at least one session, [create_session] always
    returns a session: it carries the new identifier, an empty namespace
    and an empty history, its creation and last-used times are the clock
    reading taken after the sweep of expired sessions, and the store holds
    it under that identifier.  A lookup of that identifier made before the
    time to live has run out returns the session, touched. *)
Theorem create_session_returns_fresh m clk new_id :
  1 <= max_sessions (_config m) ->
  let now := clk (length (_sessions m)) in
  let fresh := mkSession new_id now now Dict.empty [] in
  exists m',
    create_session m clk new_id = (Some fresh, m')
    /\ Dict.get (_sessions m') new_id = Some fresh
    /\ _config m' = _config m
    /\ forall clk',
         clk' 0%nat - now <= minutes (session_ttl_minutes (_config m)) ->
         fst (get_session m' new_id clk') = Some (touch fresh (clk' 1%nat)).
Proof.
  intros H1 now fresh.
  destruct (@create_session_stores_fresh m clk new_id H1) as [d E].
  fold now in E. fold fresh in E.
  eexists. split; [exact E|]. cbn [_sessions with_sessions _config].
  split; [apply DictFacts.get_set_same|]. split; [reflexivity|].
  intros clk' Hlive. unfold get_session. cbn [_sessions with_sessions _config].
  rewrite DictFacts.get_set_same. unfold is_expired, _evict_expired.
  cbn [last_used fresh _config with_sessions].
  assert ((minutes (session_ttl_minutes (_config m)) <? clk' 0%nat - now) = false) as ->
      by (apply Z.ltb_ge; lia).
  reflexivity.
Qed.

Lemma create_session_returns_fresh_witness :
  exists m',
    create_session (new_manager default_config) (Sample.at_time 5) "abc"
    = (Some (mkSession "abc" 5 5 Dict.empty []), m')
    /\ fst (get_session m' "abc" (Sample.at_time 9))
       = Some (mkSession "abc" 5 9 Dict.empty []).
Proof.
  destruct (@create_session_returns_fresh (new_manager default_config)
              (Sample.at_time 5) "abc") as (m' & E & _ & _ & G).
  - vm_compute. discriminate.
  - exists m'. split; [exact E|]. apply G. vm_compute. discriminate.
Defined.

(** X4.  With a maximum of zero (or less), [create_session] fails, on the
    [ValueError] of [min], exactly when no session is left after the sweep
    of expired ones; in particular on a new manager. *)
Theorem create_session_without_capacity m clk new_id :
  max_sessions (_config m) <= 0 ->
  (fst (create_session m clk new_id) = None
   <-> _sessions (_evict_expired m clk) = [])
  /\ (_sessions m = [] -> create_session m clk new_id = (None, m)).
Proof.
  intros H0.
  assert ((max_sessions (_config (_evict_expired m clk))
           <=? Z.of_nat (length (_sessions (_evict_expired m clk)))) = true) as C.
  { apply Z.leb_le. change (_config (_evict_expired m clk)) with (_config m). lia. }
  split.
  - unfold create_session. rewrite C.
    destruct (py_min _ _) as [oid|] eqn:Emin; cbn [fst].
    + split; [discriminate|]. intros E. rewrite E in Emin. discriminate.
    + split; auto. intros _. apply py_min_None in Emin.
      unfold Dict.keys in Emin. now apply map_eq_nil in Emin.
  - intros E. unfold create_session.
    assert (_evict_expired m clk = m) as ->.
    { unfold _evict_expired. rewrite E. simpl. rewrite <- E. apply with_sessions_same. }
    rewrite E in *. simpl.
    assert ((max_sessions (_config m) <=? 0) = true) as -> by (apply Z.leb_le; lia).
    reflexivity.
Qed.

Lemma create_session_without_capacity_witness :
  create_session (new_manager (mkConfig 30 0 120 1048576 200 false))
                 (Sample.at_time 5) "abc"
  = (None, new_manager (mkConfig 30 0 120 1048576 200 false)).
Proof.
  apply (proj2 (@create_session_without_capacity
                  (new_manager (mkConfig 30 0 120 1048576 200 false))
                  (Sample.at_time 5) "abc" ltac:(vm_compute; discriminate))).
  reflexivity.
Defined.

(** X5.  [delete_session] answers whether the identifier was bound.
    Afterwards the identifier is unbound and every other session is as
    before; when it answers no, the store is unchanged. *)
Theorem delete_session_spec m sid :
  (fst (delete_session m sid) = true <-> exists s, Dict.get (_sessions m) sid = Some s)
  /\ Dict.get (_sessions (snd (delete_session m sid))) sid = None
  /\ (forall sid', sid' <> sid ->
        Dict.get (_sessions (snd (delete_session m sid))) sid' = Dict.get (_sessions m) sid')
  /\ (fst (delete_session m sid) = false -> snd (delete_session m sid) = m)
  /\ (forall clk, get_session (snd (delete_session m sid)) sid clk
                  = (None, snd (delete_session m sid))).
Proof.
  unfold delete_session. cbn [fst snd _sessions with_sessions].
  split; [|split; [|split; [|split]]].
  - unfold Dict.contains. destruct (Dict.get (_sessions m) sid) as [s|]; split;
      try discriminate; eauto. intros [s H]. discriminate.
  - apply DictFacts.get_pop_same.
  - intros sid' N. apply DictFacts.get_pop_other. congruence.
  - intros H. rewrite pop_absent; [apply with_sessions_same|].
    apply DictFacts.get_None_not_key. unfold Dict.contains in H.
    now destruct (Dict.get (_sessions m) sid).
  - intros clk. unfold get_session. cbn [_sessions with_sessions].
    now rewrite DictFacts.get_pop_same.
Qed.

Lemma delete_session_spec_witness :
  delete_session (Sample.store2 default_config) "zzz"
  = (false, Sample.store2 default_config).
Proof.
  destruct (delete_session_spec (Sample.store2 default_config) "zzz")
    as (_ & _ & _ & H & _).
  rewrite (surjective_pairing (delete_session _ _)). rewrite H; reflexivity.
Defined.



(** X6.  The sweep of [_evict_expired] keeps, in their order, the
    sessions whose identifier is not among the expired ones, and changes
    nothing else.  A session expired at every reading of the clock during
    the sweep is gone afterwards; a session expired at none of them stays
    as it is. *)
Theorem evict_expired_spec m clk :
  let ttl := session_ttl_minutes (_config m) in
  _sessions (_evict_expired m clk)
  = filter (fun kv => negb (PyStr.mem (fst kv) (expired_ids (_sessions m) ttl clk)))
           (_sessions m)
  /\ _config (_evict_expired m clk) = _config m
  /\ (forall k s, In (k, s) (_sessions m) ->
        (forall i, is_expired s ttl (clk i) = true) ->
        Dict.get (_sessions (_evict_expired m clk)) k = None)
  /\ (Dict.wf (_sessions m) = true ->
      forall k s, In (k, s) (_sessions m) ->
        (forall i, is_expired s ttl (clk i) = false) ->
        Dict.get (_sessions (_evict_expired m clk)) k = Some s).
Proof.
  intros ttl.
  assert (_sessions (_evict_expired m clk)
          = filter (fun kv => negb (PyStr.mem (fst kv) (expired_ids (_sessions m) ttl clk)))
                   (_sessions m)) as E.
  { unfold _evict_expired. cbn [_sessions with_sessions]. apply fold_pop_filter. }
  split; [exact E|]. split; [reflexivity|]. split.
  - intros k s Hin Hall. apply DictFacts.get_None_not_key. rewrite E.
    unfold Dict.keys. intros H. apply in_map_iff in H as [[k0 s0] [Ek H]].
    cbn [fst] in Ek. subst k0. apply filter_In in H as [_ H]. cbn [fst] in H.
    apply negb_true_iff in H.
    assert (PyStr.mem k (expired_ids (_sessions m) ttl clk) = true) as H'.
    { apply mem_In. eapply expired_ids_always; eauto. }
    congruence.
  - intros W k s Hin Hnone. apply DictFacts.In_get.
    + unfold _evict_expired. cbn [_sessions with_sessions].
      now apply wf_fold_pop.
    + rewrite E. apply filter_In. split; auto. cbn [fst]. apply negb_true_iff.
      destruct (PyStr.mem k (expired_ids (_sessions m) ttl clk)) eqn:M; auto.
      apply mem_In in M. apply expired_ids_some in M as (s' & i & Hin' & Hexp).
      pose proof (DictFacts.In_get _ _ _ W Hin) as G1.
      pose proof (DictFacts.In_get _ _ _ W Hin') as G2.
      assert (s' = s) by congruence. subst. rewrite Hnone in Hexp. discriminate.
Qed.

Lemma evict_expired_spec_witness :
  let m' := _evict_expired (Sample.store2 default_config) (Sample.at_time 8000000000) in
  Dict.get (_sessions m') "aaa" = None
  /\ Dict.get (_sessions m') "bbb"
     = Some (mkSession "bbb" 1000 5000000000 Dict.empty []).
Proof.
  intros m'.
  destruct (evict_expired_spec (Sample.store2 default_config) (Sample.at_time 8000000000))
    as (_ & _ & H1 & H2).
  split.
  - apply (H1 "aaa" (mkSession "aaa" 0 0 Dict.empty [])).
    + now left.
    + intros i. reflexivity.
  - apply (H2 eq_refl "bbb").
    + right. now left.
    + intros i. reflexivity.
Defined.

(** X7.  [get_or_create] with no identifier, or an empty one, does what
    [create_session] does.  With the identifier of a session that has not
    expired it returns that session, touched, and creates none.  With an
    identifier the store does not know it creates a session under the new
    identifier, not under the one asked for. *)
Theorem get_or_create_spec m clk new_id :
  get_or_create m None clk new_id = create_session m clk new_id
  /\ get_or_create m (Some EmptyString) clk new_id = create_session m clk new_id
  /\ (forall sid s, PyStr.truthy sid = true ->
        Dict.get (_sessions m) sid = Some s ->
        clk 0%nat - last_used s <= minutes (session_ttl_minutes (_config m)) ->
        get_or_create m (Some sid) clk new_id
        = (Some (touch s (clk 1%nat)),
           with_sessions m (Dict.set (_sessions m) sid (touch s (clk 1%nat)))))
  /\ (forall sid, Dict.get (_sessions m) sid = None ->
        get_or_create m (Some sid) clk new_id = create_session m clk new_id)
  /\ (forall sid, Dict.get (_sessions m) sid = None -> sid <> new_id ->
        1 <= max_sessions (_config m) ->
        exists s m', get_or_create m (Some sid) clk new_id = (Some s, m')
                     /\ session_id s = new_id
                     /\ Dict.get (_sessions m') new_id = Some s).
Proof.
  assert (forall sid, Dict.get (_sessions m) sid = None ->
            get_or_create m (Some sid) clk new_id = create_session m clk new_id) as Hnone.
  { intros sid G. unfold get_or_create. destruct (PyStr.truthy sid); auto.
    unfold get_session, Dict.contains. rewrite G. reflexivity. }
  split; [reflexivity|]. split; [reflexivity|]. split; [|split; [exact Hnone|]].
  - intros sid s T G Hlive. unfold get_or_create, get_session, is_expired. rewrite T, G.
    assert ((minutes (session_ttl_minutes (_config m)) <? clk 0%nat - last_used s) = false)
      as -> by (apply Z.ltb_ge; lia).
    reflexivity.
  - intros sid G N H1. rewrite (Hnone _ G).
    destruct (@create_session_stores_fresh m clk new_id H1) as [d E].
    do 2 eexists. split; [exact E|]. split; [reflexivity|].
    cbn [_sessions with_sessions]. apply DictFacts.get_set_same.
Qed.

Lemma get_or_create_spec_witness :
  fst (get_or_create (Sample.store2 default_config) (Some "bbb")
         (Sample.at_time 6000000000) "ccc")
  = Some (mkSession "bbb" 1000 6000000000 Dict.empty [])
  /\ get_or_create (Sample.store2 default_config) (Some "zzz")
       (Sample.at_time 6000000000) "ccc"
     = create_session (Sample.store2 default_config) (Sample.at_time 6000000000) "ccc".
Proof.
  destruct (get_or_create_spec (Sample.store2 default_config)
              (Sample.at_time 6000000000) "ccc") as (_ & _ & H3 & H4 & _).
  split.
  - rewrite (H3 "bbb" (mkSession "bbb" 1000 5000000000 Dict.empty [])).
    + reflexivity.
    + reflexivity.
    + reflexivity.
    + vm_compute. discriminate.
  - apply H4. reflexivity.
Defined.

(** ** The executor, continued *)

Lemma get_fold_pop (V : Type) (ids : list string) : forall (d : Dict.t V) k,
  Dict.get (fold_left (fun d sid => Dict.pop d sid) ids d) k
  = if PyStr.mem k ids then None else Dict.get d k.
Proof.
  induction ids as [|i r IH]; intros d k; [reflexivity|].
  cbn [fold_left]. rewrite IH. unfold PyStr.mem. cbn [existsb].
  fold (PyStr.mem k r). destruct (String.eqb k i) eqn:E; cbn [orb].
  - apply String.eqb_eq in E. subst. rewrite DictFacts.get_pop_same.
    now destruct (PyStr.mem i r).
  - apply String.eqb_neq in E. rewrite DictFacts.get_pop_other by congruence. reflexivity.
Qed.

Section ExecutorExtras.

Variable vars_builtins : Dict.t BuiltinEntry.
Variable ImportArgs : Type.
Variable _real_import : string -> ImportArgs -> PyException + Value.
Variable py_exec : string -> Dict.t Value -> Heap -> Z -> ExecOutcome.
Variable format_exc : PyException -> string.

Abbreviation execute := (execute_code vars_builtins py_exec format_exc).
Abbreviation outcome := (exec_outcome vars_builtins py_exec).
Abbreviation execute_seq := (execute_all vars_builtins py_exec format_exc).
Abbreviation restricted := (_restricted_import _real_import).

(** X8.  The namespace handed to the interpreter never binds [result],
    always binds [__builtins__], and shows every other name of the session
    with the object it is bound to.  Without sandbox mode [__builtins__]
    is the builtins module and the heap is as it was; with sandbox mode it
    is a new object, unknown to the heap before, holding the restricted
    table.  Distinct keys stay distinct. *)
Theorem exec_namespace_construction session config heap :
  let exec_ns := fst (build_exec_ns vars_builtins session config heap) in
  let heap1 := snd (build_exec_ns vars_builtins session config heap) in
  Dict.get exec_ns "result" = None
  /\ (forall k, k <> "result" -> k <> "__builtins__" ->
        Dict.get exec_ns k = Dict.get (namespace session) k)
  /\ (sandbox_enabled config = false ->
        Dict.get exec_ns "__builtins__" = Some VBuiltinsModule /\ heap1 = heap)
  /\ (sandbox_enabled config = true ->
        Dict.get exec_ns "__builtins__" = Some (VRef (length heap))
        /\ deref heap (length heap) = None
        /\ deref heap1 (length heap)
           = Some (OCapabilities (_make_sandbox_builtins vars_builtins))
        /\ forall r, (r < length heap)%nat -> deref heap1 r = deref heap r)
  /\ (Dict.wf (namespace session) = true -> Dict.wf exec_ns = true).
Proof.
  unfold build_exec_ns, alloc.
  destruct (sandbox_enabled config); cbn [fst snd];
    (split; [apply DictFacts.get_pop_same|]);
    (split; [intros k N1 N2; rewrite DictFacts.get_pop_other by congruence;
             apply DictFacts.get_set_other; congruence|]);
    (split; [|split]); try discriminate;
    try (intros W; apply DictFacts.wf_pop; now apply wf_set).
  - intros _. split; [|split; [|split]].
    + rewrite DictFacts.get_pop_other by discriminate. apply DictFacts.get_set_same.
    + unfold deref. apply nth_error_None. lia.
    + unfold deref. rewrite nth_error_app2 by lia. now rewrite Nat.sub_diag.
    + intros r Hr. unfold deref. now rewrite nth_error_app1.
  - intros _. split; [|reflexivity].
    rewrite DictFacts.get_pop_other by discriminate. apply DictFacts.get_set_same.
Qed.

(** X9.  The table built for sandbox mode binds [__import__] to the
    checked import, has no [exec], [eval] or [compile], and binds every
    other name as the interpreter's own table does. *)
Theorem sandbox_builtins_table name :
  Dict.get (_make_sandbox_builtins vars_builtins) "__import__" = Some RestrictedImport
  /\ (In name ["exec"; "eval"; "compile"] ->
        Dict.get (_make_sandbox_builtins vars_builtins) name = None)
  /\ (~ In name SANDBOXED_BLOCKED_BUILTINS ->
        Dict.get (_make_sandbox_builtins vars_builtins) name
        = Dict.get vars_builtins name).
Proof.
  clear _real_import py_exec format_exc. unfold _make_sandbox_builtins. split; [apply DictFacts.get_set_same|]. split.
  - intros H. rewrite DictFacts.get_set_other.
    + rewrite get_fold_pop.
      assert (PyStr.mem name SANDBOXED_BLOCKED_BUILTINS = true) as ->; [|reflexivity].
      apply mem_In. simpl in H. simpl. tauto.
    + simpl in H. intros <-. repeat (destruct H as [H|H]; [discriminate|]). contradiction.
  - intros H. rewrite DictFacts.get_set_other.
    + rewrite get_fold_pop.
      destruct (PyStr.mem name SANDBOXED_BLOCKED_BUILTINS) eqn:M; auto.
      apply mem_In in M. contradiction.
    + intros <-. apply H. simpl. tauto.
Qed.

(** X10.  The checked import refuses every module below a denylisted
    top-level package: for a denylisted name without a dot, any dotted
    path that starts with it is refused, in a message that carries the
    whole path.  A name whose first component is not denylisted goes to
    the interpreter's import with its arguments. *)
Theorem restricted_import_blocks_submodules top rest args :
  (In top SANDBOXED_BLOCKED_MODULES -> top <> "http.server" ->
     restricted (top ++ "." ++ rest) args
     = inl (OtherException "ImportError" (blocked_message (top ++ "." ++ rest))))
  /\ (forall name,
        PyStr.mem (PyStr.split_head "."%char name) SANDBOXED_BLOCKED_MODULES = false ->
        restricted name args = _real_import name args).
Proof.
  split.
  - intros H N. unfold SANDBOXED_BLOCKED_MODULES in H. simpl in H.
    repeat (destruct H as [<-|H]; [try reflexivity; now contradiction N|]).
    contradiction.
  - intros name H. unfold _restricted_import. now rewrite H.
Qed.

End ExecutorExtras.

Lemma exec_namespace_construction_witness :
  let cfg := mkConfig 30 50 120 1048576 200 true in
  let s := mkSession "s" 0 0 [("result", VRef 0%nat); ("x", VRef 0%nat)] [] in
  Dict.get (fst (build_exec_ns Sample.builtins_table s cfg Sample.heap_x)) "x"
  = Some (VRef 0%nat)
  /\ Dict.get (fst (build_exec_ns Sample.builtins_table s cfg Sample.heap_x)) "__builtins__"
     = Some (VRef 1%nat)
  /\ Dict.wf (fst (build_exec_ns Sample.builtins_table s cfg Sample.heap_x)) = true.
Proof.
  intros cfg s.
  destruct (@exec_namespace_construction Sample.builtins_table s cfg Sample.heap_x)
    as (_ & H2 & _ & H4 & H5).
  split; [|split].
  - rewrite H2; [reflexivity | discriminate | discriminate].
  - exact (proj1 (H4 eq_refl)).
  - apply H5. reflexivity.
Defined.

Lemma sandbox_builtins_table_witness :
  Dict.get (_make_sandbox_builtins Sample.builtins_table) "eval" = None
  /\ Dict.get (_make_sandbox_builtins Sample.builtins_table) "len" = Some (Native "len").
Proof.
  split.
  - apply (proj1 (proj2 (@sandbox_builtins_table Sample.builtins_table "eval"))).
    simpl. tauto.
  - rewrite (proj2 (proj2 (@sandbox_builtins_table Sample.builtins_table "len"))).
    + reflexivity.
    + simpl. intros H. repeat (destruct H as [H|H]; [discriminate|]). contradiction.
Defined.

Lemma restricted_import_blocks_submodules_witness :
  @_restricted_import unit (fun _ _ => inr VBuiltinsModule) "xmlrpc.client" tt
  = inl (OtherException "ImportError" (blocked_message "xmlrpc.client"))
  /\ @_restricted_import unit (fun _ _ => inr VBuiltinsModule) "json" tt
     = inr VBuiltinsModule.
Proof.
  destruct (@restricted_import_blocks_submodules unit (fun _ _ => inr VBuiltinsModule)
              "xmlrpc" "client" tt) as [H1 H2].
  split.
  - apply H1; [simpl; tauto | discriminate].
  - apply H2. reflexivity.
Defined.

Lemma length_append a b :
  String.length (a ++ b) = (String.length a + String.length b)%nat.
Proof. induction a as [|c r IH]; simpl; auto. Qed.

Lemma has_char_append c a b : has_char c (a ++ b) = has_char c a || has_char c b.
Proof.
  induction a as [|x r IH]; simpl; auto. rewrite IH. now rewrite orb_assoc.
Qed.

Lemma escape_newlines_clean s : has_char "010"%char (PyStr.escape_newlines s) = false.
Proof.
  induction s as [|c r IH]; simpl; auto.
  destruct (Ascii.eqb c "010"%char) eqn:E; simpl; [exact IH|].
  now rewrite E, IH.
Qed.

Lemma escape_newlines_length s :
  (String.length (PyStr.escape_newlines s) <= 2 * String.length s)%nat.
Proof.
  induction s as [|c r IH]; simpl; auto.
  destruct (Ascii.eqb c "010"%char); simpl; lia.
Qed.

Lemma escape_newlines_id s :
  has_char "010"%char s = false -> PyStr.escape_newlines s = s.
Proof.
  induction s as [|c r IH]; simpl; auto.
  intros H. apply orb_false_iff in H as [H1 H2]. rewrite H1. f_equal. auto.
Qed.

(** X11.  The record [_record] appends carries a preview of the code that
    holds no newline and at most 243 characters; it is the code itself
    when the code has at most 120 characters and no newline.  The other
    fields are the ones given, and the earlier records stay. *)
Theorem record_preview s code st nv mv e now :
  exists rcd,
    history (_record s code st nv mv e now) = (history s ++ [rcd])%list
    /\ has_char "010"%char (code_preview rcd) = false
    /\ (String.length (code_preview rcd) <= 243)%nat
    /\ (PyStr.len code <= 120 -> has_char "010"%char code = false ->
          code_preview rcd = code)
    /\ (120 < PyStr.len code ->
          code_preview rcd
          = PyStr.escape_newlines (PyStr.take 120 code) ++ "...")
    /\ timestamp rcd = now /\ rec_status rcd = st
    /\ rec_new_vars rcd = nv /\ rec_modified_vars rcd = mv /\ rec_error rcd = e.
Proof.
  rewrite history_record. eexists. split; [reflexivity|].
  cbn [code_preview timestamp rec_status rec_new_vars rec_modified_vars rec_error].
  change (PyStr.slice_to code 120) with (PyStr.take 120 code).
  pose proof (escape_newlines_length (PyStr.take 120 code)) as L.
  pose proof (take_length 120 code) as T.
  split; [|split; [|split; [|split]]]; try (repeat split; reflexivity).
  - destruct (120 <? PyStr.len code).
    + rewrite has_char_append, escape_newlines_clean. reflexivity.
    + apply escape_newlines_clean.
  - destruct (120 <? PyStr.len code).
    + rewrite length_append. cbn [String.length]. lia.
    + lia.
  - intros H1 H2. unfold PyStr.len in H1.
    assert ((120 <? PyStr.len code) = false) as -> by (apply Z.ltb_ge; unfold PyStr.len; lia).
    rewrite take_all by lia. now apply escape_newlines_id.
  - intros H. apply Z.ltb_lt in H. now rewrite H.
Qed.

Lemma record_preview_witness :
  exists rcd,
    history (_record Sample.session "x = 42" "completed" ["x"] [] None 7) = [rcd]
    /\ code_preview rcd = "x = 42".
Proof.
  destruct (record_preview Sample.session "x = 42" "completed" ["x"] [] None 7)
    as (rcd & H1 & _ & _ & H4 & _).
  exists rcd. split; [exact H1|]. apply H4; [vm_compute; discriminate | reflexivity].
Defined.

(** X12.  A truncated text is longer than the budget: for a budget from
    zero up to less than the length of the text, the result has the
    budget's length plus that of the marker, thirty characters and the
    digits of the original length. *)
Theorem truncate_exceeds_budget text max_bytes :
  0 <= max_bytes < PyStr.len text ->
  PyStr.len (_truncate text max_bytes)
  = max_bytes + 30 + PyStr.len (PyStr.of_nat (String.length text))
  /\ max_bytes < PyStr.len (_truncate text max_bytes).
Proof.
  intros [H0 H1]. unfold _truncate, truncation_marker, PyStr.slice_to.
  assert ((PyStr.len text <=? max_bytes) = false) as -> by (apply Z.leb_gt; lia).
  assert ((0 <=? max_bytes) = true) as -> by (apply Z.leb_le; lia).
  unfold PyStr.len in *. rewrite !length_append, take_length.
  cbn [String.length]. lia.
Qed.

Lemma truncate_exceeds_budget_witness :
  PyStr.len (_truncate "hello world" 5) = 37.
Proof.
  rewrite (proj1 (@truncate_exceeds_budget "hello world" 5
                    ltac:(vm_compute; split; [discriminate | reflexivity]))).
  reflexivity.
Defined.

(** X13.  With a negative budget every text is marked, the empty one
    too: what is kept is the text without its last characters, as many as
    the budget is below zero, and the marker follows. *)
Theorem truncate_negative_budget text max_bytes :
  max_bytes < 0 ->
  _truncate text max_bytes
  = PyStr.take (Z.to_nat (PyStr.len text + max_bytes)) text
    ++ truncation_marker (String.length text)
  /\ PyStr.len (_truncate text max_bytes)
     = Z.max 0 (PyStr.len text + max_bytes) + 30
       + PyStr.len (PyStr.of_nat (String.length text)).
Proof.
  intros H. unfold _truncate, PyStr.slice_to.
  assert ((PyStr.len text <=? max_bytes) = false) as ->
      by (apply Z.leb_gt; unfold PyStr.len; lia).
  assert ((0 <=? max_bytes) = false) as -> by (apply Z.leb_gt; lia).
  split; [reflexivity|].
  unfold truncation_marker, PyStr.len. rewrite !length_append, take_length.
  cbn [String.length]. lia.
Qed.

Lemma truncate_negative_budget_witness :
  _truncate EmptyString (-1) = truncation_marker 0
  /\ _truncate "hello" (-3) = "he" ++ truncation_marker 5.
Proof.
  split.
  - rewrite (proj1 (@truncate_negative_budget EmptyString (-1) eq_refl)). reflexivity.
  - rewrite (proj1 (@truncate_negative_budget "hello" (-3) eq_refl)). reflexivity.
Defined.

Lemma NoDup_keys_filter (V : Type) (f : string * V -> bool) (d : Dict.t V) :
  NoDup (Dict.keys d) -> NoDup (Dict.keys (filter f d)).
Proof.
  unfold Dict.keys. induction d as [|kv r IH]; simpl; intros H; [constructor|].
  inversion H as [|? ? Hn Hr]; subst. destruct (f kv); simpl; auto.
  constructor; auto. intros Hin. apply Hn.
  apply in_map_iff in Hin as [x [E Hx]]. apply filter_In in Hx as [Hx _].
  apply in_map_iff. now exists x.
Qed.



Section ExecutionExtras.

Variable vars_builtins : Dict.t BuiltinEntry.
Variable py_exec : string -> Dict.t Value -> Heap -> Z -> ExecOutcome.
Variable format_exc : PyException -> string.

Abbreviation execute := (execute_code vars_builtins py_exec format_exc).
Abbreviation outcome := (exec_outcome vars_builtins py_exec).
Abbreviation execute_seq := (execute_all vars_builtins py_exec format_exc).

(** One call leaves the identity and the times of the session alone, and
    extends its history. *)
Lemma execute_keeps_identity code session config heap now r s' h' :
  execute code session config heap now = (r, s', h') ->
  session_id s' = session_id session
  /\ created_at s' = created_at session
  /\ last_used s' = last_used session
  /\ exists suffix, history s' = (history session ++ suffix)%list.
Proof.
  destruct (blank code) eqn:B.
  - unfold execute_code. rewrite B. intros [= _ <- _].
    repeat split; auto. exists []. now rewrite app_nil_r.
  - destruct (raised (outcome code session config heap)) as [e|] eqn:R.
    + unfold execute_code. rewrite B, R.
      destruct e; intros [= _ <- _]; repeat split; auto;
        try (eexists; apply history_record).
      exists []. now rewrite app_nil_r.
    + rewrite (execute_completed _ _ _ code session config heap now B R).
      intros [= _ <- _]. repeat split; auto. eexists.
      rewrite history_record. cbn [history with_namespace]. reflexivity.
Qed.

(** X14.  A result that [execute_code] returns has one of three statuses.
    It is "completed" exactly when it carries no error type, and exactly
    when the code passed the guard and raised nothing; it is "timeout"
    exactly when the timeout was raised.  A result that is not
    "completed" carries no returned value and no variable lists. *)
Theorem execute_result_shape code session config heap now res s' h' :
  execute code session config heap now = (Returned res, s', h') ->
  (status res = "completed" \/ status res = "error" \/ status res = "timeout")
  /\ (status res = "completed" <-> error_type res = None)
  /\ (status res = "completed"
      <-> blank code = false /\ raised (outcome code session config heap) = None)
  /\ (status res = "timeout"
      <-> blank code = false
          /\ raised (outcome code session config heap) = Some TimeoutError)
  /\ (status res <> "completed" ->
        result res = None /\ new_vars res = None /\ modified_vars res = None).
Proof.
  destruct (blank code) eqn:B.
  - unfold execute_code. rewrite B. intros [= <- _ _]. cbn.
    repeat split; auto; try discriminate; intros []; discriminate.
  - destruct (raised (outcome code session config heap)) as [e|] eqn:R.
    + unfold execute_code. rewrite B, R.
      destruct e; intros [= <- _ _]; cbn;
        repeat split; auto; try discriminate; try (intros []; discriminate).
    + rewrite (execute_completed _ _ _ code session config heap now B R).
      intros [= <- _ _]. cbn.
      repeat split; auto; try discriminate; try (intros []; discriminate).
      all: now contradiction H.
Qed.

(** X15.  Over any sequence of calls the session keeps its identifier, its
    creation time and its last-used time, and its history only grows: the
    records it had come first, unchanged. *)
Theorem execute_all_appends_history calls : forall session config heap,
  let s' := snd (fst (execute_seq calls session config heap)) in
  session_id s' = session_id session
  /\ created_at s' = created_at session
  /\ last_used s' = last_used session
  /\ exists suffix, history s' = (history session ++ suffix)%list
                    /\ (length suffix <= length calls)%nat.
Proof.
  induction calls as [|[code now] rest IH]; intros session config heap.
  - cbn. repeat split; auto. exists []. split; [now rewrite app_nil_r | auto].
  - cbn [execute_all].
    destruct (execute code session config heap now) as [[r s1] h1] eqn:E.
    destruct (execute_keeps_identity _ _ _ _ _ E) as (I1 & I2 & I3 & suf1 & I4).
    pose proof (execute_history _ _ _ _ _ _ _ _ E) as Hh.
    specialize (IH s1 config h1). cbv zeta in IH.
    destruct (execute_seq rest s1 config h1) as [[rs s2] h2]. cbn [fst snd] in *.
    destruct IH as (J1 & J2 & J3 & suf2 & J4 & J5).
    repeat split; try congruence.
    assert (length suf1 <= 1)%nat as L1.
    { destruct (recorded (code, r)).
      - destruct Hh as (rcd & Hr & _). rewrite Hr in I4.
        apply app_inv_head in I4. subst suf1. simpl; lia.
      - rewrite Hh in I4. rewrite <- (app_nil_r (history session)) in I4 at 1.
        apply app_inv_head in I4. subst suf1. simpl; lia. }
    exists (suf1 ++ suf2)%list. split.
    + rewrite J4, I4. now rewrite app_assoc.
    + rewrite length_app. simpl. lia.
Qed.

(** X16.  On a namespace with distinct keys, a completed call reports no
    name twice, and no name both as new and as modified. *)
Theorem reported_lists_distinct code session config heap now res s' h' :
  execute code session config heap now = (Returned res, s', h') ->
  Dict.wf (out_ns (outcome code session config heap)) = true ->
  NoDup (names (new_vars res)) /\ NoDup (names (modified_vars res))
  /\ forall k, In k (names (new_vars res)) -> ~ In k (names (modified_vars res)).
Proof.
  intros E W. destruct (blank code) eqn:B.
  - unfold execute_code in E. rewrite B in E. injection E as <- _ _. cbn.
    repeat split; try constructor. auto.
  - destruct (raised (outcome code session config heap)) as [e|] eqn:R.
    + unfold execute_code in E. rewrite B, R in E.
      destruct e; try discriminate; injection E as <- _ _; cbn;
        repeat split; try constructor; auto.
    + rewrite (execute_completed _ _ _ code session config heap now B R) in E.
      injection E as <- _ _. cbn [new_vars modified_vars]. rewrite !names_or_None.
      unfold persist.
      destruct (persist_fold_closed (out_ns (outcome code session config heap))
                  (namespace session) [] [] W) as (ns' & Ef & _).
      rewrite Ef. cbn [fst snd app]. apply wf_NoDup in W.
      split; [now apply NoDup_keys_filter|]. split; [now apply NoDup_keys_filter|].
      intros k H1 H2. apply In_classified_new in H1 as (v & _ & _ & G).
      apply In_classified_modified in H2 as (v' & old & _ & _ & G' & _). congruence.
Qed.

(** X17.  After a completed call on a namespace with distinct keys, a
    name that is not reserved is bound in the session to what the code
    left it bound to, and, when the code left it unbound, to what it was
    bound to before: a name the code deleted stays in the session.  A
    reserved name is as before. *)
Theorem namespace_after_completed code session config heap now :
  blank code = false ->
  raised (outcome code session config heap) = None ->
  Dict.wf (out_ns (outcome code session config heap)) = true ->
  let out := outcome code session config heap in
  let s' := snd (fst (execute code session config heap now)) in
  forall k,
    Dict.get (namespace s') k
    = if reserved k then Dict.get (namespace session) k
      else match Dict.get (out_ns out) k with
           | Some v => Some v
           | None => Dict.get (namespace session) k
           end.
Proof.
  intros B R W out s' k. unfold s'.
  rewrite (execute_completed _ _ _ code session config heap now B R).
  cbn [fst snd namespace _record with_history with_namespace]. fold out.
  pose proof (persist_fold_frame (out_ns out) (namespace session, [], [])) as F.
  unfold persist.
  destruct (persist_fold_closed (out_ns out) (namespace session) [] [] W)
    as (ns' & E & H1 & H2).
  rewrite E in *. cbn [fst] in *. unfold frame_ok in F. destruct F as (F1 & _).
  destruct (reserved k) eqn:Rk; [now apply F1|].
  destruct (Dict.get (out_ns out) k) as [v|] eqn:G.
  - apply H1; auto. now apply DictFacts.get_Some_In.
  - apply H2. now apply DictFacts.get_None_not_key.
Qed.

(** X18.  A completed call whose code leaves the namespace as it was
    handed over reports nothing and changes no binding of the session,
    whose keys are distinct. *)
Theorem untouched_namespace_reports_nothing code session config heap now :
  blank code = false ->
  raised (outcome code session config heap) = None ->
  Dict.wf (namespace session) = true ->
  out_ns (outcome code session config heap)
  = fst (build_exec_ns vars_builtins session config heap) ->
  exists res s',
    execute code session config heap now
    = (Returned res, s', out_heap (outcome code session config heap))
    /\ new_vars res = None /\ modified_vars res = None
    /\ forall k, Dict.get (namespace s') k = Dict.get (namespace session) k.
Proof.
  intros B R W Eout.
  assert (Dict.wf (out_ns (outcome code session config heap)) = true) as Wout.
  { rewrite Eout. unfold build_exec_ns.
    destruct (sandbox_enabled config); unfold alloc; cbn [fst];
      apply DictFacts.wf_pop; now apply wf_set. }
  assert (forall k v, In (k, v) (out_ns (outcome code session config heap)) ->
            reserved k = false -> Dict.get (namespace session) k = Some v) as Hsame.
  { intros k v Hin Rk. apply (DictFacts.In_get _ _ _ Wout) in Hin.
    rewrite Eout in Hin. unfold reserved in Rk. apply orb_false_iff in Rk as [_ Rk].
    cbn in Rk. apply orb_false_iff in Rk as [R1 R2]. apply orb_false_iff in R2 as [R2 _].
    apply String.eqb_neq in R1, R2.
    unfold build_exec_ns in Hin.
    destruct (sandbox_enabled config); unfold alloc in Hin; cbn [fst] in Hin;
      rewrite DictFacts.get_pop_other in Hin by congruence;
      rewrite DictFacts.get_set_other in Hin by congruence; exact Hin. }
  rewrite (execute_completed _ _ _ code session config heap now B R).
  do 2 eexists. split; [reflexivity|].
  cbn [new_vars modified_vars namespace _record with_history with_namespace].
  pose proof (persist_fold_frame (out_ns (outcome code session config heap))
                (namespace session, [], [])) as F.
  unfold persist.
  destruct (persist_fold_closed (out_ns (outcome code session config heap))
              (namespace session) [] [] Wout) as (ns' & E & H1 & H2).
  rewrite E in *. cbn [fst snd app] in *.
  assert (classified_new (namespace session) (out_ns (outcome code session config heap)) = [])
    as En.
  { destruct (classified_new _ _) as [|k l] eqn:C; auto.
    assert (In k (classified_new (namespace session)
                    (out_ns (outcome code session config heap)))) as H
        by (rewrite C; now left).
    apply In_classified_new in H as (v & Hin & Rk & G).
    rewrite (Hsame _ _ Hin Rk) in G. discriminate. }
  assert (classified_modified (namespace session)
            (out_ns (outcome code session config heap)) = []) as Em.
  { destruct (classified_modified _ _) as [|k l] eqn:C; auto.
    assert (In k (classified_modified (namespace session)
                    (out_ns (outcome code session config heap)))) as H
        by (rewrite C; now left).
    apply In_classified_modified in H as (v & old & Hin & Rk & G & N).
    rewrite (Hsame _ _ Hin Rk) in G. congruence. }
  rewrite En, Em in *.
  repeat split. intros k. unfold frame_ok in F. destruct F as (_ & _ & _ & _ & F5 & _).
  destruct (option_Value_eq_dec (Dict.get ns' k) (Dict.get (namespace session) k))
    as [Eq|Ne]; auto.
  destruct (F5 _ Ne) as [[]|[]].
Qed.


End ExecutionExtras.

Lemma execute_result_shape_witness :
  exists res s' h',
    Sample.run "x = 1; while True: pass" Sample.session default_config [] 7
    = (Returned res, s', h')
    /\ (status res = "completed" \/ status res = "error" \/ status res = "timeout")
    /\ result res = None.
Proof.
  pose proof (@execute_result_shape Sample.builtins_table Sample.py_exec Sample.format_exc
                "x = 1; while True: pass" Sample.session default_config [] 7
                _ _ _ eq_refl) as (H1 & _ & _ & _ & H5).
  do 3 eexists. split; [reflexivity|]. split; [exact H1|].
  apply H5. discriminate.
Defined.

Lemma reported_lists_distinct_witness :
  exists res s' h',
    Sample.run "a = 1; b = 2" Sample.session_x default_config Sample.heap_x 7
    = (Returned res, s', h')
    /\ NoDup (names (new_vars res))
    /\ forall k, In k (names (new_vars res)) -> ~ In k (names (modified_vars res)).
Proof.
  pose proof (@reported_lists_distinct Sample.builtins_table Sample.py_exec Sample.format_exc
                "a = 1; b = 2" Sample.session_x default_config Sample.heap_x 7
                _ _ _ eq_refl eq_refl) as (H1 & _ & H3).
  do 3 eexists. split; [reflexivity|]. split; [exact H1 | exact H3].
Defined.

Lemma namespace_after_completed_witness :
  Dict.get (namespace (snd (fst (Scripts.run "del x" Sample.session_x default_config
                                   Sample.heap_x 7)))) "x"
  = Some (VRef 0%nat).
Proof.
  unfold Scripts.run.
  rewrite (@namespace_after_completed Sample.builtins_table Scripts.py_exec
             Sample.format_exc "del x" Sample.session_x default_config Sample.heap_x 7
             eq_refl eq_refl eq_refl "x").
  reflexivity.
Defined.

Lemma untouched_namespace_reports_nothing_witness :
  exists res s',
    Sample.run "pass" Sample.session_x default_config Sample.heap_x 7
    = (Returned res, s', Sample.heap_x)
    /\ new_vars res = None /\ modified_vars res = None.
Proof.
  destruct (@untouched_namespace_reports_nothing Sample.builtins_table Sample.py_exec
              Sample.format_exc "pass" Sample.session_x default_config Sample.heap_x 7
              eq_refl eq_refl eq_refl eq_refl) as (res & s' & E & H1 & H2 & _).
  exists res, s'. split; [exact E|]. split; [exact H1 | exact H2].
Defined.


(** ** The tools, continued *)

Lemma get_session_unknown m sid clk :
  Dict.get (_sessions m) sid = None -> get_session m sid clk = (None, m).
Proof. intros G. unfold get_session. now rewrite G. Qed.

Lemma get_session_expired m sid clk s :
  Dict.get (_sessions m) sid = Some s ->
  minutes (session_ttl_minutes (_config m)) < clk 0%nat - last_used s ->
  get_session m sid clk = (None, with_sessions m (Dict.pop (_sessions m) sid)).
Proof.
  intros G H. unfold get_session, is_expired. rewrite G.
  assert ((minutes (session_ttl_minutes (_config m)) <? clk 0%nat - last_used s) = true)
    as -> by (apply Z.ltb_lt; lia).
  reflexivity.
Qed.

Lemma get_session_live m sid clk s :
  Dict.get (_sessions m) sid = Some s ->
  clk 0%nat - last_used s <= minutes (session_ttl_minutes (_config m)) ->
  get_session m sid clk
  = (Some (touch s (clk 1%nat)),
     with_sessions m (Dict.set (_sessions m) sid (touch s (clk 1%nat)))).
Proof.
  intros G H. unfold get_session, is_expired. rewrite G.
  assert ((minutes (session_ttl_minutes (_config m)) <? clk 0%nat - last_used s) = false)
    as -> by (apply Z.ltb_ge; lia).
  reflexivity.
Qed.

Lemma server_eta srv : mkServer (srv_sessions srv) (srv_heap srv) = srv.
Proof. now destruct srv. Qed.

Section ToolExtras.

Variable type_name : Value -> string.
Variable _var_preview : Value -> string.

Abbreviation list_namespace := (repl_list_namespace type_name _var_preview).

(** X20.  On an identifier the store does not know, every tool that
    addresses a session answers that the session is not found and leaves
    the store and the heap as they are. *)
Theorem tools_on_unknown_session srv sid clk :
  Dict.get (_sessions (srv_sessions srv)) sid = None ->
  (forall name, repl_get_variable srv sid name clk = (SessionNotFound sid, srv))
  /\ (forall name json, repl_set_variable srv sid name json clk = (SessionNotFound sid, srv))
  /\ (forall name, repl_delete_variable srv sid name clk = (SessionNotFound sid, srv))
  /\ repl_clear_namespace srv sid clk = (SessionNotFound sid, srv)
  /\ list_namespace srv sid clk = (AdminSessionNotFound sid, srv)
  /\ (forall n, repl_get_history srv sid n clk = (AdminSessionNotFound sid, srv)).
Proof.
  intros G. pose proof (get_session_unknown _ _ clk G) as E.
  unfold repl_get_variable, repl_set_variable, repl_delete_variable,
    repl_clear_namespace, repl_list_namespace, repl_get_history.
  rewrite E, server_eta. repeat split.
Qed.

(** X21.  On the identifier of a session idle for longer than the time to
    live, every such tool answers that the session is not found, and the
    session is gone from the store: the lookup deleted it. *)
Theorem tools_on_expired_session srv sid clk s :
  Dict.get (_sessions (srv_sessions srv)) sid = Some s ->
  minutes (session_ttl_minutes (_config (srv_sessions srv))) < clk 0%nat - last_used s ->
  let gone := mkServer (with_sessions (srv_sessions srv)
                          (Dict.pop (_sessions (srv_sessions srv)) sid))
                       (srv_heap srv) in
  Dict.get (_sessions (srv_sessions gone)) sid = None
  /\ (forall name, repl_get_variable srv sid name clk = (SessionNotFound sid, gone))
  /\ (forall name json, repl_set_variable srv sid name json clk = (SessionNotFound sid, gone))
  /\ (forall name, repl_delete_variable srv sid name clk = (SessionNotFound sid, gone))
  /\ repl_clear_namespace srv sid clk = (SessionNotFound sid, gone)
  /\ list_namespace srv sid clk = (AdminSessionNotFound sid, gone)
  /\ (forall n, repl_get_history srv sid n clk = (AdminSessionNotFound sid, gone)).
Proof.
  intros G H gone. pose proof (get_session_expired _ _ _ G H) as E.
  unfold repl_get_variable, repl_set_variable, repl_delete_variable,
    repl_clear_namespace, repl_list_namespace, repl_get_history.
  rewrite E. split; [apply DictFacts.get_pop_same|]. repeat split.
Qed.

(** The store after a tool wrote a session back: the session found under
    [sid] is the one written. *)
Lemma store_back_get m sid s s' :
  ids_match (_sessions m) = true ->
  Dict.get (_sessions m) sid = Some s -> session_id s' = session_id s ->
  Dict.get (_sessions (store_back m s')) sid = Some s'
  /\ forall sid', sid' <> sid ->
       Dict.get (_sessions (store_back m s')) sid' = Dict.get (_sessions m) sid'.
Proof.
  intros I G E. pose proof (ids_match_In _ _ _ I (DictFacts.get_Some_In _ _ G)) as Hid.
  unfold store_back. cbn [_sessions with_sessions]. rewrite E, Hid. split.
  - apply DictFacts.get_set_same.
  - intros sid' N. apply DictFacts.get_set_other. congruence.
Qed.

(** X22.  What set-variable stores, get-variable returns: on a live
    session, after set-variable under a name, get-variable of that name
    answers the new object, which holds the payload, and every other name
    of the session, and every other session, is as it was. *)
Theorem set_then_get_variable srv sid name json clk clk' s :
  ids_match (_sessions (srv_sessions srv)) = true ->
  Dict.get (_sessions (srv_sessions srv)) sid = Some s ->
  clk 0%nat - last_used s <= minutes (session_ttl_minutes (_config (srv_sessions srv))) ->
  clk' 0%nat - clk 1%nat <= minutes (session_ttl_minutes (_config (srv_sessions srv))) ->
  let srv1 := snd (repl_set_variable srv sid name json clk) in
  let obj := VRef (length (srv_heap srv)) in
  fst (repl_set_variable srv sid name json clk) = VariableSet name obj
  /\ deref (srv_heap srv1) (length (srv_heap srv)) = Some (OData json)
  /\ fst (repl_get_variable srv1 sid name clk') = VariableValue name obj
  /\ (forall name', name' <> name ->
        option_map (fun ns => Dict.get ns name') (namespace_of srv1 sid)
        = Some (Dict.get (namespace s) name'))
  /\ (forall sid', sid' <> sid ->
        Dict.get (_sessions (srv_sessions srv1)) sid'
        = Dict.get (_sessions (srv_sessions srv)) sid').
Proof.
  intros I G L1 L2 srv1 obj.
  pose proof (get_session_live _ _ _ G L1) as E1.
  set (m1 := with_sessions (srv_sessions srv)
               (Dict.set (_sessions (srv_sessions srv)) sid (touch s (clk 1%nat)))) in *.
  set (s1 := with_namespace (touch s (clk 1%nat))
               (Dict.set (namespace (touch s (clk 1%nat))) name obj)).
  assert (repl_set_variable srv sid name json clk
          = (VariableSet name obj,
             mkServer (store_back m1 s1) (srv_heap srv ++ [OData json])%list)) as Eset.
  { unfold repl_set_variable, alloc. rewrite E1. reflexivity. }
  assert (ids_match (_sessions m1) = true) as I1.
  { unfold m1. cbn [_sessions with_sessions]. apply ids_match_set; auto.
    apply (ids_match_In _ _ _ I (DictFacts.get_Some_In _ _ G)). }
  assert (Dict.get (_sessions m1) sid = Some (touch s (clk 1%nat))) as G1.
  { unfold m1. cbn [_sessions with_sessions]. apply DictFacts.get_set_same. }
  destruct (@store_back_get m1 sid (touch s (clk 1%nat)) s1 I1 G1 eq_refl) as [Gs Go].
  unfold srv1. rewrite Eset. cbn [fst snd srv_heap srv_sessions].
  split; [reflexivity|]. split; [|split; [|split]].
  - unfold deref. rewrite nth_error_app2 by lia. now rewrite Nat.sub_diag.
  - unfold repl_get_variable. cbn [srv_sessions srv_heap].
    rewrite (get_session_live _ _ clk' Gs) by (cbn; exact L2).
    cbn [namespace touch s1 with_namespace]. now rewrite DictFacts.get_set_same.
  - intros name' N. unfold namespace_of. cbn [srv_sessions]. rewrite Gs.
    cbn [option_map namespace s1 with_namespace touch].
    f_equal. apply DictFacts.get_set_other. congruence.
  - intros sid' N. rewrite (Go _ N). unfold m1. cbn [_sessions with_sessions].
    apply DictFacts.get_set_other. congruence.
Qed.

End ToolExtras.

Lemma get_map_filter (V W : Type) (g : V -> W) (p : string -> bool) (d : Dict.t V) k :
  Dict.get (map (fun kv => (fst kv, g (snd kv))) (filter (fun kv => p (fst kv)) d)) k
  = if p k then option_map g (Dict.get d k) else None.
Proof.
  induction d as [|[k' v] r IH]; cbn [filter map Dict.get fst snd].
  - now destruct (p k).
  - destruct (String.eqb k' k) eqn:E.
    + apply String.eqb_eq in E. subst k'. destruct (p k) eqn:P.
      * cbn [map Dict.get fst snd]. now rewrite String.eqb_refl.
      * exact IH.
    + destruct (p k') eqn:P'.
      * cbn [map Dict.get fst snd]. now rewrite E.
      * exact IH.
Qed.

Lemma map_fst_filter (V : Type) (p : string -> bool) (d : list (string * V)) :
  map (fun kv => fst kv) (filter (fun kv => p (fst kv)) d) = filter p (map fst d).
Proof.
  induction d as [|[k v] r IH]; simpl; auto.
  destruct (p k); simpl; now rewrite IH.
Qed.

Section ToolExtras2.

Variable type_name : Value -> string.
Variable _var_preview : Value -> string.
Variable vars_builtins : Dict.t BuiltinEntry.
Variable py_exec : string -> Dict.t Value -> Heap -> Z -> ExecOutcome.
Variable format_exc : PyException -> string.
Variable resolve_path : string -> string.
Variable read_file : string -> FileRead.

Abbreviation list_namespace := (repl_list_namespace type_name _var_preview).
Abbreviation run_code := (repl_run_code vars_builtins py_exec format_exc).
Abbreviation run_file :=
  (repl_run_file vars_builtins py_exec format_exc resolve_path read_file).

(** X23.  On a live session, delete-variable of a name that is not bound
    answers that the variable is not found and changes no binding; of a
    bound name, it unbinds it, so that get-variable then answers not
    found, and leaves every other name as it was. *)
Theorem delete_then_get_variable srv sid name clk clk' s :
  ids_match (_sessions (srv_sessions srv)) = true ->
  Dict.get (_sessions (srv_sessions srv)) sid = Some s ->
  clk 0%nat - last_used s <= minutes (session_ttl_minutes (_config (srv_sessions srv))) ->
  clk' 0%nat - clk 1%nat <= minutes (session_ttl_minutes (_config (srv_sessions srv))) ->
  let srv1 := snd (repl_delete_variable srv sid name clk) in
  (Dict.get (namespace s) name = None ->
     fst (repl_delete_variable srv sid name clk) = VariableNotFound name (summary_keys s)
     /\ namespace_of srv1 sid = Some (namespace s))
  /\ (forall v, Dict.get (namespace s) name = Some v ->
        fst (repl_delete_variable srv sid name clk)
        = VariableDeleted name (filter user_name (Dict.keys (Dict.pop (namespace s) name)))
        /\ namespace_of srv1 sid = Some (Dict.pop (namespace s) name)
        /\ fst (repl_get_variable srv1 sid name clk')
           = VariableNotFound name
               (filter user_name (Dict.keys (Dict.pop (namespace s) name)))).
Proof.
  intros I G L1 L2 srv1.
  pose proof (get_session_live _ _ _ G L1) as E1.
  set (m1 := with_sessions (srv_sessions srv)
               (Dict.set (_sessions (srv_sessions srv)) sid (touch s (clk 1%nat)))) in *.
  assert (ids_match (_sessions m1) = true) as I1.
  { unfold m1. cbn [_sessions with_sessions]. apply ids_match_set; auto.
    apply (ids_match_In _ _ _ I (DictFacts.get_Some_In _ _ G)). }
  assert (Dict.get (_sessions m1) sid = Some (touch s (clk 1%nat))) as G1.
  { unfold m1. cbn [_sessions with_sessions]. apply DictFacts.get_set_same. }
  unfold srv1, repl_delete_variable, Dict.contains. rewrite E1.
  cbn [namespace touch]. split.
  - intros N. rewrite N. cbn [fst snd]. split; [reflexivity|].
    unfold namespace_of. cbn [srv_sessions]. now rewrite G1.
  - intros v N. rewrite N. cbn [fst snd].
    set (s1 := with_namespace (touch s (clk 1%nat)) (Dict.pop (namespace s) name)).
    destruct (@store_back_get m1 sid (touch s (clk 1%nat)) s1 I1 G1 eq_refl) as [Gs _].
    split; [reflexivity|]. split.
    + unfold namespace_of. cbn [srv_sessions]. now rewrite Gs.
    + unfold repl_get_variable. cbn [srv_sessions srv_heap].
      rewrite (get_session_live _ _ clk' Gs) by (cbn; exact L2).
      cbn [namespace touch s1 with_namespace]. now rewrite DictFacts.get_pop_same.
Qed.

(** X24.  On a live session list-namespace shows exactly the names that
    do not begin with an underscore, each with the type and the preview of
    its object; a name that begins with an underscore is not shown, yet
    get-variable returns its object. *)
Theorem listing_hides_underscore_names srv sid clk s :
  Dict.get (_sessions (srv_sessions srv)) sid = Some s ->
  clk 0%nat - last_used s <= minutes (session_ttl_minutes (_config (srv_sessions srv))) ->
  exists variables srv',
    list_namespace srv sid clk = (NamespaceListing (length variables) variables, srv')
    /\ Dict.keys variables = summary_keys s
    /\ (forall name, PyStr.startswith "_" name = false ->
          Dict.get variables name
          = option_map (fun v => (type_name v, _var_preview v))
                       (Dict.get (namespace s) name))
    /\ (forall name v, PyStr.startswith "_" name = true ->
          Dict.get (namespace s) name = Some v ->
          Dict.get variables name = None
          /\ fst (repl_get_variable srv sid name clk) = VariableValue name v).
Proof.
  intros G L. pose proof (get_session_live _ _ _ G L) as E.
  unfold repl_list_namespace. rewrite E. cbn [namespace touch].
  do 2 eexists. split; [reflexivity|]. split; [|split].
  - unfold Dict.keys, summary_keys. rewrite map_map. cbn [fst].
    apply (map_fst_filter user_name).
  - intros name U.
    rewrite (get_map_filter (fun v => (type_name v, _var_preview v)) user_name).
    unfold user_name. now rewrite U.
  - intros name v U N. split.
    + rewrite (get_map_filter (fun v => (type_name v, _var_preview v)) user_name).
      unfold user_name. now rewrite U.
    + unfold repl_get_variable. rewrite E. cbn [namespace touch]. now rewrite N.
Qed.

(** X25.  On a live session clear-namespace names, in its answer, only
    the names that do not begin with an underscore, but unbinds every
    name: the namespace is empty afterwards. *)
Theorem clear_namespace_clears_all srv sid clk s :
  ids_match (_sessions (srv_sessions srv)) = true ->
  Dict.get (_sessions (srv_sessions srv)) sid = Some s ->
  clk 0%nat - last_used s <= minutes (session_ttl_minutes (_config (srv_sessions srv))) ->
  fst (repl_clear_namespace srv sid clk) = NamespaceCleared (summary_keys s)
  /\ namespace_of (snd (repl_clear_namespace srv sid clk)) sid = Some Dict.empty
  /\ option_map history
       (Dict.get (_sessions (srv_sessions (snd (repl_clear_namespace srv sid clk)))) sid)
     = Some (history s).
Proof.
  intros I G L. pose proof (get_session_live _ _ _ G L) as E1.
  set (m1 := with_sessions (srv_sessions srv)
               (Dict.set (_sessions (srv_sessions srv)) sid (touch s (clk 1%nat)))) in *.
  assert (ids_match (_sessions m1) = true) as I1.
  { unfold m1. cbn [_sessions with_sessions]. apply ids_match_set; auto.
    apply (ids_match_In _ _ _ I (DictFacts.get_Some_In _ _ G)). }
  assert (Dict.get (_sessions m1) sid = Some (touch s (clk 1%nat))) as G1.
  { unfold m1. cbn [_sessions with_sessions]. apply DictFacts.get_set_same. }
  unfold repl_clear_namespace. rewrite E1. cbn [fst snd].
  destruct (@store_back_get m1 sid (touch s (clk 1%nat))
              (with_namespace (touch s (clk 1%nat)) Dict.empty) I1 G1 eq_refl) as [Gs _].
  split; [reflexivity|]. unfold namespace_of. cbn [srv_sessions]. rewrite Gs.
  split; reflexivity.
Qed.

(** X26.  The total that list-sessions reports is the number of sessions
    before the sweep of expired ones, so it is at least the number of
    sessions listed, which is the number the store holds afterwards; the
    two agree when no session has expired. *)
Theorem list_sessions_total srv clk :
  exists infos srv',
    repl_list_sessions srv clk
    = (SessionListing (count (srv_sessions srv)) infos, srv')
    /\ (length infos <= count (srv_sessions srv))%nat
    /\ length infos = count (srv_sessions srv')
    /\ infos = map session_info (Dict.values (_sessions (srv_sessions srv')))
    /\ (expired_ids (_sessions (srv_sessions srv))
                    (session_ttl_minutes (_config (srv_sessions srv))) clk = [] ->
        length infos = count (srv_sessions srv) /\ srv' = srv).
Proof.
  unfold repl_list_sessions, list_sessions. do 2 eexists. split; [reflexivity|].
  cbn [srv_sessions]. unfold count, Dict.values. rewrite !length_map.
  split; [|split; [reflexivity|split; [reflexivity|]]].
  - unfold _evict_expired. cbn [_sessions with_sessions]. apply length_fold_pop.
  - intros H. rewrite (evict_none _ _ H). split; [reflexivity | apply server_eta].
Qed.

Lemma skipn_suffix (A : Type) (l : list A) n :
  exists earlier, l = (earlier ++ skipn n l)%list
                  /\ length (skipn n l) = (length l - n)%nat.
Proof.
  exists (firstn n l). split; [symmetry; apply firstn_skipn | apply length_skipn].
Qed.

(** X27.  On a live session get-history, asked for the last [n] records
    with [n] at least one, returns the [n] most recent ones in order, or
    the whole history when it holds fewer, and reports both counts; the
    history itself is not changed. *)
Theorem get_history_returns_last srv sid n clk s :
  Dict.get (_sessions (srv_sessions srv)) sid = Some s ->
  clk 0%nat - last_used s <= minutes (session_ttl_minutes (_config (srv_sessions srv))) ->
  1 <= n ->
  exists entries earlier,
    fst (repl_get_history srv sid n clk)
    = HistorySlice (length (history s)) (length entries) entries
    /\ history s = (earlier ++ entries)%list
    /\ length entries = Nat.min (Z.to_nat n) (length (history s))
    /\ option_map history
         (Dict.get (_sessions (srv_sessions (snd (repl_get_history srv sid n clk)))) sid)
       = Some (history s).
Proof.
  intros G L Hn. pose proof (get_session_live _ _ _ G L) as E.
  unfold repl_get_history. rewrite E. cbn [fst snd history touch srv_sessions].
  unfold list_slice_from.
  assert ((- n <? 0) = true) as -> by (apply Z.ltb_lt; lia).
  destruct (skipn_suffix (history s)
              (Z.to_nat (Z.max 0 (Z.of_nat (length (history s)) + - n))))
    as (earlier & E1 & E2).
  do 2 eexists. split; [reflexivity|]. split; [exact E1|]. split.
  - rewrite E2. lia.
  - cbn [_sessions with_sessions]. now rewrite DictFacts.get_set_same.
Qed.

(** X28.  Whatever the script does, after run-file on a readable file the
    session it ran in binds [__file__] to the object made for the file
    path, and the call reports [__file__] neither as new nor as
    modified. *)
Theorem run_file_binds_file srv path sid clk new_id now code session m :
  read_file (resolve_path path) = Content code ->
  get_or_create (srv_sessions srv) sid clk new_id = (Some session, m) ->
  let srv' := snd (run_file srv path sid clk new_id now) in
  namespace_of srv' (session_id session)
  <> None
  /\ option_map (fun ns => Dict.get ns "__file__") (namespace_of srv' (session_id session))
     = Some (Some (VRef (length (srv_heap srv))))
  /\ (forall res sid' keys,
        fst (run_file srv path sid clk new_id now) = RunReport res sid' keys ->
        sid' = session_id session
        /\ ~ In "__file__" (names (new_vars res))
        /\ ~ In "__file__" (names (modified_vars res))
        /\ ~ In "__file__" keys).
Proof.
  intros Hf Hg srv'. unfold srv', repl_run_file, alloc. rewrite Hf, Hg.
  set (s0 := with_namespace session
               (Dict.set (namespace session) "__file__" (VRef (length (srv_heap srv))))).
  unfold run_in_session.
  destruct (execute_code vars_builtins py_exec format_exc code s0
              (_config (store_back m s0)) (srv_heap srv ++ [OData (resolve_path path)])%list now)
    as [[r s'] h'] eqn:E.
  destruct (execute_keeps_identity _ _ _ _ _ _ _ _ E) as (Hid & _).
  pose proof (execute_frame _ _ _ _ _ _ _ _ E) as F. unfold frame_ok in F.
  destruct F as (F1 & F2 & F3 & _).
  assert (Dict.get (namespace s') "__file__" = Some (VRef (length (srv_heap srv)))) as Gf.
  { rewrite (F1 "__file__" eq_refl). unfold s0. cbn [namespace with_namespace].
    apply DictFacts.get_set_same. }
  assert (forall st, Dict.get (_sessions (store_back st s')) (session_id session) = Some s')
    as Gs.
  { intros st. unfold store_back. cbn [_sessions with_sessions].
    rewrite Hid. unfold s0. cbn [session_id with_namespace]. apply DictFacts.get_set_same. }
  assert (~ In "__file__" (summary_keys s')) as Hk.
  { unfold summary_keys. intros H. apply filter_In in H as [_ H]. discriminate. }
  destruct r as [res|e]; cbn [fst snd]; unfold namespace_of; cbn [srv_sessions];
    rewrite Gs; cbn [option_map]; rewrite Gf.
  - split; [discriminate|]. split; [reflexivity|].
    intros res0 sid' keys [= <- <- <-]. split.
    + rewrite Hid. reflexivity.
    + cbn [reported_new reported_modified] in F2, F3. repeat split; auto.
      * intros H. destruct (F2 _ H) as [[]|]; discriminate.
      * intros H. destruct (F3 _ H) as [[]|]; discriminate.
  - split; [discriminate|]. split; [reflexivity|]. discriminate.
Qed.

(** X29.  A submission of white space alone to run-code, with no session
    identifier and room for a session, still creates a session: the
    answer carries the ValueError result and the new identifier, and the
    store holds the new session, with no binding and no history. *)
Theorem blank_run_code_creates_session srv code clk new_id now :
  PyStr.all_space code = true ->
  1 <= max_sessions (_config (srv_sessions srv)) ->
  let fresh :=
    let t := clk (length (_sessions (srv_sessions srv))) in
    mkSession new_id t t Dict.empty [] in
  exists res,
    fst (run_code srv code None clk new_id now) = RunReport res new_id []
    /\ status res = "error" /\ error_type res = Some "ValueError"
    /\ Dict.get (_sessions (srv_sessions (snd (run_code srv code None clk new_id now))))
                new_id
       = Some fresh
    /\ srv_heap (snd (run_code srv code None clk new_id now)) = srv_heap srv.
Proof.
  intros B H1 fresh. rewrite <- blank_all_space in B.
  destruct (@create_session_stores_fresh (srv_sessions srv) clk new_id H1) as [d E].
  unfold repl_run_code, get_or_create. rewrite E. fold fresh.
  unfold run_in_session, execute_code. rewrite B. cbn [fst snd].
  eexists. split; [reflexivity|]. split; [reflexivity|]. split; [reflexivity|].
  split; [|reflexivity]. unfold store_back. cbn [srv_sessions _sessions with_sessions].
  cbn [session_id fresh]. apply DictFacts.get_set_same.
Qed.

End ToolExtras2.

Lemma tools_on_unknown_session_witness :
  repl_clear_namespace Scripts.server "zzz" (Sample.at_time 6000000000)
  = (SessionNotFound "zzz", Scripts.server)
  /\ repl_get_history Scripts.server "zzz" 10 (Sample.at_time 6000000000)
     = (AdminSessionNotFound "zzz", Scripts.server).
Proof.
  destruct (@tools_on_unknown_session Scripts.type_name Scripts._var_preview
              Scripts.server "zzz" (Sample.at_time 6000000000) eq_refl)
    as (_ & _ & _ & H4 & _ & H6).
  split; [exact H4 | apply H6].
Defined.

Lemma tools_on_expired_session_witness :
  fst (repl_get_variable Scripts.server "aaa" "x" (Sample.at_time 8000000000))
  = SessionNotFound "aaa"
  /\ Dict.keys (_sessions (srv_sessions
                  (snd (repl_get_variable Scripts.server "aaa" "x"
                          (Sample.at_time 8000000000)))))
     = ["bbb"].
Proof.
  destruct (@tools_on_expired_session Scripts.type_name Scripts._var_preview
              Scripts.server "aaa" (Sample.at_time 8000000000)
              (mkSession "aaa" 0 0 Dict.empty []) eq_refl eq_refl)
    as (_ & H2 & _).
  rewrite (H2 "x"). split; reflexivity.
Defined.

Lemma set_then_get_variable_witness :
  fst (repl_get_variable
         (snd (repl_set_variable Scripts.server "bbb" "data" "[1, 2]"
                 (Sample.at_time 6000000000)))
         "bbb" "data" (Sample.at_time 6000000001))
  = VariableValue "data" (VRef 2%nat).
Proof.
  destruct (@set_then_get_variable Scripts.server "bbb" "data" "[1, 2]"
              (Sample.at_time 6000000000) (Sample.at_time 6000000001) Scripts.session_b
              eq_refl eq_refl) as (_ & _ & H & _).
  - vm_compute. discriminate.
  - vm_compute. discriminate.
  - exact H.
Defined.

Lemma delete_then_get_variable_witness :
  fst (repl_get_variable
         (snd (repl_delete_variable Scripts.server "bbb" "x" (Sample.at_time 6000000000)))
         "bbb" "x" (Sample.at_time 6000000001))
  = VariableNotFound "x" []
  /\ fst (repl_delete_variable Scripts.server "bbb" "q" (Sample.at_time 6000000000))
     = VariableNotFound "q" ["x"].
Proof.
  destruct (@delete_then_get_variable Scripts.server "bbb" "x"
              (Sample.at_time 6000000000) (Sample.at_time 6000000001) Scripts.session_b
              eq_refl eq_refl) as (_ & H).
  - vm_compute. discriminate.
  - vm_compute. discriminate.
  - destruct (@delete_then_get_variable Scripts.server "bbb" "q"
                (Sample.at_time 6000000000) (Sample.at_time 6000000001) Scripts.session_b
                eq_refl eq_refl) as (H' & _).
    + vm_compute. discriminate.
    + vm_compute. discriminate.
    + split.
      * exact (proj2 (proj2 (H (VRef 0%nat) eq_refl))).
      * exact (proj1 (H' eq_refl)).
Defined.

Lemma listing_hides_underscore_names_witness :
  exists variables srv',
    repl_list_namespace Scripts.type_name Scripts._var_preview
      Scripts.server "bbb" (Sample.at_time 6000000000)
    = (NamespaceListing (length variables) variables, srv')
    /\ Dict.keys variables = ["x"]
    /\ Dict.get variables "_y" = None
    /\ fst (repl_get_variable Scripts.server "bbb" "_y" (Sample.at_time 6000000000))
       = VariableValue "_y" (VRef 1%nat).
Proof.
  destruct (@listing_hides_underscore_names Scripts.type_name Scripts._var_preview
              Scripts.server "bbb" (Sample.at_time 6000000000) Scripts.session_b eq_refl)
    as (variables & srv' & E & K & _ & H).
  - vm_compute. discriminate.
  - exists variables, srv'. split; [exact E|]. split; [exact K|].
    apply (H "_y" (VRef 1%nat)); reflexivity.
Defined.

Lemma clear_namespace_clears_all_witness :
  fst (repl_clear_namespace Scripts.server "bbb" (Sample.at_time 6000000000))
  = NamespaceCleared ["x"]
  /\ namespace_of (snd (repl_clear_namespace Scripts.server "bbb"
                          (Sample.at_time 6000000000))) "bbb"
     = Some Dict.empty.
Proof.
  destruct (@clear_namespace_clears_all Scripts.server "bbb" (Sample.at_time 6000000000)
              Scripts.session_b eq_refl eq_refl) as (H1 & H2 & _).
  - vm_compute. discriminate.
  - split; [exact H1 | exact H2].
Defined.

Lemma list_sessions_total_witness :
  exists infos srv',
    repl_list_sessions Scripts.server (Sample.at_time 6000000000)
    = (SessionListing 2 infos, srv')
    /\ length infos = 2%nat /\ srv' = Scripts.server.
Proof.
  destruct (list_sessions_total Scripts.server (Sample.at_time 6000000000))
    as (infos & srv' & E & _ & _ & _ & H).
  exists infos, srv'. split; [exact E|]. apply H. reflexivity.
Defined.

Lemma get_history_returns_last_witness :
  exists entries earlier,
    fst (repl_get_history Scripts.server "bbb" 2 (Sample.at_time 6000000000))
    = HistorySlice 3 (length entries) entries
    /\ history Scripts.session_b = (earlier ++ entries)%list
    /\ length entries = 2%nat.
Proof.
  destruct (@get_history_returns_last Scripts.server "bbb" 2 (Sample.at_time 6000000000)
              Scripts.session_b eq_refl) as (entries & earlier & E & H1 & H2 & _).
  - vm_compute. discriminate.
  - vm_compute. discriminate.
  - exists entries, earlier. split; [exact E|]. split; [exact H1 | exact H2].
Defined.

Lemma run_file_binds_file_witness :
  option_map (fun ns => Dict.get ns "__file__")
    (namespace_of
       (snd (repl_run_file Sample.builtins_table Sample.py_exec Sample.format_exc
               Sample.resolve_path Sample.read_file Scripts.server "/tmp/job.py"
               (Some "bbb") (Sample.at_time 6000000000) "ccc" 7))
       "bbb")
  = Some (Some (VRef 2%nat)).
Proof.
  destruct (@run_file_binds_file Sample.builtins_table Sample.py_exec Sample.format_exc
              Sample.resolve_path Sample.read_file Scripts.server "/tmp/job.py"
              (Some "bbb") (Sample.at_time 6000000000) "ccc" 7 "x = 42"
              _ _ eq_refl eq_refl) as (_ & H & _).
  exact H.
Defined.

Lemma blank_run_code_creates_session_witness :
  exists res,
    fst (repl_run_code Sample.builtins_table Sample.py_exec Sample.format_exc
           Scripts.server "  " None (Sample.at_time 6000000000) "ccc" 7)
    = RunReport res "ccc" []
    /\ status res = "error".
Proof.
  destruct (@blank_run_code_creates_session Sample.builtins_table Sample.py_exec
              Sample.format_exc Scripts.server "  " (Sample.at_time 6000000000) "ccc" 7
              eq_refl) as (res & E & St & _).
  - vm_compute. discriminate.
  - exists res. split; [exact E | exact St].
Defined.
